(** * agentswarm: supervisor, daemon, health monitor and quota probe

    A shallow embedding of the coordination core of the swarm
    (lib/daemon.js, lib/health-monitor.js, lib/quota-probe.js,
    lib/spawner.js and lib/supervisor.js) and the properties of its
    admission, crash-recovery, scaling, heartbeat and budget logic.

    Modelling conventions.
    - A JavaScript [Map] is an insertion-ordered association list
      ([JsMap]): iteration order is observable in [check] and [scale].
    - Objects are records; a method that mutates [this] returns the new
      record.  [EventEmitter.emit] runs its listeners synchronously, so a
      method returns the actions it performed, in order, and the owner
      of the object applies its listeners to them.
    - A thrown exception is an [Outcome]: [Thrown msg a] carries the state
      reached when the exception left the function.
    - Numbers: counters and millisecond timestamps are integers ([Z]);
      the settings that may be fractions and the ratios that are only
      compared are rationals ([Q]).  Where the source turns a quotient or
      a product of doubles into an integer ([Math.ceil], [Math.round]),
      the arithmetic is that of IEEE 754 binary64 ([Double]).
    - [Date.now()], the child-process spawn and the identity generator are
      inputs ([Env]); one synchronous call chain reads one clock value. *)

From Stdlib Require Import ZArith QArith Qround List String Ascii Bool Lia.
From Stdlib Require Import Sorting.Sorted Sorting.Permutation.
From Stdlib Require Import DecimalString.
From Stdlib Require Import SpecFloat.
Import ListNotations.

Local Open Scope string_scope.
Local Open Scope list_scope.
Local Open Scope Z_scope.

(** ** Outcomes of calls that may throw *)

Inductive Outcome (A : Type) : Type :=
| Returned (a : A)
| Thrown (message : string) (a : A).

Arguments Returned {A} a.
Arguments Thrown {A} message a.

Definition bindO {A} (r : Outcome A) (k : A -> Outcome A) : Outcome A :=
  match r with
  | Returned a => k a
  | Thrown m a => Thrown m a
  end.

Definition stateOf {A} (r : Outcome A) : A :=
  match r with
  | Returned a => a
  | Thrown _ a => a
  end.

Definition returns {A} (r : Outcome A) : bool :=
  match r with
  | Returned _ => true
  | Thrown _ _ => false
  end.

(** ** Insertion-ordered maps with string keys *)

Module JsMap.

Definition t (V : Type) : Type := list (string * V).

Fixpoint get {V} (k : string) (m : t V) : option V :=
  match m with
  | [] => None
  | (k', v) :: m' => if String.eqb k k' then Some v else get k m'
  end.

(** [Map.prototype.set]: an existing key keeps its position. *)
Fixpoint set {V} (k : string) (v : V) (m : t V) : t V :=
  match m with
  | [] => [(k, v)]
  | (k', v') :: m' =>
      if String.eqb k k' then (k, v) :: m' else (k', v') :: set k v m'
  end.

Definition delete {V} (k : string) (m : t V) : t V :=
  filter (fun kv => negb (String.eqb k (fst kv))) m.

Definition has {V} (k : string) (m : t V) : bool :=
  match get k m with Some _ => true | None => false end.

Definition size {V} (m : t V) : Z := Z.of_nat (List.length m).

Definition keys {V} (m : t V) : list string := map fst m.

(** A map holds each key once. *)
Definition wf {V} (m : t V) : Prop := NoDup (keys m).

End JsMap.

(** ** JavaScript helpers *)

(** Truthiness of a number and of a string. *)
Definition truthyZ (z : Z) : bool := negb (z =? 0).

Definition truthyS (s : string) : bool := negb (String.eqb s "").

Definition truthyOZ (o : option Z) : bool :=
  match o with Some z => truthyZ z | None => false end.

Definition truthyOS (o : option string) : bool :=
  match o with Some s => truthyS s | None => false end.

(** [a || b] on strings. *)
Definition orS (o : option string) (d : string) : string :=
  match o with
  | Some s => if truthyS s then s else d
  | None => d
  end.

(** [String(n)] for a non-negative integer and [padStart(w, '0')]. *)
Definition stringOfZ (z : Z) : string :=
  NilZero.string_of_int (Z.to_int z).

Fixpoint zeros (n : nat) : string :=
  match n with
  | O => ""
  | S n' => String "0"%char (zeros n')
  end.

Definition padStart0 (w : nat) (s : string) : string :=
  (zeros (w - String.length s) ++ s)%string.

(** [s.slice(-n)]: the last [n] characters. *)
Definition sliceLast (n : nat) (s : string) : string :=
  String.substring (String.length s - n) n s.

(** ** The daemon (lib/daemon.js) *)

Module Daemon.

Inductive DaemonState : Type := IDLE | PROMOTING | ACTIVE | DEMOTING | CRASHED.

Definition state_eqb (a b : DaemonState) : bool :=
  match a, b with
  | IDLE, IDLE | PROMOTING, PROMOTING | ACTIVE, ACTIVE
  | DEMOTING, DEMOTING | CRASHED, CRASHED => true
  | _, _ => false
  end.

(** A task record [{role, component?, prompt?, id?}]. *)
Record Task : Type := mkTask {
  task_role : option string;
  task_component : option string;
  task_prompt : option string;
  task_id : option string
}.

(** The handle returned by [child_process.spawn]. *)
Record ChildProcess : Type := mkChild { pid : option Z }.

(** What [spawnProcess] does when it is called. *)
Inductive SpawnOutcome : Type :=
| Spawned (child : ChildProcess)
| SpawnThrows (message : string).

(** The payload of [done] and [fail]. *)
Record TaskResult : Type := mkResult {
  res_agentId : string;
  res_task : option Task;
  res_exitCode : option Z;
  res_signal : option string;
  res_success : bool;
  res_output : option string;
  res_error : option string
}.

Inductive Event : Type :=
| started (agentId : string)
| stopped (agentId : string)
| heartbeat (agentId : string) (status : DaemonState)
| claim (agentId : string) (component : option string) (role : string)
| promote_request (agentId : string) (task : option Task)
| error (agentId : string) (message : string)
| unclaim (agentId : string) (reason : string)
| promoted (agentId : string) (pid : option Z) (task : option Task)
| done (result : TaskResult)
| fail (result : TaskResult)
| demoted (agentId : string)
| crashed (agentId : string) (message : string).

(** The three context records written to the workspace; the text itself
    (which embeds an ISO date) is not modelled. *)
Inductive Context : Type :=
| ActiveTask (task : Task)
| LastTask (task : option Task) (success : bool) (code : option Z)
| Crash (message : string).

Inductive Action : Type :=
| Emit (e : Event)
| Kill (child : ChildProcess)
| WriteContext (c : Context)
| SpawnProcess (prompt : string).

Record t : Type := mk {
  agentId : string;
  name : string;
  workspace : string;
  role : string;
  channels : list string;
  heartbeatIntervalMs : Z;
  command : string;
  state : DaemonState;
  currentTask : option Task;
  claudeProcess : option ChildProcess;
  _heartbeatTimer : bool
}.

Definition with_state (s : DaemonState) (d : t) : t :=
  mk (agentId d) (name d) (workspace d) (role d) (channels d)
     (heartbeatIntervalMs d) (command d) s (currentTask d)
     (claudeProcess d) (_heartbeatTimer d).

Definition with_currentTask (k : option Task) (d : t) : t :=
  mk (agentId d) (name d) (workspace d) (role d) (channels d)
     (heartbeatIntervalMs d) (command d) (state d) k
     (claudeProcess d) (_heartbeatTimer d).

Definition with_claudeProcess (p : option ChildProcess) (d : t) : t :=
  mk (agentId d) (name d) (workspace d) (role d) (channels d)
     (heartbeatIntervalMs d) (command d) (state d) (currentTask d)
     p (_heartbeatTimer d).

Definition with_heartbeatTimer (b : bool) (d : t) : t :=
  mk (agentId d) (name d) (workspace d) (role d) (channels d)
     (heartbeatIntervalMs d) (command d) (state d) (currentTask d)
     (claudeProcess d) b.

Record Config : Type := mkConfig {
  cfg_agentId : string;
  cfg_name : string;
  cfg_workspace : string;
  cfg_role : option string;
  cfg_channels : option (list string);
  cfg_heartbeatIntervalMs : Z;
  cfg_command : option string
}.

Definition blank : t :=
  mk "" "" "" "builder" ["#agents"] 30000 "claude" IDLE None None false.

Definition constructor (c : Config) : Outcome t :=
  if negb (truthyS (cfg_agentId c)) then Thrown "daemon requires agentId" blank
  else if negb (truthyS (cfg_name c)) then Thrown "daemon requires name" blank
  else if negb (truthyS (cfg_workspace c)) then
    Thrown "daemon requires workspace" blank
  else
    Returned
      (mk (cfg_agentId c) (cfg_name c) (cfg_workspace c)
          (orS (cfg_role c) "builder")
          (match cfg_channels c with Some l => l | None => ["#agents"] end)
          (if truthyZ (cfg_heartbeatIntervalMs c)
           then cfg_heartbeatIntervalMs c else 30000)
          (orS (cfg_command c) "claude")
          IDLE None None false).

Definition _stopHeartbeat (d : t) : t := with_heartbeatTimer false d.

Definition _startHeartbeat (d : t) : t :=
  with_heartbeatTimer true (_stopHeartbeat d).

(** The interval callback armed by [_startHeartbeat]. *)
Definition heartbeatTick (d : t) : list Action :=
  if _heartbeatTimer d then [Emit (heartbeat (agentId d) (state d))] else [].

Definition start (d : t) : t * list Action :=
  let d := with_state IDLE d in
  let d := _startHeartbeat d in
  (d, [Emit (started (agentId d))]).

Definition stop (d : t) : t * list Action :=
  let d := _stopHeartbeat d in
  let '(d, killed) :=
    match claudeProcess d with
    | Some p => (with_claudeProcess None d, [Kill p])
    | None => (d, [])
    end in
  let d := with_state IDLE d in
  let d := with_currentTask None d in
  (d, killed ++ [Emit (stopped (agentId d))]).

Definition matchesRole (d : t) (task : option Task) : bool :=
  match task with
  | None => String.eqb (role d) "general"
  | Some k =>
      match task_role k with
      | Some r =>
          if truthyS r
          then String.eqb r (role d) || String.eqb (role d) "general"
          else String.eqb (role d) "general"
      | None => String.eqb (role d) "general"
      end
  end.

Inductive Message : Type :=
| ASSIGN (agentId : string) (task : option Task)
| TASK_AVAILABLE (task : option Task)
| OtherMessage (type : string).

Definition _requestPromotion (d : t) (task : option Task) : t * list Action :=
  let d := with_state PROMOTING d in
  let d := with_currentTask task d in
  (d, [Emit (promote_request (agentId d) task)]).

Definition handleMessage (d : t) (msg : Message) : Outcome (t * list Action) :=
  if negb (state_eqb (state d) IDLE) then Returned (d, [])
  else
    match msg with
    | ASSIGN a task =>
        if String.eqb a (agentId d)
        then Returned (_requestPromotion d task)
        else Returned (d, [])
    | TASK_AVAILABLE task =>
        if matchesRole d task then
          match task with
          | Some k =>
              Returned
                (d, [Emit (claim (agentId d) (task_component k) (role d))])
          | None =>
              Thrown "TypeError: Cannot read properties of undefined (reading 'component')"
                     (d, [])
          end
        else Returned (d, [])
    | OtherMessage _ => Returned (d, [])
    end.

Definition _handleClaudeError (d : t) (message : string) : t * list Action :=
  let d := with_state CRASHED d in
  (d, [ WriteContext (Crash message);
        Emit (fail (mkResult (agentId d) (currentTask d) None None false
                             None (Some message)));
        Emit (crashed (agentId d) message) ]).

Definition _spawnClaude (d : t) (prompt : string) (o : SpawnOutcome)
  : t * list Action :=
  let d := with_state ACTIVE d in
  let d := _stopHeartbeat d in
  match o with
  | Spawned child =>
      let d := with_claudeProcess (Some child) d in
      (d, [ SpawnProcess prompt;
            Emit (promoted (agentId d) (pid child) (currentTask d)) ])
  | SpawnThrows message =>
      let '(d, acts) := _handleClaudeError d message in
      (d, SpawnProcess prompt :: acts)
  end.

Definition approvePromotion (d : t) (task : option Task) (o : SpawnOutcome)
  : Outcome (t * list Action) :=
  if negb (state_eqb (state d) PROMOTING) then
    Returned
      (d, [Emit (error (agentId d) "Cannot promote: not in promoting state")])
  else
    let d :=
      with_currentTask
        (match task with Some k => Some k | None => currentTask d end) d in
    match currentTask d with
    | None =>
        (* [None] is [null] (no task was ever set) as well as [undefined]
           (an [ASSIGN] without task); the text of the TypeError names
           the one or the other, here [null]. *)
        Thrown "TypeError: Cannot read properties of null (reading 'component')"
               (d, [])
    | Some k =>
        let '(d, acts) :=
          _spawnClaude d (orS (task_prompt k) "Execute the assigned task.") o in
        Returned (d, WriteContext (ActiveTask k) :: acts)
    end.

Definition denyPromotion (d : t) (reason : option string) : t * list Action :=
  if negb (state_eqb (state d) PROMOTING) then (d, [])
  else
    let d := with_state IDLE d in
    let d := with_currentTask None d in
    (d, [Emit (unclaim (agentId d) (orS reason "promotion denied"))]).

Definition _handleClaudeExit (d : t) (code : option Z) (signal : option string)
    (stdout : string) : t * list Action :=
  let d := with_state DEMOTING d in
  let success := match code with Some 0 => true | _ => false end in
  let result :=
    mkResult (agentId d) (currentTask d) code signal success
             (Some (sliceLast 2000 stdout)) None in
  let written := WriteContext (LastTask (currentTask d) success code) in
  let d := with_state IDLE d in
  let d := with_currentTask None d in
  let d := _startHeartbeat d in
  (d, [ written;
        Emit (if success then done result else fail result);
        Emit (demoted (agentId d)) ]).

(** The [exit] and [error] listeners installed on the child process. *)
Definition onChildExit (d : t) (code : option Z) (signal : option string)
    (stdout : string) : t * list Action :=
  _handleClaudeExit (with_claudeProcess None d) code signal stdout.

Definition onChildError (d : t) (message : string) : t * list Action :=
  _handleClaudeError (with_claudeProcess None d) message.

Definition events (acts : list Action) : list Event :=
  flat_map (fun a => match a with Emit e => [e] | _ => [] end) acts.

End Daemon.

(** ** The health monitor (lib/health-monitor.js) *)

Definition Qltb (a b : Q) : bool := negb (Qle_bool b a).

Module HealthMonitor.

Inductive Status : Type := alive | unresponsive | dead.

Definition status_eqb (a b : Status) : bool :=
  match a, b with
  | alive, alive | unresponsive, unresponsive | dead, dead => true
  | _, _ => false
  end.

Record AgentHealth : Type := mkHealth {
  lastSeen : Z;
  status : Status;
  consecutiveMisses : Z;
  pid : option Z;
  memoryMb : option Q;
  cpuPct : option Q;
  uptimeSeconds : Z;
  registeredAt : Z
}.

Inductive Reason : Type :=
| reason_unresponsive
| reason_memory_limit
| reason_cpu_limit.

Definition reason_eqb (a b : Reason) : bool :=
  match a, b with
  | reason_unresponsive, reason_unresponsive
  | reason_memory_limit, reason_memory_limit
  | reason_cpu_limit, reason_cpu_limit => true
  | _, _ => false
  end.

(** The numbers that the source formats into the [detail] text. *)
Inductive Detail : Type :=
| misses (missedCycles threshold : Z)
| exceeds (value limit : Q).

Record Alert : Type := mkAlert {
  alert_agentId : string;
  alert_reason : Reason;
  alert_detail : Detail
}.

Record Options : Type := mkOptions {
  opt_heartbeatIntervalMs : option Z;
  opt_missThreshold : option Z;
  opt_checkIntervalMs : option Z;
  opt_memoryLimitMb : option Q;
  opt_cpuLimitPct : option Q
}.

Record t : Type := mk {
  heartbeatIntervalMs : Z;
  missThreshold : Z;
  checkIntervalMs : Z;
  memoryLimitMb : Q;
  cpuLimitPct : Q;
  agents : JsMap.t AgentHealth;
  _checkTimer : bool
}.

Definition with_agents (m : JsMap.t AgentHealth) (h : t) : t :=
  mk (heartbeatIntervalMs h) (missThreshold h) (checkIntervalMs h)
     (memoryLimitMb h) (cpuLimitPct h) m (_checkTimer h).

Definition with_checkTimer (b : bool) (h : t) : t :=
  mk (heartbeatIntervalMs h) (missThreshold h) (checkIntervalMs h)
     (memoryLimitMb h) (cpuLimitPct h) (agents h) b.

Definition orZ (o : option Z) (d : Z) : Z :=
  match o with Some z => if truthyZ z then z else d | None => d end.

Definition orQ (o : option Q) (d : Q) : Q :=
  match o with Some q => if Qeq_bool q 0 then d else q | None => d end.

Definition constructor (o : Options) : t :=
  mk (orZ (opt_heartbeatIntervalMs o) 30000)
     (orZ (opt_missThreshold o) 3)
     (orZ (opt_checkIntervalMs o) 10000)
     (orQ (opt_memoryLimitMb o) 0)
     (orQ (opt_cpuLimitPct o) 0)
     [] false.

Definition register (h : t) (now : Z) (agentId : string) (pid : option Z) : t :=
  with_agents
    (JsMap.set agentId (mkHealth now alive 0 pid None None 0 now) (agents h)) h.

Definition unregister (h : t) (agentId : string) : t :=
  with_agents (JsMap.delete agentId (agents h)) h.

Definition heartbeat (h : t) (now : Z) (agentId : string) : t :=
  match JsMap.get agentId (agents h) with
  | None => h
  | Some agent =>
      with_agents
        (JsMap.set agentId
           (mkHealth now alive 0 (pid agent) (memoryMb agent) (cpuPct agent)
                     (uptimeSeconds agent) (registeredAt agent))
           (agents h)) h
  end.

Definition updatePid (h : t) (agentId : string) (p : Z) : t :=
  match JsMap.get agentId (agents h) with
  | None => h
  | Some agent =>
      with_agents
        (JsMap.set agentId
           (mkHealth (lastSeen agent) (status agent) (consecutiveMisses agent)
                     (Some p) (memoryMb agent) (cpuPct agent)
                     (uptimeSeconds agent) (registeredAt agent))
           (agents h)) h
  end.

Definition with_freshness (misses0 : Z) (s : Status) (a : AgentHealth)
  : AgentHealth :=
  mkHealth (lastSeen a) s misses0 (pid a) (memoryMb a) (cpuPct a)
           (uptimeSeconds a) (registeredAt a).

(** Heartbeat freshness: the first half of the loop body of [check]. *)
Definition checkHeartbeat (h : t) (now : Z) (agentId : string)
    (agent : AgentHealth) : AgentHealth * list Alert :=
  let timeSinceHeartbeat := now - lastSeen agent in
  if timeSinceHeartbeat >? heartbeatIntervalMs h then
    let missedCycles := timeSinceHeartbeat / heartbeatIntervalMs h in
    if missedCycles >=? missThreshold h then
      if negb (status_eqb (status agent) dead) then
        (with_freshness missedCycles dead agent,
         [mkAlert agentId reason_unresponsive
                  (misses missedCycles (missThreshold h))])
      else (with_freshness missedCycles (status agent) agent, [])
    else if negb (status_eqb (status agent) dead) then
      (with_freshness missedCycles unresponsive agent, [])
    else (with_freshness missedCycles (status agent) agent, [])
  else (agent, []).

(** Resource sampling: the second half of the loop body. [stats] stands
    for [_queryProcessStats], which runs [ps]. *)
Definition checkResources (h : t) (stats : Z -> option (Q * Q))
    (agentId : string) (agent : AgentHealth) : AgentHealth * list Alert :=
  match pid agent with
  | Some p =>
      if truthyZ p then
        match stats p with
        | Some (mb, cpu) =>
            (mkHealth (lastSeen agent) (status agent) (consecutiveMisses agent)
                      (pid agent) (Some mb) (Some cpu)
                      (uptimeSeconds agent) (registeredAt agent),
             (if Qltb 0 (memoryLimitMb h) && Qltb (memoryLimitMb h) mb
              then [mkAlert agentId reason_memory_limit
                            (exceeds mb (memoryLimitMb h))]
              else [])
             ++
             (if Qltb 0 (cpuLimitPct h) && Qltb (cpuLimitPct h) cpu
              then [mkAlert agentId reason_cpu_limit
                            (exceeds cpu (cpuLimitPct h))]
              else []))
        | None => (agent, [])
        end
      else (agent, [])
  | None => (agent, [])
  end.

Definition checkAgent (h : t) (now : Z) (stats : Z -> option (Q * Q))
    (agentId : string) (agent : AgentHealth) : AgentHealth * list Alert :=
  let agent :=
    mkHealth (lastSeen agent) (status agent) (consecutiveMisses agent)
             (pid agent) (memoryMb agent) (cpuPct agent)
             ((now - registeredAt agent) / 1000) (registeredAt agent) in
  let '(agent, fresh) := checkHeartbeat h now agentId agent in
  let '(agent, res) := checkResources h stats agentId agent in
  (agent, fresh ++ res).

Fixpoint checkAll (h : t) (now : Z) (stats : Z -> option (Q * Q))
    (m : JsMap.t AgentHealth) : JsMap.t AgentHealth * list Alert :=
  match m with
  | [] => ([], [])
  | (agentId, agent) :: m' =>
      let '(agent', alerts) := checkAgent h now stats agentId agent in
      let '(m'', alerts') := checkAll h now stats m' in
      ((agentId, agent') :: m'', alerts ++ alerts')
  end.

Definition check (h : t) (now : Z) (stats : Z -> option (Q * Q))
  : t * list Alert :=
  let '(m, alerts) := checkAll h now stats (agents h) in
  (with_agents m h, alerts).

(** Successive [check] passes at the given times, with no heartbeat in
    between. *)
Fixpoint checkMany (h : t) (times : list Z) (stats : Z -> option (Q * Q))
  : t * list Alert :=
  match times with
  | [] => (h, [])
  | now :: times' =>
      let '(h1, alerts1) := check h now stats in
      let '(h2, alerts2) := checkMany h1 times' stats in
      (h2, alerts1 ++ alerts2)
  end.

Definition start (h : t) : t := with_checkTimer true h.

Definition stop (h : t) : t := with_checkTimer false h.

(** The [unresponsive] alerts raised for one agent. *)
Definition unresponsiveAlerts (agentId : string) (l : list Alert) : list Alert :=
  filter (fun a => String.eqb (alert_agentId a) agentId
                   && reason_eqb (alert_reason a) reason_unresponsive) l.

End HealthMonitor.

(** ** JavaScript numbers where rounding matters

    IEEE 754 binary64 with rounding to nearest, ties to even, as the
    Standard Library specifies it: [/] and [*] on numbers are [div] and
    [mul].  An integer below 2^53 is a double as it stands; a rational
    setting stands for the double nearest to it (numerator and
    denominator below 2^53).  [Math.ceil] and [Math.round] are exact on
    the double they are given; the integers of the model have no
    [Infinity] or [NaN], for which both give 0 here. *)

Module Double.

Definition prec : Z := 53.
Definition emax : Z := 1024.

Definition ofZ (z : Z) : spec_float := binary_normalize prec emax z 0 false.

Definition div (x y : spec_float) : spec_float := SFdiv prec emax x y.

Definition mul (x y : spec_float) : spec_float := SFmul prec emax x y.

Definition ofQ (q : Q) : spec_float := div (ofZ (Qnum q)) (ofZ (Zpos (Qden q))).

Definition signed (s : bool) (m : positive) : Z :=
  if s then Zneg m else Zpos m.

(** [Math.ceil(x)]: the value of a finite double is [signed s m * 2^e]. *)
Definition ceil (x : spec_float) : Z :=
  match x with
  | S754_finite s m e =>
      if 0 <=? e then signed s m * 2 ^ e
      else - ((- signed s m) / 2 ^ (- e))
  | _ => 0
  end.

(** [Math.round(x)]: the nearest integer, a tie going up. *)
Definition round (x : spec_float) : Z :=
  match x with
  | S754_finite s m e =>
      if 0 <=? e then signed s m * 2 ^ e
      else (2 * signed s m + 2 ^ (- e)) / (2 * 2 ^ (- e))
  | _ => 0
  end.

(** A double that is not a negative finite number. *)
Definition nonneg (x : spec_float) : Prop :=
  match x with
  | S754_finite s _ _ => s = false
  | _ => True
  end.

End Double.

(** ** The quota probe (lib/quota-probe.js) *)

Module QuotaProbe.

Definition CHARS_PER_TOKEN : Q := 4.
Definition DEFAULT_TOKENS_PER_SECOND : Q := 50.

Record Config : Type := mkConfig {
  cfg_budget : option Z;
  cfg_estimationMethod : option string;
  cfg_charsPerToken : option Q;
  cfg_tokensPerSecond : option Q;
  cfg_warningThreshold : option Q
}.

Record LastTask : Type := mkLast {
  last_tokens : Z;
  last_durationMs : Z;
  last_ts : Z
}.

Record AgentUsage : Type := mkUsage {
  usage_totalTokens : Z;
  usage_tasks : Z;
  usage_lastTask : option LastTask
}.

(** The argument of [record]; an absent field is [None], and an absent
    [agentId] is the empty string. *)
Record Result : Type := mkResult {
  agentId : string;
  output : option string;
  durationMs : option Z;
  tokens : option Z
}.

Inductive Event : Type :=
| usage (agentId : string) (tokens totalTokens budget : Z)
| budget_exhausted (totalTokens budget : Z)
| budget_warning (totalTokens budget pct : Z).

Record t : Type := mk {
  budget : Z;
  estimationMethod : string;
  charsPerToken : Q;
  tokensPerSecond : Q;
  warningThreshold : Q;
  _agents : JsMap.t AgentUsage;
  _totalTokens : Z;
  _warningEmitted : bool
}.

Definition constructor (c : Config) : t :=
  mk (HealthMonitor.orZ (cfg_budget c) 0)
     (orS (cfg_estimationMethod c) "output")
     (HealthMonitor.orQ (cfg_charsPerToken c) CHARS_PER_TOKEN)
     (HealthMonitor.orQ (cfg_tokensPerSecond c) DEFAULT_TOKENS_PER_SECOND)
     (HealthMonitor.orQ (cfg_warningThreshold c) (8 # 10))
     [] 0 false.

(** [Math.ceil(output.length / charsPerToken)] *)
Definition outputEstimate (q : t) (out : string) : Z :=
  Double.ceil
    (Double.div (Double.ofZ (Z.of_nat (String.length out)))
                (Double.ofQ (charsPerToken q))).

(** [Math.ceil((durationMs / 1000) * tokensPerSecond)] *)
Definition durationEstimate (q : t) (ms : Z) : Z :=
  Double.ceil
    (Double.mul (Double.div (Double.ofZ ms) (Double.ofZ 1000))
                (Double.ofQ (tokensPerSecond q))).

Definition explicitTokens (r : Result) : bool :=
  match tokens r with Some n => n >? 0 | None => false end.

(** The estimate used when no explicit count is given. *)
Definition estimate (q : t) (r : Result) : Z :=
  if String.eqb (estimationMethod q) "output" && truthyOS (output r)
  then outputEstimate q (orS (output r) "")
  else if String.eqb (estimationMethod q) "duration" && truthyOZ (durationMs r)
  then durationEstimate q (HealthMonitor.orZ (durationMs r) 0)
  else if truthyOS (output r) then outputEstimate q (orS (output r) "")
  else 0.

(** The token count that [record] attributes to one result. *)
Definition tokensFor (q : t) (r : Result) : Z :=
  match tokens r with
  | Some n => if n >? 0 then n else estimate q r
  | None => estimate q r
  end.

(** [this._totalTokens / this.budget] *)
Definition utilization (total b : Z) : Q := inject_Z total / inject_Z b.

(** [Math.round(pct * 100)], [pct] being the quotient of two integers. *)
Definition roundPct (pct : Q) : Z :=
  Double.round (Double.mul (Double.ofQ pct) (Double.ofZ 100)).

Definition record (q : t) (now : Z) (r : Result) : t * list Event :=
  if negb (truthyS (agentId r)) then (q, [])
  else
    let n := tokensFor q r in
    let agent :=
      match JsMap.get (agentId r) (_agents q) with
      | Some a => a
      | None => mkUsage 0 0 None
      end in
    let agent' :=
      mkUsage (usage_totalTokens agent + n) (usage_tasks agent + 1)
              (Some (mkLast n (HealthMonitor.orZ (durationMs r) 0) now)) in
    let total := _totalTokens q + n in
    let used := usage (agentId r) n total (budget q) in
    let agents' := JsMap.set (agentId r) agent' (_agents q) in
    let upd (latch : bool) :=
      mk (budget q) (estimationMethod q) (charsPerToken q) (tokensPerSecond q)
         (warningThreshold q) agents' total latch in
    if budget q >? 0 then
      let pct := utilization total (budget q) in
      if Qle_bool 1 pct then
        (upd (_warningEmitted q), [used; budget_exhausted total (budget q)])
      else if Qle_bool (warningThreshold q) pct && negb (_warningEmitted q)
      then (upd true, [used; budget_warning total (budget q) (roundPct pct)])
      else (upd (_warningEmitted q), [used])
    else (upd (_warningEmitted q), [used]).

Definition isExhausted (q : t) : bool :=
  if budget q <=? 0 then false else _totalTokens q >=? budget q.

Definition reset (q : t) : t :=
  mk (budget q) (estimationMethod q) (charsPerToken q) (tokensPerSecond q)
     (warningThreshold q) [] 0 false.

Definition setBudget (q : t) (newBudget : Z) : t :=
  mk newBudget (estimationMethod q) (charsPerToken q) (tokensPerSecond q)
     (warningThreshold q) (_agents q) (_totalTokens q)
     (if (newBudget >? 0)
         && Qltb (utilization (_totalTokens q) newBudget) (warningThreshold q)
      then false else _warningEmitted q).

(** A run of [record] calls, with the events of all of them in order. *)
Fixpoint recordAll (q : t) (rs : list (Z * Result)) : t * list Event :=
  match rs with
  | [] => (q, [])
  | (now, r) :: rs' =>
      let '(q1, ev1) := record q now r in
      let '(q2, ev2) := recordAll q1 rs' in
      (q2, ev1 ++ ev2)
  end.


Definition isExhaustedEvent (e : Event) : bool :=
  match e with budget_exhausted _ _ => true | _ => false end.

End QuotaProbe.

(** ** The spawner (lib/spawner.js)

    The file system is the list of workspace directories that exist; the
    [git] commands and the file writes inside a workspace are taken to
    succeed.  The key pair, hence the agent id, comes from the caller.
    Names are single path segments, as the slot names of the supervisor
    are, and the base path has no trailing "/": for these [path.join] is
    the concatenation written here, and it normalises nothing. *)

Module Spawner.

Record t : Type := mk {
  basePath : string;
  workspaces : JsMap.t string;
  disk : list string
}.

Record SpawnResult : Type := mkSpawn {
  workspace : string;
  agentId : string
}.

Inductive SpawnOutcome : Type :=
| SpawnOk (sp : t) (r : SpawnResult)
| SpawnError (message : string).

Definition join (base name : string) : string := (base ++ "/" ++ name)%string.

Definition existsSync (sp : t) (path : string) : bool :=
  existsb (String.eqb path) (disk sp).

Definition spawn (sp : t) (name : string) (identity : string) : SpawnOutcome :=
  if negb (truthyS name) then SpawnError "spawn requires a name"
  else
    let ws := join (basePath sp) name in
    if existsSync sp ws
    then SpawnError ("Workspace already exists: " ++ ws)%string
    else
      SpawnOk (mk (basePath sp) (JsMap.set identity ws (workspaces sp))
                  (disk sp ++ [ws]))
              (mkSpawn ws identity).

Definition teardown (sp : t) (agentId : string) (confirm : bool) : t * bool :=
  if negb confirm then (sp, false)
  else
    match JsMap.get agentId (workspaces sp) with
    | None => (sp, false)
    | Some ws =>
        if negb (truthyS ws) then (sp, false)
        else if negb (existsSync sp ws) then
          (mk (basePath sp) (JsMap.delete agentId (workspaces sp)) (disk sp),
           false)
        else
          (mk (basePath sp) (JsMap.delete agentId (workspaces sp))
              (filter (fun p => negb (String.eqb ws p)) (disk sp)),
           true)
    end.

End Spawner.

(** ** The supervisor (lib/supervisor.js)

    The state is the fields of the class that the admission, recovery and
    scaling code reads or writes, the pending restart timers and the
    trace of what was emitted, logged and sent.  The pidfile, the log
    directory and the connection handshake of the bus are left out, and
    with them [start] and [status]; a started supervisor is a
    constructed one with [running] set and its daemons spawned.
    [reloadConfig], [broadcastTask] and the end of a task are in
    [SupervisorOps] further down. *)

Module Supervisor.

(** A process-table entry. *)
Record Entry : Type := mkEntry {
  daemon : Daemon.t;
  restartCount : Z;
  firstRestartAt : option Z;
  stableSince : Z;
  restartScheduled : bool
}.

Definition with_daemon (d : Daemon.t) (e : Entry) : Entry :=
  mkEntry d (restartCount e) (firstRestartAt e) (stableSince e)
          (restartScheduled e).

Record PromoteRequest : Type := mkReq {
  req_agentId : string;
  req_task : option Daemon.Task
}.

(** A [setTimeout] of the restart callback, as [_handleCrash] arms it.
    The closure holds the entry object and its key; [timers] lists the
    callbacks armed so far, and [restartCallback] below is what runs when
    one of them fires. *)
Record Timer : Type := mkTimer {
  timer_delayMs : Z;
  timer_agentId : string
}.

Inductive Value : Type :=
| VStr (s : string)
| VNum (z : Z)
| VBool (b : bool)
| VNone.

(** Everything the supervisor and its daemons do that an observer can
    see, in order. *)
Inductive Output : Type :=
| ByDaemon (agentId : string) (a : Daemon.Action)
| Log (event : string) (data : list (string * Value))
| agent_degraded (agentId : string) (restartCount : Z)
| BusSend (target : string) (type : string) (agentId : string)
| Teardown (agentId : string)
| swarm_stopped.

Record t : Type := mk {
  maxActive : Z;
  role : string;
  channels : list string;
  tokenBudget : Z;
  tokensUsed : Z;
  heartbeatIntervalMs : Z;
  persist : bool;
  spawner : Spawner.t;
  healthMonitor : HealthMonitor.t;
  busConnected : bool;
  processTable : JsMap.t Entry;
  promotionQueue : list PromoteRequest;
  activeCount : Z;
  promotionsPaused : bool;
  running : bool;
  startedAt : option Z;
  timers : list Timer;
  trace : list Output
}.

(** The world as one synchronous call chain sees it. *)
Record Env : Type := mkEnv {
  now : Z;
  spawnProcess : string -> Daemon.SpawnOutcome;
  generateIdentity : string -> string
}.

Definition with_spawner (x : Spawner.t) (s : t) : t :=
  mk (maxActive s) (role s) (channels s) (tokenBudget s) (tokensUsed s)
     (heartbeatIntervalMs s) (persist s) x (healthMonitor s) (busConnected s)
     (processTable s) (promotionQueue s) (activeCount s) (promotionsPaused s)
     (running s) (startedAt s) (timers s) (trace s).

Definition with_healthMonitor (x : HealthMonitor.t) (s : t) : t :=
  mk (maxActive s) (role s) (channels s) (tokenBudget s) (tokensUsed s)
     (heartbeatIntervalMs s) (persist s) (spawner s) x (busConnected s)
     (processTable s) (promotionQueue s) (activeCount s) (promotionsPaused s)
     (running s) (startedAt s) (timers s) (trace s).

Definition with_busConnected (x : bool) (s : t) : t :=
  mk (maxActive s) (role s) (channels s) (tokenBudget s) (tokensUsed s)
     (heartbeatIntervalMs s) (persist s) (spawner s) (healthMonitor s) x
     (processTable s) (promotionQueue s) (activeCount s) (promotionsPaused s)
     (running s) (startedAt s) (timers s) (trace s).

Definition with_processTable (x : JsMap.t Entry) (s : t) : t :=
  mk (maxActive s) (role s) (channels s) (tokenBudget s) (tokensUsed s)
     (heartbeatIntervalMs s) (persist s) (spawner s) (healthMonitor s)
     (busConnected s) x (promotionQueue s) (activeCount s) (promotionsPaused s)
     (running s) (startedAt s) (timers s) (trace s).

Definition with_promotionQueue (x : list PromoteRequest) (s : t) : t :=
  mk (maxActive s) (role s) (channels s) (tokenBudget s) (tokensUsed s)
     (heartbeatIntervalMs s) (persist s) (spawner s) (healthMonitor s)
     (busConnected s) (processTable s) x (activeCount s) (promotionsPaused s)
     (running s) (startedAt s) (timers s) (trace s).

Definition with_activeCount (x : Z) (s : t) : t :=
  mk (maxActive s) (role s) (channels s) (tokenBudget s) (tokensUsed s)
     (heartbeatIntervalMs s) (persist s) (spawner s) (healthMonitor s)
     (busConnected s) (processTable s) (promotionQueue s) x (promotionsPaused s)
     (running s) (startedAt s) (timers s) (trace s).

Definition with_promotionsPaused (x : bool) (s : t) : t :=
  mk (maxActive s) (role s) (channels s) (tokenBudget s) (tokensUsed s)
     (heartbeatIntervalMs s) (persist s) (spawner s) (healthMonitor s)
     (busConnected s) (processTable s) (promotionQueue s) (activeCount s) x
     (running s) (startedAt s) (timers s) (trace s).

Definition with_running (x : bool) (s : t) : t :=
  mk (maxActive s) (role s) (channels s) (tokenBudget s) (tokensUsed s)
     (heartbeatIntervalMs s) (persist s) (spawner s) (healthMonitor s)
     (busConnected s) (processTable s) (promotionQueue s) (activeCount s)
     (promotionsPaused s) x (startedAt s) (timers s) (trace s).

Definition with_timers (x : list Timer) (s : t) : t :=
  mk (maxActive s) (role s) (channels s) (tokenBudget s) (tokensUsed s)
     (heartbeatIntervalMs s) (persist s) (spawner s) (healthMonitor s)
     (busConnected s) (processTable s) (promotionQueue s) (activeCount s)
     (promotionsPaused s) (running s) (startedAt s) x (trace s).

Definition with_trace (x : list Output) (s : t) : t :=
  mk (maxActive s) (role s) (channels s) (tokenBudget s) (tokensUsed s)
     (heartbeatIntervalMs s) (persist s) (spawner s) (healthMonitor s)
     (busConnected s) (processTable s) (promotionQueue s) (activeCount s)
     (promotionsPaused s) (running s) (startedAt s) (timers s) x.

Definition say (o : Output) (s : t) : t := with_trace (trace s ++ [o]) s.

Definition _log (event : string) (data : list (string * Value)) (s : t) : t :=
  say (Log event data) s.

(** [_busSend]: the send is issued only on a connected bus. *)
Definition _busSend (type agentId : string) (s : t) : t :=
  if busConnected s
  then say (BusSend (match channels s with
                     | c :: _ => if truthyS c then c else "#agents"
                     | [] => "#agents"
                     end) type agentId) s
  else s.

Record Config : Type := mkConfig {
  cfg_maxActive : option Z;
  cfg_role : option string;
  cfg_channels : option (list string);
  cfg_tokenBudget : option Z;
  cfg_heartbeatIntervalMs : option Z;
  cfg_persist : bool;
  cfg_basePath : string
}.

Definition constructor (c : Config) : t :=
  let hb := HealthMonitor.orZ (cfg_heartbeatIntervalMs c) 30000 in
  mk (HealthMonitor.orZ (cfg_maxActive c) 5)
     (orS (cfg_role c) "builder")
     (match cfg_channels c with Some l => l | None => ["#agents"] end)
     (HealthMonitor.orZ (cfg_tokenBudget c) 0)
     0 hb (cfg_persist c)
     (Spawner.mk (cfg_basePath c) [] [])
     (HealthMonitor.constructor
        (HealthMonitor.mkOptions (Some hb) (Some 3) None None None))
     false [] [] 0 false false None [] [].

Section Calls.

Variable env : Env.

(** Write a daemon back into its entry of the process table. *)
Definition putDaemon (agentId : string) (e : Entry) (d : Daemon.t) (s : t) : t :=
  with_processTable (JsMap.set agentId (with_daemon d e) (processTable s)) s.

Definition FIVE_MINUTES : Z := 5 * 60 * 1000.
Definition THIRTY_MINUTES : Z := 30 * 60 * 1000.

(** The counters of an entry after steps 3 and 4 of [_handleCrash]. *)
Definition bumpRestart (e : Entry) : Z * option Z :=
  let rc := restartCount e + 1 in
  let fr := if truthyOZ (firstRestartAt e) then firstRestartAt e
            else Some (now env) in
  if truthyZ (stableSince e) && (now env - stableSince e >? FIVE_MINUTES)
  then (1, Some (now env))
  else (rc, fr).

Definition since (o : option Z) : Z :=
  match o with Some z => z | None => 0 end.

Definition isDegraded (rc : Z) (fr : option Z) : bool :=
  (rc >? 5) && (now env - since fr <? THIRTY_MINUTES).

(** [Math.min(Math.pow(2, restartCount), 300)]; [restartCount] counts
    up from 0, so the power is an integer. *)
Definition backoffSeconds (rc : Z) : Z := Z.min (2 ^ rc) 300.

Definition _handleCrash (agentId : string) (error : string) (s : t) : t :=
  match JsMap.get agentId (processTable s) with
  | None => s
  | Some entry =>
      if restartScheduled entry then s
      else
        let '(rc, fr) := bumpRestart entry in
        if isDegraded rc fr then
          let entry' :=
            mkEntry (daemon entry) rc fr (stableSince entry) false in
          let s := with_processTable
                     (JsMap.set agentId entry' (processTable s)) s in
          let s := _log "agent_degraded"
                        [("agentId", VStr agentId); ("restartCount", VNum rc)] s in
          say (agent_degraded agentId rc) s
        else
          let delaySec := backoffSeconds rc in
          let delayMs := delaySec * 1000 in
          let entry' :=
            mkEntry (daemon entry) rc fr (stableSince entry) true in
          let s := with_processTable
                     (JsMap.set agentId entry' (processTable s)) s in
          let s := _log "agent_restart_scheduled"
                        [("agentId", VStr agentId); ("delay", VNum delaySec);
                         ("restartCount", VNum rc)] s in
          with_timers (timers s ++ [mkTimer delayMs agentId]) s
  end.

Definition _handleHealthAlert (a : HealthMonitor.Alert) (s : t) : t :=
  match HealthMonitor.alert_reason a with
  | HealthMonitor.reason_unresponsive =>
      _handleCrash (HealthMonitor.alert_agentId a) "heartbeat timeout" s
  | _ => s
  end.

(** The listener that [start] installs on the monitor's [alert]. *)
Definition onHealthAlert (a : HealthMonitor.Alert) (s : t) : t :=
  _handleHealthAlert a
    (_log "health_alert"
          [("agentId", VStr (HealthMonitor.alert_agentId a))] s).

(** The listeners that [_spawnDaemon] installs on a daemon, except the
    two that re-enter promotion handling ([promote-request] and
    [demoted]), which are added in [onDaemonEvent] below.  No listener is
    installed for [error], so emitting it throws. *)
Definition onLifecycle (e : Daemon.Event) (s : t) : Outcome t :=
  match e with
  | Daemon.heartbeat a _ =>
      Returned (with_healthMonitor
                  (HealthMonitor.heartbeat (healthMonitor s) (now env) a) s)
  | Daemon.promoted a p _ =>
      let s := with_activeCount (activeCount s + 1) s in
      let s := if truthyOZ p
               then with_healthMonitor
                      (HealthMonitor.updatePid (healthMonitor s) a (since p)) s
               else s in
      Returned (_log "agent_promoted"
                     [("agentId", VStr a); ("activeCount", VNum (activeCount s))]
                     s)
  | Daemon.done r =>
      let a := Daemon.res_agentId r in
      Returned (_busSend "TASK_DONE" a (_log "task_done" [("agentId", VStr a)] s))
  | Daemon.fail r =>
      let a := Daemon.res_agentId r in
      Returned (_busSend "TASK_FAIL" a (_log "task_fail" [("agentId", VStr a)] s))
  | Daemon.crashed a m => Returned (_handleCrash a m s)
  | Daemon.claim a _ _ => Returned (_busSend "CLAIM" a s)
  | Daemon.error _ m => Thrown ("Unhandled error. (" ++ m ++ ")")%string s
  | _ => Returned s
  end.

(** Run the actions of a daemon method: each is recorded, and an emitted
    event is handed to the listeners at once. *)
Fixpoint perform (handler : Daemon.Event -> t -> Outcome t) (agentId : string)
    (acts : list Daemon.Action) (s : t) : Outcome t :=
  match acts with
  | [] => Returned s
  | a :: acts' =>
      let s := say (ByDaemon agentId a) s in
      match a with
      | Daemon.Emit e =>
          bindO (handler e s) (perform handler agentId acts')
      | _ => perform handler agentId acts' s
      end
  end.

Definition noteActions (agentId : string) (acts : list Daemon.Action) (s : t) : t :=
  with_trace (trace s ++ map (ByDaemon agentId) acts) s.

(** [_spawnDaemon(name)]; the second component is the new daemon. *)
Definition _spawnDaemon (name : string) (s : t) : Outcome (t * option Daemon.t) :=
  match Spawner.spawn (spawner s) name (generateIdentity env name) with
  | Spawner.SpawnError m => Thrown m (s, None)
  | Spawner.SpawnOk sp r =>
      let s := with_spawner sp s in
      match Daemon.constructor
              (Daemon.mkConfig (Spawner.agentId r) name (Spawner.workspace r)
                               (Some (role s)) (Some (channels s))
                               (heartbeatIntervalMs s) None) with
      | Thrown m _ => Thrown m (s, None)
      | Returned d =>
          let a := Spawner.agentId r in
          let s := with_healthMonitor
                     (HealthMonitor.register (healthMonitor s) (now env) a None)
                     s in
          let '(d, acts) := Daemon.start d in
          let s := with_processTable
                     (JsMap.set a (mkEntry d 0 None (now env) false)
                                (processTable s)) s in
          Returned (noteActions a acts s, Some d)
      end
  end.

(** [entry.daemon.denyPromotion(reason)] *)
Definition deny (agentId : string) (e : Entry) (reason : string) (s : t) : t :=
  let '(d, acts) := Daemon.denyPromotion (daemon e) (Some reason) in
  noteActions agentId acts (putDaemon agentId e d s).

(** [entry.daemon.approvePromotion(task)], with the listeners that run
    while it executes. *)
Definition approve (agentId : string) (e : Entry) (task : option Daemon.Task)
    (s : t) : Outcome t :=
  match Daemon.approvePromotion (daemon e) task
          (spawnProcess env (Daemon.agentId (daemon e))) with
  | Returned (d, acts) => perform onLifecycle agentId acts (putDaemon agentId e d s)
  | Thrown m (d, acts) => Thrown m (noteActions agentId acts (putDaemon agentId e d s))
  end.

Definition _handlePromoteRequest (req : PromoteRequest) (s : t) : Outcome t :=
  if promotionsPaused s then
    match JsMap.get (req_agentId req) (processTable s) with
    | Some entry =>
        Returned (deny (req_agentId req) entry
                       "promotions paused (budget/quota)" s)
    | None => Returned s
    end
  else if activeCount s >=? maxActive s then
    let s := with_promotionQueue (promotionQueue s ++ [req]) s in
    Returned
      (_log "promotion_queued"
            [("agentId", VStr (req_agentId req));
             ("queueLength", VNum (Z.of_nat (List.length (promotionQueue s))))]
            s)
  else if (tokenBudget s >? 0) && (tokensUsed s >=? tokenBudget s) then
    let s := with_promotionsPaused true s in
    let s :=
      match JsMap.get (req_agentId req) (processTable s) with
      | Some entry => deny (req_agentId req) entry "token budget exhausted" s
      | None => s
      end in
    Returned
      (_log "promotions_paused"
            [("reason", VStr "token_budget"); ("used", VNum (tokensUsed s));
             ("budget", VNum (tokenBudget s))] s)
  else
    match JsMap.get (req_agentId req) (processTable s) with
    | Some entry => approve (req_agentId req) entry (req_task req) s
    | None => Returned s
    end.

(** The guard of the [while] loop of [_processPromotionQueue]. *)
Definition queueOpen (s : t) : bool :=
  (0 <? Z.of_nat (List.length (promotionQueue s)))
  && (activeCount s <? maxActive s)
  && negb (promotionsPaused s).

(** One turn of the loop body: [shift] the head, then approve or drop. *)
Definition queueTurn (s : t) : Outcome t :=
  match promotionQueue s with
  | [] => Returned s
  | req :: rest =>
      let s := with_promotionQueue rest s in
      match JsMap.get (req_agentId req) (processTable s) with
      | Some entry =>
          if Daemon.state_eqb (Daemon.state (daemon entry)) Daemon.PROMOTING
          then approve (req_agentId req) entry (req_task req) s
          else Returned s
      | None => Returned s
      end
  end.

Fixpoint queueLoop (fuel : nat) (s : t) : Outcome t :=
  match fuel with
  | O => Returned s
  | S fuel' =>
      if queueOpen s then bindO (queueTurn s) (queueLoop fuel') else Returned s
  end.

(** Each turn shortens the queue, so its length bounds the turns. *)
Definition _processPromotionQueue (s : t) : Outcome t :=
  queueLoop (List.length (promotionQueue s)) s.

(** All the listeners that [_spawnDaemon] installs on a daemon. *)
Definition onDaemonEvent (e : Daemon.Event) (s : t) : Outcome t :=
  match e with
  | Daemon.promote_request a task => _handlePromoteRequest (mkReq a task) s
  | Daemon.demoted a =>
      let s := with_activeCount (Z.max 0 (activeCount s - 1)) s in
      let s := _log "agent_demoted"
                    [("agentId", VStr a); ("activeCount", VNum (activeCount s))]
                    s in
      _processPromotionQueue s
  | _ => onLifecycle e s
  end.

(** [entry.daemon.handleMessage(msg)] for the entry stored under [agentId]. *)
Definition deliver (agentId : string) (msg : Daemon.Message) (s : t) : Outcome t :=
  match JsMap.get agentId (processTable s) with
  | None => Returned s
  | Some entry =>
      match Daemon.handleMessage (daemon entry) msg with
      | Returned (d, acts) =>
          perform onDaemonEvent agentId acts (putDaemon agentId entry d s)
      | Thrown m (d, acts) =>
          Thrown m (noteActions agentId acts (putDaemon agentId entry d s))
      end
  end.

(** [assignTask(agentId, task)]: local delivery, then the bus. *)
Definition assignTask (agentId : string) (task : option Daemon.Task) (s : t)
  : Outcome t :=
  bindO (deliver agentId (Daemon.ASSIGN agentId task) s)
        (fun s => Returned (_busSend "ASSIGN" agentId s)).

(** The periodic pass of the health monitor and its alert listener. *)
Definition healthCheck (stats : Z -> option (Q * Q)) (s : t) : t :=
  let '(h, alerts) := HealthMonitor.check (healthMonitor s) (now env) stats in
  fold_left (fun s a => onHealthAlert a s) alerts (with_healthMonitor h s).

(** The callback that [_handleCrash] hands to [setTimeout].  [entry] is
    the object held by the closure: as long as the process table still
    holds it, it is the entry stored under [agentId]. *)
Definition restartCallback (agentId : string) (entry : Entry) (s : t)
  : Outcome t :=
  if negb (running s) then Returned s
  else
    let '(d, acts) := Daemon.stop (daemon entry) in
    let s := noteActions agentId acts s in
    let s := with_healthMonitor
               (HealthMonitor.unregister (healthMonitor s) agentId) s in
    let s := if Daemon.state_eqb (Daemon.state d) Daemon.ACTIVE
             then with_activeCount (Z.max 0 (activeCount s - 1)) s
             else s in
    let s := with_processTable (JsMap.delete agentId (processTable s)) s in
    match _spawnDaemon (Daemon.name d) s with
    | Thrown m (s, _) => Thrown m s
    | Returned (s, None) => Returned s
    | Returned (s, Some newDaemon) =>
        let newId := Daemon.agentId newDaemon in
        let s :=
          match JsMap.get newId (processTable s) with
          | Some newEntry =>
              with_processTable
                (JsMap.set newId
                   (mkEntry (daemon newEntry) (restartCount entry)
                            (firstRestartAt entry) (now env)
                            (restartScheduled newEntry))
                   (processTable s)) s
          | None => s
          end in
        Returned (_log "agent_restarted"
                       [("oldId", VStr agentId); ("newId", VStr newId)] s)
    end.

(** [stop()]; the wait for the bus to disconnect is not modelled, so the
    whole shutdown is one step. *)
Definition stop (s : t) : t :=
  if negb (running s) then s
  else
    let s := _log "swarm_stopping"
                  [("total", VNum (JsMap.size (processTable s)));
                   ("active", VNum (activeCount s))] s in
    let s := with_running false s in
    let s := with_healthMonitor (HealthMonitor.stop (healthMonitor s)) s in
    let s := if busConnected s
             then _log "bus_disconnected" [] (with_busConnected false s)
             else s in
    let s :=
      fold_left
        (fun s kv =>
           let '(d, acts) := Daemon.stop (daemon (snd kv)) in
           with_healthMonitor
             (HealthMonitor.unregister (healthMonitor s) (fst kv))
             (noteActions (fst kv) acts s))
        (processTable s) s in
    let s :=
      if negb (persist s) then
        fold_left
          (fun s kv =>
             say (Teardown (fst kv))
                 (with_spawner (fst (Spawner.teardown (spawner s) (fst kv) true))
                               s))
          (processTable s) s
      else s in
    let s := with_processTable [] s in
    let s := with_promotionQueue [] s in
    let s := with_activeCount 0 s in
    let s := _log "swarm_stopped" [("persisted", VBool (persist s))] s in
    say swarm_stopped s.

Record ScaleResult : Type := mkScale {
  from : Z;
  to : Z;
  added : Z;
  removed : Z
}.

Definition slotName (s : t) (idx : Z) : string :=
  ("swarm-" ++ role s ++ "-" ++ padStart0 3 (stringOfZ idx))%string.

Fixpoint scaleUp (n : nat) (idx : Z) (s : t) : Outcome t :=
  match n with
  | O => Returned s
  | S n' =>
      match _spawnDaemon (slotName s idx) s with
      | Thrown m (s, _) => Thrown m s
      | Returned (s, _) => scaleUp n' (idx + 1) s
      end
  end.

Definition isIdle (kv : string * Entry) : bool :=
  Daemon.state_eqb (Daemon.state (daemon (snd kv))) Daemon.IDLE.

(** [candidates.sort((a, b) => a.entry.stableSince - b.entry.stableSince)]:
    a stable sort, ascending. *)
Fixpoint insertCandidate (x : string * Entry) (l : list (string * Entry))
  : list (string * Entry) :=
  match l with
  | [] => [x]
  | y :: l' =>
      if stableSince (snd x) <=? stableSince (snd y)
      then x :: y :: l'
      else y :: insertCandidate x l'
  end.

Fixpoint sortCandidates (l : list (string * Entry)) : list (string * Entry) :=
  match l with
  | [] => []
  | x :: l' => insertCandidate x (sortCandidates l')
  end.

(** The removal loop of the scale-down branch; it returns the state, the
    counter [removed] and the keys it removed, in order. *)
Fixpoint removeIdle (delta : Z) (cands : list (string * Entry)) (removed : Z)
    (s : t) : t * Z * list string :=
  match cands with
  | [] => (s, removed, [])
  | (agentId, entry) :: rest =>
      if removed >=? delta then (s, removed, [])
      else
        let '(d, acts) := Daemon.stop (daemon entry) in
        let s := noteActions agentId acts s in
        let s := with_healthMonitor
                   (HealthMonitor.unregister (healthMonitor s) agentId) s in
        let s := if negb (persist s)
                 then say (Teardown agentId)
                          (with_spawner
                             (fst (Spawner.teardown (spawner s) agentId true)) s)
                 else s in
        let s := with_processTable (JsMap.delete agentId (processTable s)) s in
        let '(s, n, ids) := removeIdle delta rest (removed + 1) s in
        (s, n, agentId :: ids)
  end.

Definition candidates (s : t) : list (string * Entry) :=
  sortCandidates (filter isIdle (processTable s)).

(** The order of the sorted candidates, and the entries that survive the
    removal of the keys [ids]. *)
Definition olderFirst (a b : string * Entry) : Prop :=
  stableSince (snd a) <= stableSince (snd b).

Definition notAmong (ids : list string) (kv : string * Entry) : bool :=
  negb (existsb (fun id => String.eqb id (fst kv)) ids).

Definition scale (target : Z) (s : t) : Outcome (t * option ScaleResult) :=
  if negb (running s) then Thrown "Supervisor not running" (s, None)
  else
    let current := JsMap.size (processTable s) in
    if target =? 0 then
      Returned (stop s, Some (mkScale current 0 0 current))
    else if target >? current then
      let delta := target - current in
      match scaleUp (Z.to_nat delta) current s with
      | Thrown m s => Thrown m (s, None)
      | Returned s =>
          Returned
            (_log "scaled_up"
                  [("from", VNum current); ("to", VNum target);
                   ("added", VNum delta)] s,
             Some (mkScale current target delta 0))
      end
    else if target <? current then
      let delta := current - target in
      let '(s, removed, _) := removeIdle delta (candidates s) 0 s in
      Returned
        (_log "scaled_down"
              [("from", VNum current); ("to", VNum (current - removed));
               ("removed", VNum removed);
               ("activePreserved", VNum (activeCount s))] s,
         Some (mkScale current (current - removed) 0 removed))
    else Returned (s, Some (mkScale current current 0 0)).

End Calls.

End Supervisor.

(** ** The token rule in the words of the specification *)

Module TokenRule.

Import QuotaProbe.

(** The two formulas as the specification writes them, over the
    rationals. *)
Definition exactOutputEstimate (q : t) (out : string) : Z :=
  Qceiling (inject_Z (Z.of_nat (String.length out)) / charsPerToken q).

Definition exactDurationEstimate (q : t) (ms : Z) : Z :=
  Qceiling ((inject_Z ms / 1000) * tokensPerSecond q).

Section Rule.

(** The output and the duration estimate that the rule is read with. *)
Variable outputTokens : t -> string -> Z.
Variable durationTokens : t -> Z -> Z.

(** The output estimate when output is available, otherwise 0. *)
Definition fallback (q : t) (r : Result) : Z :=
  if truthyOS (output r) then outputTokens q (orS (output r) "") else 0.

(** "Three estimation modes, selected at construction": the count is
    chosen by the mode alone, with the fallback when the mode has no
    input. *)
Definition byMode (q : t) (r : Result) : Z :=
  if String.eqb (estimationMethod q) "reported" then
    match tokens r with
    | Some n => if n >? 0 then n else fallback q r
    | None => fallback q r
    end
  else if String.eqb (estimationMethod q) "output" then fallback q r
  else if String.eqb (estimationMethod q) "duration" then
    match durationMs r with
    | Some ms => if truthyZ ms then durationTokens q ms else fallback q r
    | None => fallback q r
    end
  else fallback q r.

End Rule.

(** The rule of the specification: the mode alone chooses, and the
    formulas are the exact ones. *)
Definition tokensByMode (q : t) (r : Result) : Z :=
  byMode exactOutputEstimate exactDurationEstimate q r.

(** The rule as amended: an explicit positive count takes priority in
    every mode, and the two estimates are the ceilings of the quotient
    and of the product as double arithmetic gives them. *)
Definition tokensExplicitFirst (q : t) (r : Result) : Z :=
  match tokens r with
  | Some n =>
      if n >? 0 then n else byMode outputEstimate durationEstimate q r
  | None => byMode outputEstimate durationEstimate q r
  end.

End TokenRule.

(** ** Concrete states used to exercise the properties *)

Module Scenario.

Definition defaultProbe : QuotaProbe.t :=
  QuotaProbe.constructor (QuotaProbe.mkConfig None None None None None).

(** An output-mode record that also carries an explicit count. *)
Definition explicitRecord : QuotaProbe.Result :=
  QuotaProbe.mkResult "agent-1" (Some "abcd") None (Some 100).

(** A probe with budget 100 and threshold 0.8, as in scenario S2. *)
Definition budgetProbe : QuotaProbe.t :=
  QuotaProbe.constructor
    (QuotaProbe.mkConfig (Some 100) None None None (Some (8 # 10))).

Definition record85 : QuotaProbe.Result :=
  QuotaProbe.mkResult "A" None None (Some 85).

Definition record15 : QuotaProbe.Result :=
  QuotaProbe.mkResult "A" None None (Some 15).

(** A monitor with the default interval (30 s) and threshold (3) and one
    agent registered at time 0. *)
Definition monitor : HealthMonitor.t :=
  HealthMonitor.register
    (HealthMonitor.constructor
       (HealthMonitor.mkOptions None None None None None))
    0 "agent-001" None.

Definition noStats : Z -> option (Q * Q) := fun _ => None.

Definition idleDaemon : Daemon.t :=
  Daemon.mk "a1b2c3d4" "swarm-builder-000" "/ws/swarm-builder-000" "builder"
            ["#agents"] 30000 "claude" Daemon.IDLE None None true.

(** A running supervisor as [start] leaves it, without the bus: three
    daemons spawned at times 1000, 1001 and 1002.  Every executor starts
    with pid 4242 and the agent id of a slot is "id-" followed by its
    name. *)
Definition world (t : Z) : Supervisor.Env :=
  Supervisor.mkEnv t
    (fun _ => Daemon.Spawned (Daemon.mkChild (Some 4242)))
    (fun name => ("id-" ++ name)%string).

Definition config : Supervisor.Config :=
  Supervisor.mkConfig (Some 3) None None None None false "/ws".

Definition spawnAt (t : Z) (name : string) (s : Supervisor.t) : Supervisor.t :=
  fst (stateOf (Supervisor._spawnDaemon (world t) name s)).

Definition fleet : Supervisor.t :=
  Eval vm_compute in
    (spawnAt 1002 "swarm-builder-002"
       (spawnAt 1001 "swarm-builder-001"
          (spawnAt 1000 "swarm-builder-000"
             (Supervisor.with_running true (Supervisor.constructor config))))).

Definition task : Daemon.Task :=
  Daemon.mkTask (Some "builder") (Some "parser") (Some "build it") None.

(** Daemon 0 is assigned the task at time 2000 and becomes active. *)
Definition working : Supervisor.t :=
  Eval vm_compute in
    (stateOf (Supervisor.assignTask (world 2000) "id-swarm-builder-000"
                                    (Some task) fleet)).

(** At time 200000 the two idle daemons have just sent a heartbeat; the
    active one sends none, so the health check declares it dead and the
    supervisor schedules its restart. *)
Definition beforeCheck : Supervisor.t :=
  Eval vm_compute in
    (stateOf
       (Supervisor.onLifecycle (world 199999)
          (Daemon.heartbeat "id-swarm-builder-002" Daemon.IDLE)
          (stateOf
             (Supervisor.onLifecycle (world 199999)
                (Daemon.heartbeat "id-swarm-builder-001" Daemon.IDLE)
                working)))).

Definition afterCrash : Supervisor.t :=
  Eval vm_compute in
    (Supervisor.healthCheck (world 200000) noStats beforeCheck).

Definition crashedEntry : Supervisor.Entry :=
  Eval vm_compute in
    (match JsMap.get "id-swarm-builder-000"
                     (Supervisor.processTable afterCrash) with
     | Some e => e
     | None => Supervisor.mkEntry idleDaemon 0 None 0 false
     end).

(** A request of daemon 1 while it is promoting. *)
Definition promoting1 : Supervisor.t :=
  Eval vm_compute in
    (match JsMap.get "id-swarm-builder-001"
                     (Supervisor.processTable working) with
     | Some e =>
         Supervisor.putDaemon "id-swarm-builder-001" e
           (fst (Daemon._requestPromotion (Supervisor.daemon e) (Some task)))
           working
     | None => working
     end).

Definition request1 : Supervisor.PromoteRequest :=
  Supervisor.mkReq "id-swarm-builder-001" (Some task).

(** The queue holds a stale request of daemon 2, which is idle, and then
    the request of daemon 1. *)
Definition queued : Supervisor.t :=
  Supervisor.with_promotionQueue
    [Supervisor.mkReq "id-swarm-builder-002" (Some task); request1]
    promoting1.

End Scenario.

(** ** Reading the health monitor (lib/health-monitor.js) *)

Module HealthReport.

Import HealthMonitor.

Record Health : Type := mkHealthStatus {
  hs_alive : bool;
  hs_lastSeen : Z;
  hs_memoryMb : option Q;
  hs_cpuPct : option Q
}.

(** [healthStatus(agentId)]; [None] is JavaScript's [null]. *)
Definition healthStatus (h : t) (agentId : string) : option Health :=
  match JsMap.get agentId (agents h) with
  | None => None
  | Some agent =>
      Some (mkHealthStatus (status_eqb (status agent) alive) (lastSeen agent)
                           (memoryMb agent) (cpuPct agent))
  end.

Record Row : Type := mkRow {
  row_agentId : string;
  row_alive : bool;
  row_status : Status;
  row_lastSeen : Z;
  row_consecutiveMisses : Z;
  row_memoryMb : option Q;
  row_cpuPct : option Q;
  row_uptimeSeconds : Z
}.

(** [healthSummary()], called at time [now]. *)
Definition healthSummary (h : t) (now : Z) : list Row :=
  map (fun kv =>
         let agent := snd kv in
         mkRow (fst kv) (status_eqb (status agent) alive) (status agent)
               (lastSeen agent) (consecutiveMisses agent) (memoryMb agent)
               (cpuPct agent) ((now - registeredAt agent) / 1000))
      (agents h).

(** The alerts of one kind raised for one agent. *)
Definition alertsFor (reason : Reason) (agentId : string) (l : list Alert)
  : list Alert :=
  filter (fun a => String.eqb (alert_agentId a) agentId
                   && reason_eqb (alert_reason a) reason) l.

End HealthReport.

(** ** Reading the quota probe (lib/quota-probe.js) *)

Module QuotaReport.

Import QuotaProbe.

Record Row : Type := mkRow {
  row_agentId : string;
  row_totalTokens : Z;
  row_tasks : Z
}.

(** [agents.sort((a, b) => b.totalTokens - a.totalTokens)]: a stable
    sort, descending. *)
Fixpoint insertRow (x : Row) (l : list Row) : list Row :=
  match l with
  | [] => [x]
  | y :: l' =>
      if row_totalTokens y <=? row_totalTokens x
      then x :: y :: l'
      else y :: insertRow x l'
  end.

Fixpoint sortRows (l : list Row) : list Row :=
  match l with
  | [] => []
  | x :: l' => insertRow x (sortRows l')
  end.

Definition rows (q : t) : list Row :=
  map (fun kv => mkRow (fst kv) (usage_totalTokens (snd kv))
                       (usage_tasks (snd kv)))
      (_agents q).

(** The value of [summary()]; a [remaining] of [None] is [Infinity]. *)
Record Summary : Type := mkSummary {
  sum_totalTokens : Z;
  sum_budget : Z;
  sum_remaining : option Z;
  sum_pct : Z;
  sum_agents : list Row;
  sum_estimationMethod : string
}.

Definition summary (q : t) : Summary :=
  mkSummary (_totalTokens q) (budget q)
            (if budget q >? 0
             then Some (Z.max 0 (budget q - _totalTokens q)) else None)
            (if budget q >? 0
             then roundPct (utilization (_totalTokens q) (budget q)) else 0)
            (sortRows (rows q))
            (estimationMethod q).

(** The per-agent totals and task counts, added up. *)
Definition agentsTotal (m : JsMap.t AgentUsage) : Z :=
  fold_right (fun kv acc => usage_totalTokens (snd kv) + acc) 0 m.

Definition agentsTasks (m : JsMap.t AgentUsage) : Z :=
  fold_right (fun kv acc => usage_tasks (snd kv) + acc) 0 m.

(** The records of a run that carry an agent id. *)
Definition counted (rs : list (Z * Result)) : list (Z * Result) :=
  filter (fun x => truthyS (agentId (snd x))) rs.

Definition moreFirst (a b : Row) : Prop :=
  row_totalTokens b <= row_totalTokens a.

End QuotaReport.

(** ** The spawner: listing (lib/spawner.js) *)

Module Workspaces.

Import Spawner.

Record Listed : Type := mkListed {
  listed_agentId : string;
  listed_workspace : string;
  listed_exists : bool
}.

(** [list()] *)
Definition list (sp : t) : list Listed :=
  map (fun kv => mkListed (fst kv) (snd kv) (existsSync sp (snd kv)))
      (workspaces sp).

End Workspaces.

(** ** The supervisor: configuration reload, broadcast and task end
    (lib/supervisor.js) *)

Module SupervisorOps.

Import Supervisor.

Definition with_maxActive (x : Z) (s : t) : t :=
  mk x (role s) (channels s) (tokenBudget s) (tokensUsed s)
     (heartbeatIntervalMs s) (persist s) (spawner s) (healthMonitor s)
     (busConnected s) (processTable s) (promotionQueue s) (activeCount s)
     (promotionsPaused s) (running s) (startedAt s) (timers s) (trace s).

Definition with_tokenBudget (x : Z) (s : t) : t :=
  mk (maxActive s) (role s) (channels s) x (tokensUsed s)
     (heartbeatIntervalMs s) (persist s) (spawner s) (healthMonitor s)
     (busConnected s) (processTable s) (promotionQueue s) (activeCount s)
     (promotionsPaused s) (running s) (startedAt s) (timers s) (trace s).

Definition with_heartbeatIntervalMs (x : Z) (s : t) : t :=
  mk (maxActive s) (role s) (channels s) (tokenBudget s) (tokensUsed s)
     x (persist s) (spawner s) (healthMonitor s)
     (busConnected s) (processTable s) (promotionQueue s) (activeCount s)
     (promotionsPaused s) (running s) (startedAt s) (timers s) (trace s).

(** The argument of [reloadConfig]; [None] is a field left [undefined]. *)
Record NewConfig : Type := mkNew {
  new_maxActive : option Z;
  new_tokenBudget : option Z;
  new_heartbeatIntervalMs : option Z
}.

Section Calls.

Variable env : Env.

Definition reloadConfig (c : NewConfig) (s : t) : Outcome t :=
  let s :=
    match new_maxActive c with
    | Some m =>
        let old := maxActive s in
        let s := with_maxActive m s in
        _log "config_reloaded"
             [("field", VStr "maxActive"); ("old", VNum old);
              ("new", VNum (maxActive s))] s
    | None => s
    end in
  let s :=
    match new_tokenBudget c with
    | Some b =>
        let old := tokenBudget s in
        let s := with_tokenBudget b s in
        let s := if promotionsPaused s && (tokensUsed s <? tokenBudget s)
                 then with_promotionsPaused false s
                 else s in
        _log "config_reloaded"
             [("field", VStr "tokenBudget"); ("old", VNum old);
              ("new", VNum (tokenBudget s))] s
    | None => s
    end in
  let s :=
    match new_heartbeatIntervalMs c with
    | Some h =>
        let s := with_heartbeatIntervalMs h s in
        _log "config_reloaded"
             [("field", VStr "heartbeatIntervalMs");
              ("new", VNum (heartbeatIntervalMs s))] s
    | None => s
    end in
  _processPromotionQueue env s.

(** [broadcastTask(task)]: the send, then local delivery to every daemon
    of the process table, in its order.  The payload of the broadcast
    has no [agentId] field, recorded here as the empty string. *)
Definition broadcastTask (task : option Daemon.Task) (s : t) : Outcome t :=
  let s := _busSend "TASK_AVAILABLE" "" s in
  fold_left
    (fun acc agentId =>
       bindO acc (deliver env agentId (Daemon.TASK_AVAILABLE task)))
    (JsMap.keys (processTable s)) (Returned s).

(** The [exit] listener of the executor of the daemon of [entry], with
    the supervisor's listeners that run while it executes.  [entry] is
    the entry that the process table holds under [agentId]. *)
Definition childExit (agentId : string) (entry : Entry) (code : option Z)
    (signal : option string) (stdout : string) (s : t) : Outcome t :=
  let '(d, acts) := Daemon.onChildExit (daemon entry) code signal stdout in
  perform (onDaemonEvent env) agentId acts (putDaemon agentId entry d s).

End Calls.

(** The settings that promotion handling never writes. *)
Definition sameSettings (s s' : t) : Prop :=
  tokenBudget s' = tokenBudget s
  /\ tokensUsed s' = tokensUsed s
  /\ heartbeatIntervalMs s' = heartbeatIntervalMs s
  /\ HealthMonitor.heartbeatIntervalMs (healthMonitor s')
     = HealthMonitor.heartbeatIntervalMs (healthMonitor s)
  /\ running s' = running s.

(** The number of [promoted] events among the actions of a daemon. *)
Definition isPromoted (a : Daemon.Action) : bool :=
  match a with
  | Daemon.Emit (Daemon.promoted _ _ _) => true
  | _ => false
  end.

Definition promotions (acts : list Daemon.Action) : Z :=
  Z.of_nat (List.length (filter isPromoted acts)).

(** What a daemon answers to a broadcast of [task], as the supervisor
    records it: its [claim] and the [CLAIM] sent on for it. *)
Definition claims (s : t) (task : Daemon.Task) (kv : string * Entry)
  : list Output :=
  let d := daemon (snd kv) in
  if Daemon.state_eqb (Daemon.state d) Daemon.IDLE
     && Daemon.matchesRole d (Some task)
  then
    ByDaemon (fst kv)
      (Daemon.Emit (Daemon.claim (Daemon.agentId d)
                                 (Daemon.task_component task)
                                 (Daemon.role d)))
    :: (if busConnected s
        then [BusSend (match channels s with
                       | c :: _ => if truthyS c then c else "#agents"
                       | [] => "#agents"
                       end) "CLAIM" (Daemon.agentId d)]
        else [])
  else [].

End SupervisorOps.

(** ** The in-process message bus (lib/message-bus.js)

    Several [EventEmitterBus] objects share a hub.  A bus is known by a
    handle; the hub holds the [bus-message] listeners in the order they
    were added, each the closure of one [connect] call of one bus, told
    apart by a serial number.  What a bus emits as [message] is kept in
    [received]. *)

Module MessageBus.

Record Msg : Type := mkMsg {
  msg_from : string;
  msg_to : string;
  msg_content : string;
  msg_ts : Z
}.

Record Bus : Type := mkBus {
  agentId : string;
  connected : bool;
  channels : list string;
  _hubListener : option nat;
  received : list Msg
}.

Record Hub : Type := mkHub {
  buses : JsMap.t Bus;
  listeners : list (string * nat);
  nextListener : nat
}.

Definition with_bus (handle : string) (b : Bus) (w : Hub) : Hub :=
  mkHub (JsMap.set handle b (buses w)) (listeners w) (nextListener w).

(** [new EventEmitterBus({ hub, agentId })] *)
Definition constructor (handle agentId : string) (w : Hub) : Hub :=
  with_bus handle (mkBus agentId false [] None []) w.

Definition startsWithHash (s : string) : bool :=
  match s with
  | String c _ => Ascii.eqb c "#"
  | EmptyString => false
  end.

(** The test of the hub listener of a bus: does it emit [message]? *)
Definition accepts (b : Bus) (m : Msg) : bool :=
  if startsWithHash (msg_to m) && existsb (String.eqb (msg_to m)) (channels b)
  then negb (String.eqb (msg_from m) (agentId b))
  else String.eqb (msg_to m) ("@" ++ agentId b).

(** One call of the closure made by [connect] on the bus [handle]. *)
Definition hubListener (handle : string) (m : Msg) (w : Hub) : Hub :=
  match JsMap.get handle (buses w) with
  | None => w
  | Some b =>
      if accepts b m
      then with_bus handle
             (mkBus (agentId b) (connected b) (channels b) (_hubListener b)
                    (received b ++ [m])) w
      else w
  end.

(** [hub.emit('bus-message', msg)]: the listeners present at the call,
    in order. *)
Definition emit (m : Msg) (w : Hub) : Hub :=
  fold_left (fun w l => hubListener (fst l) m w) (listeners w) w.

Definition connect (handle : string) (w : Hub) : Hub :=
  match JsMap.get handle (buses w) with
  | None => w
  | Some b =>
      mkHub (JsMap.set handle
               (mkBus (agentId b) true (channels b) (Some (nextListener w))
                      (received b))
               (buses w))
            (listeners w ++ [(handle, nextListener w)])
            (S (nextListener w))
  end.

(** [Set.prototype.add] *)
Definition add (x : string) (l : list string) : list string :=
  if existsb (String.eqb x) l then l else l ++ [x].

Definition join (handle channel : string) (w : Hub) : Hub :=
  match JsMap.get handle (buses w) with
  | None => w
  | Some b =>
      with_bus handle
        (mkBus (agentId b) (connected b) (add channel (channels b))
               (_hubListener b) (received b)) w
  end.

Definition send (now : Z) (handle target content : string) (w : Hub)
  : Outcome Hub :=
  match JsMap.get handle (buses w) with
  | None => Returned w
  | Some b =>
      if negb (connected b) then Thrown "Not connected" w
      else Returned (emit (mkMsg (agentId b) target content now) w)
  end.

Definition isListener (handle : string) (n : nat) (l : string * nat) : bool :=
  String.eqb (fst l) handle && Nat.eqb (snd l) n.

(** [removeListener]: the most recently added instance goes. *)
Fixpoint removeFirst {A} (p : A -> bool) (l : list A) : list A :=
  match l with
  | [] => []
  | x :: l' => if p x then l' else x :: removeFirst p l'
  end.

Definition removeListener (handle : string) (n : nat) (l : list (string * nat))
  : list (string * nat) :=
  rev (removeFirst (isListener handle n) (rev l)).

Definition disconnect (handle : string) (w : Hub) : Hub :=
  match JsMap.get handle (buses w) with
  | None => w
  | Some b =>
      let ls :=
        match _hubListener b with
        | Some n => removeListener handle n (listeners w)
        | None => listeners w
        end in
      mkHub (JsMap.set handle
               (mkBus (agentId b) false [] None (received b)) (buses w))
            ls (nextListener w)
  end.

(** The number of hub listeners that belong to a bus. *)
Definition listening (handle : string) (w : Hub) : nat :=
  List.length (filter (fun l => String.eqb (fst l) handle) (listeners w)).

End MessageBus.

(** ** Command-line arguments (bin/agentctl.js)

    A string is its sequence of code units.  [flags] is a plain object
    read by key: it is modelled by its own properties, so an assignment
    to the key "__proto__", which JavaScript ignores for a string or
    [true], stores nothing. *)

Module Agentctl.

Inductive FlagValue : Type :=
| FStr (s : string)
| FTrue.

Record Parsed : Type := mkParsed {
  command : string;
  flags : JsMap.t FlagValue;
  positional : list string
}.

Fixpoint startsWith (p s : string) : bool :=
  match p, s with
  | EmptyString, _ => true
  | String a p', String b s' => Ascii.eqb a b && startsWith p' s'
  | String _ _, EmptyString => false
  end.

(** [arg.slice(2)] *)
Definition slice2 (s : string) : string :=
  String.substring 2 (String.length s - 2) s.

(** [arg[1]] *)
Definition charAt1 (s : string) : string := String.substring 1 1 s.

Definition shortMap (c : string) : option string :=
  if String.eqb c "n" then Some "count"
  else if String.eqb c "m" then Some "max-active"
  else if String.eqb c "r" then Some "role"
  else if String.eqb c "s" then Some "server"
  else if String.eqb c "c" then Some "channels"
  else if String.eqb c "o" then Some "output"
  else if String.eqb c "j" then Some "json"
  else None.

(** [flags[key] = value] *)
Definition setFlag (key : string) (v : FlagValue) (f : JsMap.t FlagValue)
  : JsMap.t FlagValue :=
  if String.eqb key "__proto__" then f else JsMap.set key v f.

(** The [for] loop, from index [i] on; [args] is what is left from
    [args[i]]. *)
Fixpoint parseLoop (args : list string) (f : JsMap.t FlagValue)
    (pos : list string) : JsMap.t FlagValue * list string :=
  match args with
  | [] => (f, pos)
  | arg :: rest =>
      if startsWith "--" arg then
        let key := slice2 arg in
        match rest with
        | next :: rest' =>
            if truthyS next && negb (startsWith "--" next)
            then parseLoop rest' (setFlag key (FStr next) f) pos
            else parseLoop rest (setFlag key FTrue f) pos
        | [] => parseLoop rest (setFlag key FTrue f) pos
        end
      else if startsWith "-" arg && (String.length arg =? 2)%nat then
        let key := match shortMap (charAt1 arg) with
                   | Some long => long
                   | None => charAt1 arg
                   end in
        match rest with
        | next :: rest' =>
            if truthyS next && negb (startsWith "-" next)
            then parseLoop rest' (setFlag key (FStr next) f) pos
            else parseLoop rest (setFlag key FTrue f) pos
        | [] => parseLoop rest (setFlag key FTrue f) pos
        end
      else parseLoop rest f (pos ++ [arg])
  end.

Definition parseArgs (argv : list string) : Parsed :=
  let args := skipn 2 argv in
  let command := match args with
                 | c :: _ => if truthyS c then c else "help"
                 | [] => "help"
                 end in
  let '(f, pos) := parseLoop (tl args) [] [] in
  mkParsed command f pos.

(** An argument that the loop takes for a flag. *)
Definition isFlag (arg : string) : bool :=
  startsWith "--" arg
  || (startsWith "-" arg && (String.length arg =? 2)%nat).

(** The arguments that spell out a list of long flags with their
    values, and the flags they stand for. *)
Definition spell (l : list (string * string)) : list string :=
  flat_map (fun kv => [("--" ++ fst kv)%string; snd kv]) l.

Definition stored (l : list (string * string)) (f : JsMap.t FlagValue)
  : JsMap.t FlagValue :=
  fold_left (fun f kv => JsMap.set (fst kv) (FStr (snd kv)) f) l f.

(** A string that can follow a long flag as its value. *)
Definition isValue (v : string) : bool :=
  truthyS v && negb (startsWith "--" v).

End Agentctl.

(** ** A supervisor with a quota probe attached (lib/quota-probe.js,
    [attachQuotaProbe])

    [attachQuotaProbe] adds listeners to every daemon, present or
    spawned later, and to the probe.  On a daemon they come after the
    supervisor's own, so each event is handled by the supervisor first
    and by the probe's listener next; the functions below are those of
    the supervisor with this second listener in place. *)

Module Attached.

Import Supervisor.

Record World : Type := mkWorld {
  sup : Supervisor.t;
  probe : QuotaProbe.t;
  taskStartTimes : JsMap.t Z
}.

Definition with_sup (s : Supervisor.t) (w : World) : World :=
  mkWorld s (probe w) (taskStartTimes w).

Definition withSup (r : Outcome Supervisor.t) (w : World) : Outcome World :=
  match r with
  | Returned s => Returned (with_sup s w)
  | Thrown m s => Thrown m (with_sup s w)
  end.

Definition with_tokensUsed (x : Z) (s : Supervisor.t) : Supervisor.t :=
  mk (maxActive s) (role s) (channels s) (tokenBudget s) x
     (heartbeatIntervalMs s) (persist s) (spawner s) (healthMonitor s)
     (busConnected s) (processTable s) (promotionQueue s) (activeCount s)
     (promotionsPaused s) (running s) (startedAt s) (timers s) (trace s).

(** The listeners put on the probe. *)
Definition onProbeEvent (e : QuotaProbe.Event) (s : Supervisor.t)
  : Supervisor.t :=
  match e with
  | QuotaProbe.budget_exhausted total budget =>
      with_promotionsPaused true
        (_log "budget_exhausted"
              [("totalTokens", VNum total); ("budget", VNum budget)] s)
  | QuotaProbe.budget_warning total budget pct =>
      _log "budget_warning"
           [("totalTokens", VNum total); ("budget", VNum budget);
            ("pct", VNum pct)] s
  | QuotaProbe.usage a tokens total _ =>
      _log "token_usage"
           [("agentId", VStr a); ("tokens", VNum tokens); ("total", VNum total)]
           s
  end.

Section Calls.

Variable env : Env.

(** What the [done] and [fail] listeners of [wireAgent] hand to
    [probe.record]; a daemon's result has no [tokens] field. *)
Definition resultOf (r : Daemon.TaskResult) (w : World) : QuotaProbe.Result :=
  QuotaProbe.mkResult
    (Daemon.res_agentId r)
    (Some (orS (Daemon.res_output r) ""))
    (Some (match JsMap.get (Daemon.res_agentId r) (taskStartTimes w) with
           | Some startTime =>
               if truthyZ startTime then now env - startTime else 0
           | None => 0
           end))
    None.

(** The [done] and [fail] listeners of [wireAgent]. *)
Definition onResult (r : Daemon.TaskResult) (w : World) : World :=
  let result := resultOf r w in
  let times := JsMap.delete (Daemon.res_agentId r) (taskStartTimes w) in
  let '(q, events) := QuotaProbe.record (probe w) (now env) result in
  let s := fold_left (fun s e => onProbeEvent e s) events (sup w) in
  let s := with_tokensUsed (QuotaProbe._totalTokens q) s in
  mkWorld s q times.

(** The listeners of a daemon that do not re-enter promotion handling:
    the supervisor's, then those of [wireAgent]. *)
Definition onLifecycle (e : Daemon.Event) (w : World) : Outcome World :=
  bindO (withSup (Supervisor.onLifecycle env e (sup w)) w)
        (fun w =>
           match e with
           | Daemon.promoted a _ _ =>
               Returned (mkWorld (sup w) (probe w)
                                 (JsMap.set a (now env) (taskStartTimes w)))
           | Daemon.done r => Returned (onResult r w)
           | Daemon.fail r => Returned (onResult r w)
           | _ => Returned w
           end).

Fixpoint perform (handler : Daemon.Event -> World -> Outcome World)
    (agentId : string) (acts : list Daemon.Action) (w : World) : Outcome World :=
  match acts with
  | [] => Returned w
  | a :: acts' =>
      let w := with_sup (say (ByDaemon agentId a) (sup w)) w in
      match a with
      | Daemon.Emit e =>
          bindO (handler e w) (perform handler agentId acts')
      | _ => perform handler agentId acts' w
      end
  end.

Definition approve (agentId : string) (e : Entry) (task : option Daemon.Task)
    (w : World) : Outcome World :=
  match Daemon.approvePromotion (daemon e) task
          (spawnProcess env (Daemon.agentId (daemon e))) with
  | Returned (d, acts) =>
      perform onLifecycle agentId acts
              (with_sup (putDaemon agentId e d (sup w)) w)
  | Thrown m (d, acts) =>
      Thrown m (with_sup (noteActions agentId acts
                            (putDaemon agentId e d (sup w))) w)
  end.

Definition _handlePromoteRequest (req : PromoteRequest) (w : World)
  : Outcome World :=
  let s := sup w in
  if promotionsPaused s then
    match JsMap.get (req_agentId req) (processTable s) with
    | Some entry =>
        Returned (with_sup (deny (req_agentId req) entry
                                 "promotions paused (budget/quota)" s) w)
    | None => Returned w
    end
  else if activeCount s >=? maxActive s then
    let s := with_promotionQueue (promotionQueue s ++ [req]) s in
    Returned
      (with_sup
         (_log "promotion_queued"
               [("agentId", VStr (req_agentId req));
                ("queueLength",
                 VNum (Z.of_nat (List.length (promotionQueue s))))]
               s) w)
  else if (tokenBudget s >? 0) && (tokensUsed s >=? tokenBudget s) then
    let s := with_promotionsPaused true s in
    let s :=
      match JsMap.get (req_agentId req) (processTable s) with
      | Some entry => deny (req_agentId req) entry "token budget exhausted" s
      | None => s
      end in
    Returned
      (with_sup
         (_log "promotions_paused"
               [("reason", VStr "token_budget"); ("used", VNum (tokensUsed s));
                ("budget", VNum (tokenBudget s))] s) w)
  else
    match JsMap.get (req_agentId req) (processTable s) with
    | Some entry => approve (req_agentId req) entry (req_task req) w
    | None => Returned w
    end.

Definition queueTurn (w : World) : Outcome World :=
  match promotionQueue (sup w) with
  | [] => Returned w
  | req :: rest =>
      let w := with_sup (with_promotionQueue rest (sup w)) w in
      match JsMap.get (req_agentId req) (processTable (sup w)) with
      | Some entry =>
          if Daemon.state_eqb (Daemon.state (daemon entry)) Daemon.PROMOTING
          then approve (req_agentId req) entry (req_task req) w
          else Returned w
      | None => Returned w
      end
  end.

Fixpoint queueLoop (fuel : nat) (w : World) : Outcome World :=
  match fuel with
  | O => Returned w
  | S fuel' =>
      if queueOpen (sup w) then bindO (queueTurn w) (queueLoop fuel')
      else Returned w
  end.

Definition _processPromotionQueue (w : World) : Outcome World :=
  queueLoop (List.length (promotionQueue (sup w))) w.

(** All the listeners of a daemon. *)
Definition onDaemonEvent (e : Daemon.Event) (w : World) : Outcome World :=
  match e with
  | Daemon.promote_request a task => _handlePromoteRequest (mkReq a task) w
  | Daemon.demoted a =>
      let s := sup w in
      let s := with_activeCount (Z.max 0 (activeCount s - 1)) s in
      let s := _log "agent_demoted"
                    [("agentId", VStr a); ("activeCount", VNum (activeCount s))]
                    s in
      _processPromotionQueue (with_sup s w)
  | _ => onLifecycle e w
  end.

(** The [exit] listener of the executor of the daemon of [entry], the
    entry that the process table holds under [agentId]. *)
Definition childExit (agentId : string) (entry : Entry) (code : option Z)
    (signal : option string) (stdout : string) (w : World) : Outcome World :=
  let '(d, acts) := Daemon.onChildExit (daemon entry) code signal stdout in
  perform onDaemonEvent agentId acts
          (with_sup (putDaemon agentId entry d (sup w)) w).

End Calls.

(** [attachQuotaProbe(supervisor, probe)] *)
Definition attachQuotaProbe (s : Supervisor.t) (q : QuotaProbe.t) : World :=
  mkWorld s q [].

End Attached.

(** ** Further concrete inputs *)

Module Cases.

(** The idle daemon of [Scenario] after an [ASSIGN] of [Scenario.task]. *)
Definition promotingDaemon : Daemon.t :=
  fst (Daemon._requestPromotion Scenario.idleDaemon (Some Scenario.task)).

Definition child : Daemon.ChildProcess := Daemon.mkChild (Some 4242).

(** The monitor of [Scenario] with a memory limit of 512 MB and the pid
    of its agent known; [ps] reports 600 MB and 12.5 % CPU for it. *)
Definition limitedMonitor : HealthMonitor.t :=
  HealthMonitor.updatePid
    (HealthMonitor.register
       (HealthMonitor.constructor
          (HealthMonitor.mkOptions None None None (Some 512%Q) None))
       0 "agent-001" None)
    "agent-001" 4242.

Definition psStats : Z -> option (Q * Q) :=
  fun p => if p =? 4242 then Some (600%Q, (125 # 10)%Q) else None.

(** The fleet of [Scenario.working] with the cap lowered to 1, so that
    the swarm is full, and then a task assigned to daemon 1, whose
    request is queued. *)
Definition capped : Supervisor.t :=
  Eval vm_compute in
    (stateOf (SupervisorOps.reloadConfig (Scenario.world 2500)
                (SupervisorOps.mkNew (Some 1) None None) Scenario.working)).

Definition waiting : Supervisor.t :=
  Eval vm_compute in
    (stateOf (Supervisor.assignTask (Scenario.world 2600)
                "id-swarm-builder-001" (Some Scenario.task) capped)).

Definition entryOf (agentId : string) (s : Supervisor.t) : Supervisor.Entry :=
  match JsMap.get agentId (Supervisor.processTable s) with
  | Some e => e
  | None => Supervisor.mkEntry Scenario.idleDaemon 0 None 0 false
  end.

Definition worker0 : Supervisor.Entry :=
  Eval vm_compute in (entryOf "id-swarm-builder-000" waiting).

Definition waiter1 : Supervisor.Entry :=
  Eval vm_compute in (entryOf "id-swarm-builder-001" waiting).

(** The fleet scaled down to two daemons at time 3000: daemon 0, idle the
    longest, is removed with its workspace. *)
Definition shrunk : Supervisor.t :=
  Eval vm_compute in
    (fst (stateOf (Supervisor.scale (Scenario.world 3000) 2 Scenario.fleet))).

(** Two buses on one hub, both connected and on "#agents". *)
Definition hub : MessageBus.Hub :=
  Eval vm_compute in
    (MessageBus.join "b" "#agents"
       (MessageBus.connect "b"
          (MessageBus.join "a" "#agents"
             (MessageBus.connect "a"
                (MessageBus.constructor "b" "beta"
                   (MessageBus.constructor "a" "alpha"
                      (MessageBus.mkHub [] [] 0))))))).

Definition busA : MessageBus.Bus :=
  MessageBus.mkBus "alpha" true ["#agents"] (Some 0%nat) [].

Definition busB : MessageBus.Bus :=
  MessageBus.mkBus "beta" true ["#agents"] (Some 1%nat) [].

(** A probe with a budget of one token, attached to the full swarm of
    [waiting]. *)
Definition tinyProbe : QuotaProbe.t :=
  QuotaProbe.constructor (QuotaProbe.mkConfig (Some 1) None None None None).

Definition metered : Attached.World :=
  Attached.attachQuotaProbe waiting tinyProbe.

(** A probe in [duration] mode with the default 50 tokens per second,
    and the result of a task that took 1100 ms. *)
Definition durationProbe : QuotaProbe.t :=
  QuotaProbe.constructor
    (QuotaProbe.mkConfig None (Some "duration") None None None).

Definition timedRecord : QuotaProbe.Result :=
  QuotaProbe.mkResult "agent-1" None (Some 1100) None.

End Cases.

(** * Properties *)

(** ** Maps *)

Section JsMapFacts.

Context {V : Type}.

Lemma get_set_same (k : string) (v : V) (m : JsMap.t V) :
  JsMap.get k (JsMap.set k v m) = Some v.
Proof.
  induction m as [|[k' v'] m IH]; simpl.
  - now rewrite String.eqb_refl.
  - destruct (String.eqb k k') eqn:E; simpl; rewrite ?String.eqb_refl, ?E; auto.
Qed.

Lemma get_set_other (k k' : string) (v : V) (m : JsMap.t V) :
  k <> k' -> JsMap.get k' (JsMap.set k v m) = JsMap.get k' m.
Proof.
  intros N. induction m as [|[k0 v0] m IH]; simpl.
  - apply String.eqb_neq in N. rewrite String.eqb_sym in N. now rewrite N.
  - destruct (String.eqb k k0) eqn:E; simpl.
    + apply String.eqb_eq in E. subst k0.
      assert (String.eqb k' k = false) as ->
        by (apply String.eqb_neq; congruence).
      reflexivity.
    + now rewrite IH.
Qed.

Lemma get_delete_same (k : string) (m : JsMap.t V) :
  JsMap.get k (JsMap.delete k m) = None.
Proof.
  induction m as [|[k0 v0] m IH]; simpl; auto.
  destruct (String.eqb k k0) eqn:E; simpl; auto.
  now rewrite E.
Qed.

Lemma get_delete_other (k k' : string) (m : JsMap.t V) :
  k <> k' -> JsMap.get k' (JsMap.delete k m) = JsMap.get k' m.
Proof.
  intros N. induction m as [|[k0 v0] m IH]; simpl; auto.
  destruct (String.eqb k k0) eqn:E; simpl.
  - apply String.eqb_eq in E. subst k0.
    assert (String.eqb k' k = false) as ->
      by (apply String.eqb_neq; congruence).
    exact IH.
  - now rewrite IH.
Qed.

Lemma get_In (k : string) (v : V) (m : JsMap.t V) :
  JsMap.get k m = Some v -> In (k, v) m.
Proof.
  induction m as [|[k0 v0] m IH]; simpl; [discriminate|].
  destruct (String.eqb k k0) eqn:E.
  - apply String.eqb_eq in E. intros [= <-]. subst. now left.
  - intros H. right. auto.
Qed.

Lemma In_get (k : string) (v : V) (m : JsMap.t V) :
  JsMap.wf m -> In (k, v) m -> JsMap.get k m = Some v.
Proof.
  unfold JsMap.wf, JsMap.keys.
  induction m as [|[k0 v0] m IH]; simpl; [contradiction|].
  intros W H. inversion W as [|? ? Hn Hd]; subst.
  destruct H as [[= -> ->]|H].
  - now rewrite String.eqb_refl.
  - destruct (String.eqb k k0) eqn:E.
    + apply String.eqb_eq in E. subst k0. exfalso. apply Hn.
      change k with (fst (k, v)). now apply in_map.
    + auto.
Qed.

End JsMapFacts.

(** ** The daemon *)

(** C10. On a daemon that is not [promoting], [denyPromotion] does
    nothing: the daemon (so its state and current task) is returned as it
    was and no action, hence no [unclaim] event, is performed. *)
Theorem denyPromotion_only_when_promoting
    (d : Daemon.t) (reason : option string) :
  Daemon.state d <> Daemon.PROMOTING ->
  Daemon.denyPromotion d reason = (d, []).
Proof.
  intros N. unfold Daemon.denyPromotion.
  destruct (Daemon.state d); simpl; try reflexivity.
  now contradiction N.
Qed.

(** ** The health monitor *)

(** C4. After [heartbeat(agentId)] the record of [agentId] is [alive]
    with [consecutiveMisses = 0] (and [lastSeen] is the call time); the
    only way for no record to be there afterwards is that the agent was
    not registered, in which case the call does nothing. *)
Theorem heartbeat_resets (h : HealthMonitor.t) (now : Z) (agentId : string) :
  match JsMap.get agentId (HealthMonitor.agents (HealthMonitor.heartbeat h now agentId)) with
  | Some r =>
      HealthMonitor.status r = HealthMonitor.alive
      /\ HealthMonitor.consecutiveMisses r = 0
      /\ HealthMonitor.lastSeen r = now
      /\ JsMap.get agentId (HealthMonitor.agents h) <> None
  | None =>
      JsMap.get agentId (HealthMonitor.agents h) = None
      /\ HealthMonitor.heartbeat h now agentId = h
  end.
Proof.
  unfold HealthMonitor.heartbeat.
  destruct (JsMap.get agentId (HealthMonitor.agents h)) as [r|] eqn:G.
  - simpl. rewrite get_set_same. simpl. repeat split; congruence.
  - rewrite G. auto.
Qed.

Section CheckFacts.

Variable h : HealthMonitor.t.
Variable now : Z.
Variable stats : Z -> option (Q * Q).

Lemma checkResources_keeps_freshness agentId a :
  let '(a', alerts) := HealthMonitor.checkResources h stats agentId a in
  HealthMonitor.status a' = HealthMonitor.status a
  /\ HealthMonitor.consecutiveMisses a' = HealthMonitor.consecutiveMisses a
  /\ HealthMonitor.unresponsiveAlerts agentId alerts = [].
Proof.
  unfold HealthMonitor.checkResources.
  destruct (HealthMonitor.pid a) as [p|]; [|simpl; auto].
  destruct (truthyZ p); [|simpl; auto].
  destruct (stats p) as [[mb cpu]|]; [|simpl; auto].
  simpl. repeat split.
  unfold HealthMonitor.unresponsiveAlerts.
  destruct (_ && _); destruct (_ && _); simpl;
    rewrite ?andb_false_r; reflexivity.
Qed.

Lemma checkHeartbeat_owner agentId a :
  Forall (fun x => HealthMonitor.alert_agentId x = agentId)
         (snd (HealthMonitor.checkHeartbeat h now agentId a)).
Proof.
  unfold HealthMonitor.checkHeartbeat.
  repeat match goal with
         | |- context [if ?c then _ else _] => destruct c
         end; simpl; repeat constructor.
Qed.

Lemma checkResources_owner agentId a :
  Forall (fun x => HealthMonitor.alert_agentId x = agentId)
         (snd (HealthMonitor.checkResources h stats agentId a)).
Proof.
  unfold HealthMonitor.checkResources.
  destruct (HealthMonitor.pid a) as [p|]; [|constructor].
  destruct (truthyZ p); [|constructor].
  destruct (stats p) as [[mb cpu]|]; [|constructor].
  simpl. destruct (_ && _); destruct (_ && _); simpl; repeat constructor.
Qed.

Lemma checkAgent_owner agentId a :
  Forall (fun x => HealthMonitor.alert_agentId x = agentId)
         (snd (HealthMonitor.checkAgent h now stats agentId a)).
Proof.
  unfold HealthMonitor.checkAgent.
  match goal with |- context [HealthMonitor.checkHeartbeat h now agentId ?x] =>
    pose proof (checkHeartbeat_owner agentId x) as H1;
    destruct (HealthMonitor.checkHeartbeat h now agentId x) as [a1 l1] end.
  pose proof (checkResources_owner agentId a1) as H2.
  destruct (HealthMonitor.checkResources h stats agentId a1) as [a2 l2].
  simpl in *. apply Forall_app. now split.
Qed.

Lemma checkAgent_foreign agentId other a :
  other <> agentId ->
  HealthMonitor.unresponsiveAlerts agentId
    (snd (HealthMonitor.checkAgent h now stats other a)) = [].
Proof.
  intros N.
  pose proof (checkAgent_owner other a) as F.
  induction F as [|x l Hx _ IH]; simpl; auto.
  rewrite Hx.
  assert (String.eqb other agentId = false) as -> by now apply String.eqb_neq.
  simpl. exact IH.
Qed.

Lemma unresponsiveAlerts_app agentId l1 l2 :
  HealthMonitor.unresponsiveAlerts agentId (l1 ++ l2)
  = HealthMonitor.unresponsiveAlerts agentId l1
    ++ HealthMonitor.unresponsiveAlerts agentId l2.
Proof. apply filter_app. Qed.

(** [check] visits every record once and leaves the keys in place. *)
Lemma checkAll_lookup agentId a (m : JsMap.t HealthMonitor.AgentHealth) :
  JsMap.wf m ->
  JsMap.get agentId m = Some a ->
  let '(m', alerts) := HealthMonitor.checkAll h now stats m in
  JsMap.get agentId m'
  = Some (fst (HealthMonitor.checkAgent h now stats agentId a))
  /\ HealthMonitor.unresponsiveAlerts agentId alerts
     = HealthMonitor.unresponsiveAlerts agentId
         (snd (HealthMonitor.checkAgent h now stats agentId a)).
Proof.
  unfold JsMap.wf, JsMap.keys.
  induction m as [|[k v] m IH]; simpl; [discriminate|].
  intros W G. inversion W as [|? ? Hn Hd]; subst.
  destruct (HealthMonitor.checkAgent h now stats k v) as [v' al] eqn:E.
  destruct (HealthMonitor.checkAll h now stats m) as [m' al'] eqn:E'.
  simpl. destruct (String.eqb agentId k) eqn:K.
  - apply String.eqb_eq in K. subst k. injection G as <-.
    rewrite E. simpl. split; [reflexivity|].
    rewrite unresponsiveAlerts_app.
    assert (HealthMonitor.unresponsiveAlerts agentId al' = []) as ->.
    { clear -Hn E'. revert m' al' E'.
      induction m as [|[k v] m IH]; simpl; intros m' al' E'.
      - now injection E' as <- <-.
      - destruct (HealthMonitor.checkAgent h now stats k v) as [v' al] eqn:E.
        destruct (HealthMonitor.checkAll h now stats m) as [m0 al0] eqn:E0.
        injection E' as <- <-.
        rewrite unresponsiveAlerts_app.
        rewrite (IH (fun H => Hn (or_intror H)) m0 al0 eq_refl).
        rewrite app_nil_r.
        pose proof (checkAgent_foreign agentId k v) as F.
        rewrite E in F. apply F. intros ->. apply Hn. now left. }
    now rewrite app_nil_r.
  - specialize (IH Hd G). destruct IH as [IH1 IH2]. split; [exact IH1|].
    rewrite unresponsiveAlerts_app, IH2.
    pose proof (checkAgent_foreign agentId k v) as F.
    rewrite E in F. simpl in F. rewrite F; [reflexivity|].
    intros ->. now rewrite String.eqb_refl in K.
Qed.

End CheckFacts.

(** The loop body on one record, by cases on its age and status. *)
Lemma checkAgent_freshness
    (h : HealthMonitor.t) (now : Z) (stats : Z -> option (Q * Q))
    (agentId : string) (r : HealthMonitor.AgentHealth) :
  let missed := (now - HealthMonitor.lastSeen r) / HealthMonitor.heartbeatIntervalMs h in
  let threshold := HealthMonitor.missThreshold h in
  let r' := fst (HealthMonitor.checkAgent h now stats agentId r) in
  let alerts :=
    HealthMonitor.unresponsiveAlerts agentId
      (snd (HealthMonitor.checkAgent h now stats agentId r)) in
  (HealthMonitor.heartbeatIntervalMs h < now - HealthMonitor.lastSeen r ->
   HealthMonitor.consecutiveMisses r' = missed
   /\ (threshold <= missed ->
       HealthMonitor.status r <> HealthMonitor.dead ->
       HealthMonitor.status r' = HealthMonitor.dead
       /\ alerts = [HealthMonitor.mkAlert agentId
                      HealthMonitor.reason_unresponsive
                      (HealthMonitor.misses missed threshold)])
   /\ (missed < threshold ->
       HealthMonitor.status r <> HealthMonitor.dead ->
       HealthMonitor.status r' = HealthMonitor.unresponsive
       /\ alerts = [])
   /\ (HealthMonitor.status r = HealthMonitor.dead ->
       HealthMonitor.status r' = HealthMonitor.dead /\ alerts = []))
  /\ (now - HealthMonitor.lastSeen r <= HealthMonitor.heartbeatIntervalMs h ->
      HealthMonitor.status r' = HealthMonitor.status r
      /\ HealthMonitor.consecutiveMisses r'
         = HealthMonitor.consecutiveMisses r
      /\ alerts = []).
Proof.
  intros missed threshold r' alerts. subst r' alerts.
  unfold HealthMonitor.checkAgent.
  set (r0 := HealthMonitor.mkHealth _ _ _ _ _ _ _ _).
  assert (HealthMonitor.lastSeen r0 = HealthMonitor.lastSeen r) as E1
    by reflexivity.
  assert (HealthMonitor.status r0 = HealthMonitor.status r) as E2
    by reflexivity.
  assert (HealthMonitor.consecutiveMisses r0
          = HealthMonitor.consecutiveMisses r) as E3 by reflexivity.
  clearbody r0.
  destruct (HealthMonitor.checkHeartbeat h now agentId r0) as [r1 l1] eqn:H1.
  pose proof (checkResources_keeps_freshness h stats agentId r1) as K.
  destruct (HealthMonitor.checkResources h stats agentId r1) as [r2 l2].
  destruct K as (K1 & K2 & K3). simpl.
  rewrite unresponsiveAlerts_app, K3, app_nil_r, K1, K2.
  clear K1 K2 K3 r2 l2.
  unfold HealthMonitor.checkHeartbeat in H1. rewrite E1, E2 in H1.
  fold missed threshold in H1.
  destruct (HealthMonitor.status r) eqn:S;
    destruct (Z.gtb_spec (now - HealthMonitor.lastSeen r)
                         (HealthMonitor.heartbeatIntervalMs h)) as [T|T];
    try destruct (Z.geb_spec missed threshold) as [M|M];
    simpl in H1; injection H1 as <- <-; simpl;
    rewrite ?String.eqb_refl; simpl;
    (split; [intros T'|intros T']);
    repeat split; intros; try lia; try congruence.
Qed.

(** C3 (as amended). For a registered record and a call of [check]:
    only when strictly more than one heartbeat interval has passed since
    [lastSeen] does the monitor store
    [missed = floor((now - lastSeen) / heartbeatInterval)]; then a record
    that is not yet [dead] becomes [dead] with exactly one [unresponsive]
    alert when [missed >= missThreshold], and [unresponsive] with no alert
    when [missed < missThreshold]; a record that is already [dead] stays
    [dead] with no alert.  When at most one interval has passed, status
    and miss count are left as they were and no alert is emitted. *)
Theorem check_heartbeat_freshness
    (h : HealthMonitor.t) (now : Z) (stats : Z -> option (Q * Q))
    (agentId : string) (r : HealthMonitor.AgentHealth) :
  JsMap.wf (HealthMonitor.agents h) ->
  JsMap.get agentId (HealthMonitor.agents h) = Some r ->
  let missed := (now - HealthMonitor.lastSeen r) / HealthMonitor.heartbeatIntervalMs h in
  let threshold := HealthMonitor.missThreshold h in
  let alerts :=
    HealthMonitor.unresponsiveAlerts agentId (snd (HealthMonitor.check h now stats)) in
  exists r',
    JsMap.get agentId (HealthMonitor.agents (fst (HealthMonitor.check h now stats)))
    = Some r'
    /\ (HealthMonitor.heartbeatIntervalMs h < now - HealthMonitor.lastSeen r ->
        HealthMonitor.consecutiveMisses r' = missed
        /\ (threshold <= missed ->
            HealthMonitor.status r <> HealthMonitor.dead ->
            HealthMonitor.status r' = HealthMonitor.dead
            /\ alerts = [HealthMonitor.mkAlert agentId
                           HealthMonitor.reason_unresponsive
                           (HealthMonitor.misses missed threshold)])
        /\ (missed < threshold ->
            HealthMonitor.status r <> HealthMonitor.dead ->
            HealthMonitor.status r' = HealthMonitor.unresponsive
            /\ alerts = [])
        /\ (HealthMonitor.status r = HealthMonitor.dead ->
            HealthMonitor.status r' = HealthMonitor.dead /\ alerts = []))
    /\ (now - HealthMonitor.lastSeen r <= HealthMonitor.heartbeatIntervalMs h ->
        HealthMonitor.status r' = HealthMonitor.status r
        /\ HealthMonitor.consecutiveMisses r'
           = HealthMonitor.consecutiveMisses r
        /\ alerts = []).
Proof.
  intros W G missed threshold alerts.
  pose proof (checkAll_lookup h now stats agentId r _ W G) as L.
  pose proof (checkAgent_freshness h now stats agentId r) as F.
  subst alerts. unfold HealthMonitor.check.
  destruct (HealthMonitor.checkAll h now stats (HealthMonitor.agents h))
    as [m' al]. simpl. destruct L as [L1 L2]. rewrite L1, L2.
  eexists. split; [reflexivity|]. exact F.
Qed.

(** [check] keeps the keys, and raises nothing for an agent it does not
    know. *)
Lemma checkAll_keys (h : HealthMonitor.t) (now : Z) (stats : Z -> option (Q * Q))
    (m : JsMap.t HealthMonitor.AgentHealth) :
  JsMap.keys (fst (HealthMonitor.checkAll h now stats m)) = JsMap.keys m.
Proof.
  induction m as [|[k v] m IH]; simpl; [reflexivity|].
  destruct (HealthMonitor.checkAgent h now stats k v) as [v' al].
  destruct (HealthMonitor.checkAll h now stats m) as [m' al'].
  simpl in *. now rewrite IH.
Qed.

Lemma checkAll_unknown (h : HealthMonitor.t) (now : Z)
    (stats : Z -> option (Q * Q)) (agentId : string)
    (m : JsMap.t HealthMonitor.AgentHealth) :
  JsMap.get agentId m = None ->
  JsMap.get agentId (fst (HealthMonitor.checkAll h now stats m)) = None
  /\ HealthMonitor.unresponsiveAlerts agentId
       (snd (HealthMonitor.checkAll h now stats m)) = [].
Proof.
  induction m as [|[k v] m IH]; simpl; [auto|].
  destruct (String.eqb agentId k) eqn:K; [discriminate|]. intros G.
  pose proof (checkAgent_foreign h now stats agentId k v) as F.
  destruct (HealthMonitor.checkAgent h now stats k v) as [v' al].
  destruct (IH G) as [I1 I2].
  destruct (HealthMonitor.checkAll h now stats m) as [m' al'].
  simpl in *. rewrite K, unresponsiveAlerts_app, I2, F; [auto|].
  intros ->. now rewrite String.eqb_refl in K.
Qed.

(** Single-shot alert: over any number of [check] passes with no
    heartbeat in between, at most one [unresponsive] alert is raised for
    an agent, and none for one that is already [dead]. *)
Lemma checkMany_alerts_once (stats : Z -> option (Q * Q)) (agentId : string)
    (times : list Z) :
  forall h,
    JsMap.wf (HealthMonitor.agents h) ->
    let alerts :=
      HealthMonitor.unresponsiveAlerts agentId
        (snd (HealthMonitor.checkMany h times stats)) in
    (List.length alerts <= 1)%nat
    /\ (forall r,
          JsMap.get agentId (HealthMonitor.agents h) = Some r ->
          HealthMonitor.status r = HealthMonitor.dead ->
          alerts = []).
Proof.
  induction times as [|now times IH]; intros h W; simpl.
  - split; [lia|reflexivity].
  - unfold HealthMonitor.check.
    pose proof (checkAll_keys h now stats (HealthMonitor.agents h)) as K.
    destruct (JsMap.get agentId (HealthMonitor.agents h)) as [r|] eqn:G.
    + pose proof (checkAll_lookup h now stats agentId r _ W G) as L.
      pose proof (checkAgent_freshness h now stats agentId r) as [F1 F2].
      destruct (HealthMonitor.checkAll h now stats (HealthMonitor.agents h))
        as [m1 al1].
      destruct L as [L1 L2]. simpl in K.
      specialize (IH (HealthMonitor.with_agents m1 h)).
      destruct (HealthMonitor.checkMany (HealthMonitor.with_agents m1 h)
                                        times stats) as [h2 al2].
      simpl in *. unfold JsMap.wf in IH. rewrite K in IH.
      destruct (IH W) as [I1 I2]. specialize (I2 _ L1).
      rewrite unresponsiveAlerts_app, L2.
      assert (HealthMonitor.status r = HealthMonitor.dead ->
              HealthMonitor.unresponsiveAlerts agentId
                (snd (HealthMonitor.checkAgent h now stats agentId r)) = []
              /\ HealthMonitor.unresponsiveAlerts agentId al2 = []) as D.
      { intros S.
        destruct (Z_lt_le_dec (HealthMonitor.heartbeatIntervalMs h)
                              (now - HealthMonitor.lastSeen r)) as [T|T].
        - destruct (F1 T) as (_ & _ & _ & X). destruct (X S) as [X1 X2].
          auto.
        - destruct (F2 T) as (X1 & _ & X2). split; [exact X2|].
          apply I2. congruence. }
      split.
      * destruct (HealthMonitor.status_eqb (HealthMonitor.status r)
                                           HealthMonitor.dead) eqn:S.
        { assert (HealthMonitor.status r = HealthMonitor.dead) as S'
            by (destruct (HealthMonitor.status r); simpl in S; congruence).
          destruct (D S') as [-> ->]. simpl. lia. }
        assert (HealthMonitor.status r <> HealthMonitor.dead) as S'
          by (intros X; rewrite X in S; discriminate).
        destruct (Z_lt_le_dec (HealthMonitor.heartbeatIntervalMs h)
                              (now - HealthMonitor.lastSeen r)) as [T|T].
        { destruct (F1 T) as (_ & X & Y & _).
          destruct (Z_le_gt_dec (HealthMonitor.missThreshold h)
                     ((now - HealthMonitor.lastSeen r)
                      / HealthMonitor.heartbeatIntervalMs h)) as [M|M].
          - destruct (X M S') as [X1 X2]. rewrite X2, (I2 X1). simpl. lia.
          - destruct (Y ltac:(lia) S') as [_ Y2]. rewrite Y2. exact I1. }
        destruct (F2 T) as (_ & _ & X). rewrite X. exact I1.
      * intros r0 [= <-] S. destruct (D S) as [-> ->]. reflexivity.
    + pose proof (checkAll_unknown h now stats agentId _ G) as [U1 U2].
      destruct (HealthMonitor.checkAll h now stats (HealthMonitor.agents h))
        as [m1 al1].
      simpl in K, U1, U2.
      specialize (IH (HealthMonitor.with_agents m1 h)).
      destruct (HealthMonitor.checkMany (HealthMonitor.with_agents m1 h)
                                        times stats) as [h2 al2].
      simpl in *. unfold JsMap.wf in IH. rewrite K in IH.
      destruct (IH W) as [I1 _].
      rewrite unresponsiveAlerts_app, U2. split; [exact I1|discriminate].
Qed.

(** ** The quota probe *)

Lemma utilization_ge_1 (total b : Z) :
  0 < b -> Qle_bool 1 (QuotaProbe.utilization total b) = (b <=? total).
Proof.
  intros P. apply eq_true_iff_eq. rewrite Qle_bool_iff, Z.leb_le.
  destruct b as [|p|p]; try lia.
  unfold QuotaProbe.utilization, Qdiv, Qmult, Qinv, Qle, inject_Z; simpl.
  lia.
Qed.



Lemma record_budget (q : QuotaProbe.t) (now : Z) (r : QuotaProbe.Result) :
  QuotaProbe.budget (fst (QuotaProbe.record q now r)) = QuotaProbe.budget q.
Proof.
  unfold QuotaProbe.record.
  repeat match goal with
         | |- context [if ?c then _ else _] => destruct c
         end; reflexivity.
Qed.




(** A record adds exactly [tokensFor] to the totals and reports it. *)
Lemma record_adds (q : QuotaProbe.t) (now : Z) (r : QuotaProbe.Result) :
  QuotaProbe.agentId r <> "" ->
  let n := QuotaProbe.tokensFor q r in
  let q' := fst (QuotaProbe.record q now r) in
  QuotaProbe._totalTokens q' = QuotaProbe._totalTokens q + n
  /\ In (QuotaProbe.usage (QuotaProbe.agentId r) n
           (QuotaProbe._totalTokens q + n) (QuotaProbe.budget q))
        (snd (QuotaProbe.record q now r))
  /\ exists u,
      JsMap.get (QuotaProbe.agentId r) (QuotaProbe._agents q') = Some u
      /\ QuotaProbe.usage_lastTask u
         = Some (QuotaProbe.mkLast n
                   (HealthMonitor.orZ (QuotaProbe.durationMs r) 0) now).
Proof.
  intros A n q'.
  assert (truthyS (QuotaProbe.agentId r) = true) as TA.
  { unfold truthyS. apply negb_true_iff. now apply String.eqb_neq. }
  subst q'. unfold QuotaProbe.record. rewrite TA. simpl. fold n.
  repeat match goal with
         | |- context [if ?c then _ else _] => destruct c
         end; simpl; (split; [reflexivity|]); (split; [now left|]);
    eexists; (split; [apply get_set_same|reflexivity]).
Qed.

Lemma tokensFor_rule (q : QuotaProbe.t) (r : QuotaProbe.Result) :
  QuotaProbe.tokensFor q r = TokenRule.tokensExplicitFirst q r.
Proof.
  unfold QuotaProbe.tokensFor, TokenRule.tokensExplicitFirst,
    QuotaProbe.estimate, TokenRule.byMode, TokenRule.fallback.
  destruct (String.eqb (QuotaProbe.estimationMethod q) "output") eqn:O.
  - apply String.eqb_eq in O. rewrite O. simpl.
    destruct (QuotaProbe.tokens r) as [n|]; [destruct (n >? 0)|];
      destruct (truthyOS (QuotaProbe.output r)); reflexivity.
  - destruct (String.eqb (QuotaProbe.estimationMethod q) "duration") eqn:D.
    + apply String.eqb_eq in D. rewrite D. simpl.
      destruct (QuotaProbe.tokens r) as [n|]; [destruct (n >? 0)|];
        destruct (QuotaProbe.durationMs r) as [ms|]; simpl; auto;
        unfold HealthMonitor.orZ; destruct (truthyZ ms); reflexivity.
    + simpl.
      destruct (String.eqb (QuotaProbe.estimationMethod q) "reported");
        destruct (QuotaProbe.tokens r) as [n|]; try reflexivity;
        destruct (n >? 0); reflexivity.
Qed.

(** C8 (as amended). The tokens that [record] adds to the totals,
    reports in [usage] and stores as the agent's last task are: the
    caller's explicit count whenever it is positive, in every mode;
    otherwise, in [output] mode, [ceil(len(output) / charsPerToken)]; in
    [duration] mode, [ceil((durationMs / 1000) * tokensPerSecond)] for a
    non-zero duration; and when the mode has no input (also [reported]
    mode without a positive count) the output estimate if the output is
    non-empty, else 0.  The quotient and the product are those of double
    arithmetic, rounded before the ceiling is taken.  The defaults are 4
    characters per token and 50 tokens per second. *)
Theorem record_tokens_explicit_first
    (q : QuotaProbe.t) (now : Z) (r : QuotaProbe.Result) :
  QuotaProbe.agentId r <> "" ->
  let n := TokenRule.tokensExplicitFirst q r in
  let q' := fst (QuotaProbe.record q now r) in
  QuotaProbe._totalTokens q' = QuotaProbe._totalTokens q + n
  /\ In (QuotaProbe.usage (QuotaProbe.agentId r) n
           (QuotaProbe._totalTokens q + n) (QuotaProbe.budget q))
        (snd (QuotaProbe.record q now r))
  /\ (exists u,
        JsMap.get (QuotaProbe.agentId r) (QuotaProbe._agents q') = Some u
        /\ QuotaProbe.usage_lastTask u
           = Some (QuotaProbe.mkLast n
                     (HealthMonitor.orZ (QuotaProbe.durationMs r) 0) now))
  /\ QuotaProbe.charsPerToken Scenario.defaultProbe = 4%Q
  /\ QuotaProbe.tokensPerSecond Scenario.defaultProbe = 50%Q
  /\ QuotaProbe.estimationMethod Scenario.defaultProbe = "output".
Proof.
  intros A n q'. subst n q'. rewrite <- tokensFor_rule.
  destruct (record_adds q now r A) as (H1 & H2 & H3).
  repeat match goal with |- _ /\ _ => split end; auto.
Qed.

(** C8, counterexample. In [output] mode a record that carries an
    explicit count of 100 next to the four characters of output is
    counted as 100 tokens, not as [ceil(4 / 4) = 1]. *)
Lemma explicit_count_overrides_output_mode :
  QuotaProbe.estimationMethod Scenario.defaultProbe = "output"
  /\ TokenRule.tokensByMode Scenario.defaultProbe Scenario.explicitRecord = 1
  /\ QuotaProbe._totalTokens
       (fst (QuotaProbe.record Scenario.defaultProbe 0 Scenario.explicitRecord))
     = 100.
Proof. repeat split. Qed.

(** In [duration] mode the quotient and the product are rounded as
    doubles before the ceiling is taken: 1100 ms at 50 tokens per second
    are recorded as 56 tokens, where the exact product is 55; with the
    default 4 characters per token the output estimate is the exact
    one. *)
Lemma duration_estimate_is_rounded :
  TokenRule.exactDurationEstimate Cases.durationProbe 1100 = 55
  /\ TokenRule.tokensByMode Cases.durationProbe Cases.timedRecord = 55
  /\ TokenRule.tokensExplicitFirst Cases.durationProbe Cases.timedRecord = 56
  /\ QuotaProbe._totalTokens
       (fst (QuotaProbe.record Cases.durationProbe 0 Cases.timedRecord))
     = 56
  /\ QuotaProbe.outputEstimate Scenario.defaultProbe "abcde"
     = TokenRule.exactOutputEstimate Scenario.defaultProbe "abcde".
Proof. repeat split. Qed.

(** ** The supervisor: crash recovery *)

(** C6. A crash of an entry that exists and has no restart pending:
    when more than 5 minutes have passed since [stableSince] the burst
    counters become [restartCount = 1] and [firstRestartAt = now]
    (otherwise [restartCount] is incremented and an unset
    [firstRestartAt] becomes [now]); then, if [restartCount > 5] and
    less than 30 minutes have passed since [firstRestartAt],
    [agent-degraded] is emitted, no timer is armed and
    [restartScheduled] stays unset; otherwise exactly one timer is armed,
    for [min(2^restartCount, 300)] seconds, and [restartScheduled] is
    set.  [stableSince] is a clock reading, hence not 0. *)
Theorem handleCrash_burst_and_backoff
    (env : Supervisor.Env) (s : Supervisor.t) (agentId error : string)
    (e : Supervisor.Entry) :
  JsMap.get agentId (Supervisor.processTable s) = Some e ->
  Supervisor.restartScheduled e = false ->
  Supervisor.stableSince e <> 0 ->
  let now := Supervisor.now env in
  let s' := Supervisor._handleCrash env agentId error s in
  exists e',
    JsMap.get agentId (Supervisor.processTable s') = Some e'
    /\ Supervisor.daemon e' = Supervisor.daemon e
    /\ Supervisor.stableSince e' = Supervisor.stableSince e
    /\ (5 * 60 * 1000 < now - Supervisor.stableSince e ->
        Supervisor.restartCount e' = 1
        /\ Supervisor.firstRestartAt e' = Some now)
    /\ (now - Supervisor.stableSince e <= 5 * 60 * 1000 ->
        Supervisor.restartCount e' = Supervisor.restartCount e + 1
        /\ Supervisor.firstRestartAt e'
           = if truthyOZ (Supervisor.firstRestartAt e)
             then Supervisor.firstRestartAt e else Some now)
    /\ (5 < Supervisor.restartCount e'
        /\ now - Supervisor.since (Supervisor.firstRestartAt e')
           < 30 * 60 * 1000 ->
        Supervisor.trace s'
        = Supervisor.trace s
          ++ [Supervisor.Log "agent_degraded"
                [("agentId", Supervisor.VStr agentId);
                 ("restartCount",
                  Supervisor.VNum (Supervisor.restartCount e'))];
              Supervisor.agent_degraded agentId (Supervisor.restartCount e')]
        /\ Supervisor.timers s' = Supervisor.timers s
        /\ Supervisor.restartScheduled e' = false)
    /\ (~ (5 < Supervisor.restartCount e'
           /\ now - Supervisor.since (Supervisor.firstRestartAt e')
              < 30 * 60 * 1000) ->
        Supervisor.timers s'
        = Supervisor.timers s
          ++ [Supervisor.mkTimer
                (Z.min (2 ^ Supervisor.restartCount e') 300 * 1000) agentId]
        /\ Supervisor.restartScheduled e' = true
        /\ Supervisor.trace s'
           = Supervisor.trace s
             ++ [Supervisor.Log "agent_restart_scheduled"
                   [("agentId", Supervisor.VStr agentId);
                    ("delay",
                     Supervisor.VNum
                       (Z.min (2 ^ Supervisor.restartCount e') 300));
                    ("restartCount",
                     Supervisor.VNum (Supervisor.restartCount e'))]]).
Proof.
  intros G R T now s'. subst s'. unfold Supervisor._handleCrash.
  rewrite G, R.
  assert (truthyZ (Supervisor.stableSince e) = true) as TS.
  { unfold truthyZ. apply negb_true_iff. now apply Z.eqb_neq. }
  unfold Supervisor.bumpRestart, Supervisor.isDegraded,
    Supervisor.backoffSeconds, Supervisor.FIVE_MINUTES,
    Supervisor.THIRTY_MINUTES.
  rewrite TS, andb_true_l. fold now.
  change (5 * 60 * 1000) with 300000.
  change (30 * 60 * 1000) with 1800000.
  destruct (Z.gtb_spec (now - Supervisor.stableSince e) 300000) as [F|F].
  - cbn. rewrite get_set_same. eexists. split; [reflexivity|]. cbn.
    repeat match goal with |- _ /\ _ => split end; auto; try lia.
  - set (rc := Supervisor.restartCount e + 1).
    set (fr := if truthyOZ (Supervisor.firstRestartAt e)
               then Supervisor.firstRestartAt e else Some now).
    cbv beta iota.
    destruct (Z.gtb_spec rc 5) as [C|C];
      [destruct (Z.ltb_spec (now - Supervisor.since fr) 1800000) as [D|D]|];
      cbn [andb]; cbv beta iota;
      unfold Supervisor.say, Supervisor._log, Supervisor.say; cbn [
        Supervisor.processTable Supervisor.with_trace Supervisor.with_timers
        Supervisor.with_processTable Supervisor.trace Supervisor.timers];
      rewrite get_set_same; eexists; (split; [reflexivity|]);
      cbn [Supervisor.daemon Supervisor.restartCount Supervisor.firstRestartAt
           Supervisor.stableSince Supervisor.restartScheduled];
      repeat match goal with |- _ /\ _ => split end; auto; try lia;
      try (intros _; rewrite <- app_assoc; repeat split);
      try (intros [X Y]; lia); try (intros X; exfalso; apply X; split; lia).
Qed.

(** ** The supervisor: promotion admission *)

Lemma state_eqb_eq (a b : Daemon.DaemonState) :
  Daemon.state_eqb a b = true <-> a = b.
Proof. destruct a, b; simpl; split; congruence. Qed.

(** Reduction of the record plumbing only: projections, setters and
    the listeners, leaving arithmetic, maps and lists folded. *)
Ltac sup_red :=
  cbv beta iota zeta delta
    [Supervisor.maxActive Supervisor.role Supervisor.channels
     Supervisor.tokenBudget Supervisor.tokensUsed
     Supervisor.heartbeatIntervalMs Supervisor.persist Supervisor.spawner
     Supervisor.healthMonitor Supervisor.busConnected Supervisor.processTable
     Supervisor.promotionQueue Supervisor.activeCount
     Supervisor.promotionsPaused Supervisor.running Supervisor.startedAt
     Supervisor.timers Supervisor.trace
     Supervisor.with_spawner Supervisor.with_healthMonitor
     Supervisor.with_busConnected Supervisor.with_processTable
     Supervisor.with_promotionQueue Supervisor.with_activeCount
     Supervisor.with_promotionsPaused Supervisor.with_running
     Supervisor.with_timers Supervisor.with_trace
     Supervisor.say Supervisor._log Supervisor._busSend
     Supervisor.noteActions Supervisor.putDaemon Supervisor.with_daemon
     Supervisor.daemon Supervisor.restartCount Supervisor.firstRestartAt
     Supervisor.stableSince Supervisor.restartScheduled
     Supervisor.perform Supervisor.onLifecycle Supervisor.deny
     Supervisor.req_agentId Supervisor.req_task
     bindO stateOf
     Daemon.agentId Daemon.name Daemon.workspace Daemon.role Daemon.channels
     Daemon.heartbeatIntervalMs Daemon.command Daemon.state
     Daemon.currentTask Daemon.claudeProcess Daemon._heartbeatTimer
     Daemon.with_state Daemon.with_currentTask Daemon.with_claudeProcess
     Daemon.with_heartbeatTimer Daemon._stopHeartbeat Daemon._startHeartbeat
     Daemon._spawnClaude Daemon._handleClaudeError Daemon.state_eqb
     Daemon.denyPromotion Daemon.stop Daemon.start
     negb fst snd List.map].

(** An approved promotion whose executor starts: the daemon becomes
    [active] with the task and the child attached, and the [promoted]
    listener counts it. *)
Lemma approve_spawned (env : Supervisor.Env) (s : Supervisor.t)
    (agentId : string) (e : Supervisor.Entry) (k : Daemon.Task)
    (child : Daemon.ChildProcess) :
  Daemon.state (Supervisor.daemon e) = Daemon.PROMOTING ->
  Supervisor.spawnProcess env (Daemon.agentId (Supervisor.daemon e))
  = Daemon.Spawned child ->
  exists s' e',
    Supervisor.approve env agentId e (Some k) s = Returned s'
    /\ JsMap.get agentId (Supervisor.processTable s') = Some e'
    /\ Daemon.state (Supervisor.daemon e') = Daemon.ACTIVE
    /\ Daemon.currentTask (Supervisor.daemon e') = Some k
    /\ Daemon.claudeProcess (Supervisor.daemon e') = Some child
    /\ Supervisor.activeCount s' = Supervisor.activeCount s + 1
    /\ Supervisor.promotionQueue s' = Supervisor.promotionQueue s
    /\ Supervisor.promotionsPaused s' = Supervisor.promotionsPaused s
    /\ In (Supervisor.ByDaemon agentId
             (Daemon.Emit
                (Daemon.promoted (Daemon.agentId (Supervisor.daemon e))
                                 (Daemon.pid child) (Some k))))
          (Supervisor.trace s').
Proof.
  intros P S. unfold Supervisor.approve, Daemon.approvePromotion.
  rewrite S, P. sup_red.
  destruct (truthyOZ (Daemon.pid child));
    do 2 eexists; (split; [reflexivity|]); sup_red; rewrite get_set_same;
    (split; [reflexivity|]); sup_red;
    repeat match goal with |- _ /\ _ => split end; try reflexivity;
    rewrite !in_app_iff; simpl; tauto.
Qed.

(** C2. A promotion request of a daemon that is in the process table
    and [promoting] is handled by the first rule that applies:
    (1) promotions paused: the daemon is denied with reason
        "promotions paused (budget/quota)" (back to [idle], task cleared,
        [unclaim] emitted);
    (2) else [activeCount >= maxActive]: the request is appended at the
        end of the queue and the process table, so the [promoting]
        daemon, is untouched;
    (3) else [tokenBudget > 0] and [tokensUsed >= tokenBudget]:
        [promotionsPaused] becomes true and the daemon is denied with
        reason "token budget exhausted";
    (4) otherwise [approvePromotion(req.task)] is called; when the
        request carries a task and the executor starts, the daemon is
        [active] and counted. *)
Theorem handlePromoteRequest_admission
    (env : Supervisor.Env) (s : Supervisor.t) (req : Supervisor.PromoteRequest)
    (e : Supervisor.Entry) :
  JsMap.get (Supervisor.req_agentId req) (Supervisor.processTable s) = Some e ->
  Daemon.state (Supervisor.daemon e) = Daemon.PROMOTING ->
  let id := Supervisor.req_agentId req in
  let out := Supervisor._handlePromoteRequest env req s in
  let idle :=
    Supervisor.with_daemon
      (Daemon.with_currentTask None
         (Daemon.with_state Daemon.IDLE (Supervisor.daemon e))) e in
  let unclaimed reason :=
    Supervisor.ByDaemon id
      (Daemon.Emit
         (Daemon.unclaim (Daemon.agentId (Supervisor.daemon e)) reason)) in
  (Supervisor.promotionsPaused s = true ->
   exists s', out = Returned s'
     /\ Supervisor.processTable s' = JsMap.set id idle (Supervisor.processTable s)
     /\ Supervisor.trace s'
        = Supervisor.trace s ++ [unclaimed "promotions paused (budget/quota)"]
     /\ Supervisor.promotionQueue s' = Supervisor.promotionQueue s
     /\ Supervisor.activeCount s' = Supervisor.activeCount s
     /\ Supervisor.promotionsPaused s' = true)
  /\ (Supervisor.promotionsPaused s = false ->
      Supervisor.maxActive s <= Supervisor.activeCount s ->
      exists s', out = Returned s'
        /\ Supervisor.promotionQueue s' = Supervisor.promotionQueue s ++ [req]
        /\ Supervisor.processTable s' = Supervisor.processTable s
        /\ Supervisor.activeCount s' = Supervisor.activeCount s
        /\ Supervisor.promotionsPaused s' = false
        /\ Supervisor.trace s'
           = Supervisor.trace s
             ++ [Supervisor.Log "promotion_queued"
                   [("agentId", Supervisor.VStr id);
                    ("queueLength",
                     Supervisor.VNum
                       (Z.of_nat
                          (List.length (Supervisor.promotionQueue s ++ [req]))))]])
  /\ (Supervisor.promotionsPaused s = false ->
      Supervisor.activeCount s < Supervisor.maxActive s ->
      0 < Supervisor.tokenBudget s ->
      Supervisor.tokenBudget s <= Supervisor.tokensUsed s ->
      exists s', out = Returned s'
        /\ Supervisor.promotionsPaused s' = true
        /\ Supervisor.processTable s'
           = JsMap.set id idle (Supervisor.processTable s)
        /\ Supervisor.trace s'
           = Supervisor.trace s
             ++ [unclaimed "token budget exhausted";
                 Supervisor.Log "promotions_paused"
                   [("reason", Supervisor.VStr "token_budget");
                    ("used", Supervisor.VNum (Supervisor.tokensUsed s));
                    ("budget", Supervisor.VNum (Supervisor.tokenBudget s))]]
        /\ Supervisor.promotionQueue s' = Supervisor.promotionQueue s
        /\ Supervisor.activeCount s' = Supervisor.activeCount s)
  /\ (Supervisor.promotionsPaused s = false ->
      Supervisor.activeCount s < Supervisor.maxActive s ->
      ~ (0 < Supervisor.tokenBudget s
         /\ Supervisor.tokenBudget s <= Supervisor.tokensUsed s) ->
      out = Supervisor.approve env id e (Supervisor.req_task req) s
      /\ forall k child,
          Supervisor.req_task req = Some k ->
          Supervisor.spawnProcess env (Daemon.agentId (Supervisor.daemon e))
          = Daemon.Spawned child ->
          exists s' e',
            out = Returned s'
            /\ JsMap.get id (Supervisor.processTable s') = Some e'
            /\ Daemon.state (Supervisor.daemon e') = Daemon.ACTIVE
            /\ Daemon.currentTask (Supervisor.daemon e') = Some k
            /\ Supervisor.activeCount s' = Supervisor.activeCount s + 1
            /\ Supervisor.promotionQueue s' = Supervisor.promotionQueue s
            /\ Supervisor.promotionsPaused s' = false).
Proof.
  intros G P id out idle unclaimed. subst out idle unclaimed id.
  unfold Supervisor._handlePromoteRequest.
  repeat match goal with |- _ /\ _ => split end.
  - intros Pa. rewrite Pa, G.
    unfold Supervisor.deny, Daemon.denyPromotion. rewrite P.
    eexists. split; [reflexivity|]. sup_red.
    repeat match goal with |- _ /\ _ => split end; try reflexivity.
    exact Pa.
  - intros Pa Cap. rewrite Pa.
    assert ((Supervisor.activeCount s >=? Supervisor.maxActive s) = true)
      as -> by (apply Z.geb_le; lia).
    eexists. split; [reflexivity|]. sup_red.
    repeat match goal with |- _ /\ _ => split end; try reflexivity.
    exact Pa.
  - intros Pa Cap B1 B2. rewrite Pa.
    assert ((Supervisor.activeCount s >=? Supervisor.maxActive s) = false)
      as -> by (rewrite Z.geb_leb; apply Z.leb_gt; lia).
    assert ((Supervisor.tokenBudget s >? 0) = true) as ->
      by (apply Z.gtb_lt; lia).
    assert ((Supervisor.tokensUsed s >=? Supervisor.tokenBudget s) = true)
      as -> by (apply Z.geb_le; lia).
    cbv beta iota zeta delta [andb].
    change (Supervisor.processTable (Supervisor.with_promotionsPaused true s))
      with (Supervisor.processTable s).
    rewrite G. unfold Supervisor.deny, Daemon.denyPromotion. rewrite P.
    eexists. split; [reflexivity|]. sup_red.
    repeat match goal with |- _ /\ _ => split end; try reflexivity.
    now rewrite <- app_assoc.
  - intros Pa Cap NB. rewrite Pa.
    assert ((Supervisor.activeCount s >=? Supervisor.maxActive s) = false)
      as -> by (rewrite Z.geb_leb; apply Z.leb_gt; lia).
    assert ((Supervisor.tokenBudget s >? 0)
            && (Supervisor.tokensUsed s >=? Supervisor.tokenBudget s) = false)
      as ->.
    { apply andb_false_iff.
      destruct (Z.gtb_spec (Supervisor.tokenBudget s) 0); [|now left].
      right. rewrite Z.geb_leb. apply Z.leb_gt. lia. }
    rewrite G. split; [reflexivity|].
    intros k child T Sp. rewrite T.
    destruct (approve_spawned env s (Supervisor.req_agentId req) e k child
                P Sp)
      as (s' & e' & A1 & A2 & A3 & A4 & A5 & A6 & A7 & A8 & A9).
    exists s', e'. rewrite A8.
    repeat match goal with |- _ /\ _ => split end; auto.
Qed.

(** ** The supervisor: the promotion queue *)

Ltac split_cases :=
  repeat match goal with
         | |- context [match ?x with _ => _ end] => destruct x
         end.

(** The listeners reached from [approvePromotion] leave the queue, the
    cap and the pause flag alone. *)
Lemma handleCrash_frame (env : Supervisor.Env) (a m : string) (s : Supervisor.t) :
  let s' := Supervisor._handleCrash env a m s in
  Supervisor.promotionQueue s' = Supervisor.promotionQueue s
  /\ Supervisor.promotionsPaused s' = Supervisor.promotionsPaused s
  /\ Supervisor.maxActive s' = Supervisor.maxActive s
  /\ Supervisor.activeCount s' = Supervisor.activeCount s.
Proof.
  unfold Supervisor._handleCrash. split_cases; repeat split.
Qed.

Lemma onLifecycle_frame (env : Supervisor.Env) (e : Daemon.Event)
    (s : Supervisor.t) :
  let s' := stateOf (Supervisor.onLifecycle env e s) in
  Supervisor.promotionQueue s' = Supervisor.promotionQueue s
  /\ Supervisor.promotionsPaused s' = Supervisor.promotionsPaused s
  /\ Supervisor.maxActive s' = Supervisor.maxActive s.
Proof.
  destruct e; simpl;
    try (unfold Supervisor._busSend; split_cases; repeat split; fail).
  pose proof (handleCrash_frame env agentId message s) as H. simpl in H. tauto.
Qed.

Lemma perform_frame (env : Supervisor.Env) (a : string)
    (acts : list Daemon.Action) (s : Supervisor.t) :
  let s' := stateOf (Supervisor.perform (Supervisor.onLifecycle env) a acts s) in
  Supervisor.promotionQueue s' = Supervisor.promotionQueue s
  /\ Supervisor.promotionsPaused s' = Supervisor.promotionsPaused s
  /\ Supervisor.maxActive s' = Supervisor.maxActive s.
Proof.
  revert s. induction acts as [|x acts IH]; intros s; simpl; [auto|].
  destruct x as [ev| | |]; try apply (IH (Supervisor.say _ s)).
  pose proof (onLifecycle_frame env ev
                (Supervisor.say (Supervisor.ByDaemon a (Daemon.Emit ev)) s)) as F.
  destruct (Supervisor.onLifecycle env ev _) as [s1|m s1]; simpl in *.
  - specialize (IH s1). simpl in IH. intuition congruence.
  - exact F.
Qed.

Lemma approve_frame (env : Supervisor.Env) (a : string) (e : Supervisor.Entry)
    (task : option Daemon.Task) (s : Supervisor.t) :
  let s' := stateOf (Supervisor.approve env a e task s) in
  Supervisor.promotionQueue s' = Supervisor.promotionQueue s
  /\ Supervisor.promotionsPaused s' = Supervisor.promotionsPaused s
  /\ Supervisor.maxActive s' = Supervisor.maxActive s.
Proof.
  unfold Supervisor.approve.
  destruct (Daemon.approvePromotion _ _ _) as [[d acts]|m [d acts]].
  - apply (perform_frame env a acts (Supervisor.putDaemon a e d s)).
  - simpl. auto.
Qed.

(** One turn takes exactly the head off the queue. *)
Lemma queueTurn_queue (env : Supervisor.Env) (s : Supervisor.t) :
  Supervisor.promotionQueue (stateOf (Supervisor.queueTurn env s))
  = tl (Supervisor.promotionQueue s).
Proof.
  unfold Supervisor.queueTurn.
  destruct (Supervisor.promotionQueue s) as [|req rest] eqn:Q; simpl.
  - exact Q.
  - destruct (JsMap.get _ _) as [entry|]; [|reflexivity].
    destruct (Daemon.state_eqb _ _); [|reflexivity].
    now destruct (approve_frame env (Supervisor.req_agentId req) entry
                    (Supervisor.req_task req)
                    (Supervisor.with_promotionQueue rest s)) as [-> _].
Qed.

Lemma queueOpen_nonempty (s : Supervisor.t) :
  Supervisor.queueOpen s = true -> Supervisor.promotionQueue s <> [].
Proof.
  unfold Supervisor.queueOpen. intros H E. rewrite E in H. discriminate.
Qed.

Lemma queueLoop_more_fuel (env : Supervisor.Env) (n : nat) :
  forall s,
    (List.length (Supervisor.promotionQueue s) <= n)%nat ->
    Supervisor.queueLoop env (S n) s = Supervisor.queueLoop env n s.
Proof.
  induction n as [|n IH]; intros s L.
  - simpl. destruct (Supervisor.queueOpen s) eqn:O; [|reflexivity].
    apply queueOpen_nonempty in O.
    destruct (Supervisor.promotionQueue s); simpl in L; [congruence|lia].
  - change (Supervisor.queueLoop env (S (S n)) s)
      with (if Supervisor.queueOpen s
            then bindO (Supervisor.queueTurn env s)
                       (Supervisor.queueLoop env (S n))
            else Returned s).
    change (Supervisor.queueLoop env (S n) s)
      with (if Supervisor.queueOpen s
            then bindO (Supervisor.queueTurn env s) (Supervisor.queueLoop env n)
            else Returned s).
    destruct (Supervisor.queueOpen s) eqn:O; [|reflexivity].
    pose proof (queueTurn_queue env s) as Q.
    destruct (Supervisor.queueTurn env s) as [s1|m s1]; [|reflexivity].
    simpl in *. apply IH. rewrite Q.
    destruct (Supervisor.promotionQueue s); simpl in *; lia.
Qed.

Lemma queueLoop_enough_fuel (env : Supervisor.Env) (n : nat) (s : Supervisor.t) :
  (List.length (Supervisor.promotionQueue s) <= n)%nat ->
  Supervisor.queueLoop env n s = Supervisor._processPromotionQueue env s.
Proof.
  unfold Supervisor._processPromotionQueue.
  induction n as [|n IH]; intros L.
  - assert (List.length (Supervisor.promotionQueue s) = 0%nat) as -> by lia.
    reflexivity.
  - destruct (Nat.eq_dec (List.length (Supervisor.promotionQueue s)) (S n))
      as [->|N]; [reflexivity|].
    rewrite queueLoop_more_fuel by lia. apply IH. lia.
Qed.

Lemma queueLoop_closed (env : Supervisor.Env) (n : nat) :
  forall s s',
    (List.length (Supervisor.promotionQueue s) <= n)%nat ->
    Supervisor.queueLoop env n s = Returned s' ->
    Supervisor.queueOpen s' = false.
Proof.
  induction n as [|n IH]; intros s s' L R.
  - simpl in R. injection R as <-.
    destruct (Supervisor.queueOpen s) eqn:O; [|reflexivity].
    apply queueOpen_nonempty in O.
    destruct (Supervisor.promotionQueue s); simpl in L; [congruence|lia].
  - simpl in R. destruct (Supervisor.queueOpen s) eqn:O.
    + pose proof (queueTurn_queue env s) as Q.
      destruct (Supervisor.queueTurn env s) as [s1|m s1]; [|discriminate].
      simpl in *. apply (IH s1 s'); [|exact R]. rewrite Q.
      destruct (Supervisor.promotionQueue s); simpl in *; lia.
    + injection R as <-. exact O.
Qed.

(** C5. [_processPromotionQueue] is the loop "while the queue is
    non-empty, [activeCount < maxActive] and promotions are not paused:
    take the head off the queue; if its daemon is still [promoting],
    approve the promotion, otherwise drop the request", run until the
    guard fails (or an approval throws): it satisfies the loop equation,
    each turn is as described, and when it returns the guard is false. *)
Theorem processPromotionQueue_loop (env : Supervisor.Env) (s : Supervisor.t) :
  (Supervisor.queueOpen s = true
   <-> Supervisor.promotionQueue s <> []
       /\ Supervisor.activeCount s < Supervisor.maxActive s
       /\ Supervisor.promotionsPaused s = false)
  /\ Supervisor._processPromotionQueue env s
     = (if Supervisor.queueOpen s
        then bindO (Supervisor.queueTurn env s)
                   (Supervisor._processPromotionQueue env)
        else Returned s)
  /\ (forall req rest,
        Supervisor.promotionQueue s = req :: rest ->
        let s1 := Supervisor.with_promotionQueue rest s in
        let found :=
          JsMap.get (Supervisor.req_agentId req) (Supervisor.processTable s) in
        (forall entry,
            found = Some entry ->
            Daemon.state (Supervisor.daemon entry) = Daemon.PROMOTING ->
            Supervisor.queueTurn env s
            = Supervisor.approve env (Supervisor.req_agentId req) entry
                                 (Supervisor.req_task req) s1)
        /\ (forall entry,
               found = Some entry ->
               Daemon.state (Supervisor.daemon entry) <> Daemon.PROMOTING ->
               Supervisor.queueTurn env s = Returned s1)
        /\ (found = None -> Supervisor.queueTurn env s = Returned s1))
  /\ (forall s',
        Supervisor._processPromotionQueue env s = Returned s' ->
        Supervisor.queueOpen s' = false).
Proof.
  repeat match goal with |- _ /\ _ => split end.
  - unfold Supervisor.queueOpen. split.
    + intros H.
      apply andb_true_iff in H as [H P]. apply andb_true_iff in H as [Q A].
      apply Z.ltb_lt in Q, A. apply negb_true_iff in P.
      repeat split; auto.
      intros E. rewrite E in Q. simpl in Q. lia.
    + intros (Q & A & P). rewrite P.
      apply Z.ltb_lt in A. rewrite A.
      destruct (Supervisor.promotionQueue s); [congruence|reflexivity].
  - destruct (Supervisor.queueOpen s) eqn:O.
    + unfold Supervisor._processPromotionQueue at 1.
      pose proof (queueOpen_nonempty s O) as NE.
      pose proof (queueTurn_queue env s) as Q.
      destruct (Supervisor.promotionQueue s) as [|req rest] eqn:E;
        [congruence|].
      simpl List.length.
      change (Supervisor.queueLoop env (S (List.length rest)) s)
        with (if Supervisor.queueOpen s
              then bindO (Supervisor.queueTurn env s)
                         (Supervisor.queueLoop env (List.length rest))
              else Returned s).
      rewrite O.
      destruct (Supervisor.queueTurn env s) as [s1|m s1]; [|reflexivity].
      simpl in *. apply queueLoop_enough_fuel. rewrite Q. lia.
    + unfold Supervisor._processPromotionQueue.
      destruct (List.length (Supervisor.promotionQueue s)); simpl;
        [|rewrite O]; reflexivity.
  - intros req rest E s1 found. subst s1 found.
    unfold Supervisor.queueTurn. rewrite E.
    change (Supervisor.processTable (Supervisor.with_promotionQueue rest s))
      with (Supervisor.processTable s).
    repeat split.
    + intros entry -> P. rewrite P. reflexivity.
    + intros entry -> P.
      destruct (Daemon.state_eqb _ _) eqn:X; [|reflexivity].
      apply state_eqb_eq in X. contradiction.
    + intros ->. reflexivity.
  - intros s'. apply queueLoop_closed. lia.
Qed.

(** ** The supervisor: scaling down *)

Lemma insertCandidate_perm x l :
  Permutation (Supervisor.insertCandidate x l) (x :: l).
Proof.
  induction l as [|y l IH]; simpl; [reflexivity|].
  destruct (_ <=? _); [reflexivity|].
  rewrite IH. apply perm_swap.
Qed.

Lemma sortCandidates_perm l : Permutation (Supervisor.sortCandidates l) l.
Proof.
  induction l as [|x l IH]; simpl; [constructor|].
  rewrite insertCandidate_perm. now constructor.
Qed.

Lemma insertCandidate_sorted x l :
  StronglySorted Supervisor.olderFirst l ->
  StronglySorted Supervisor.olderFirst (Supervisor.insertCandidate x l).
Proof.
  induction 1 as [|y l S IH F]; simpl.
  - repeat constructor.
  - destruct (Z.leb_spec (Supervisor.stableSince (snd x))
                         (Supervisor.stableSince (snd y))) as [L|L].
    + constructor; [now constructor|].
      constructor; [exact L|].
      eapply Forall_impl; [|exact F]. unfold Supervisor.olderFirst. intros; lia.
    + constructor; [exact IH|].
      eapply Permutation_Forall;
        [apply Permutation_sym, insertCandidate_perm|].
      constructor; [unfold Supervisor.olderFirst; lia|exact F].
Qed.

Lemma sortCandidates_sorted l :
  StronglySorted Supervisor.olderFirst (Supervisor.sortCandidates l).
Proof.
  induction l as [|x l IH]; simpl; [constructor|].
  now apply insertCandidate_sorted.
Qed.

Lemma notAmong_cons id ids kv :
  Supervisor.notAmong (id :: ids) kv = negb (String.eqb id (fst kv)) && Supervisor.notAmong ids kv.
Proof. unfold Supervisor.notAmong. simpl. apply negb_orb. Qed.

Lemma delete_all_filter (ids : list string) (m : JsMap.t Supervisor.Entry) :
  fold_left (fun t id => JsMap.delete id t) ids m = filter (Supervisor.notAmong ids) m.
Proof.
  revert m. induction ids as [|id ids IH]; intros m.
  - cbn [fold_left]. induction m as [|kv m IHm]; [reflexivity|].
    cbn [filter]. change (Supervisor.notAmong [] kv) with true. cbv iota.
    now rewrite <- IHm.
  - cbn [fold_left]. rewrite IH. unfold JsMap.delete.
    induction m as [|kv m IHm]; [reflexivity|].
    cbn [filter]. rewrite notAmong_cons.
    destruct (String.eqb id (fst kv)); cbn [negb andb]; [exact IHm|].
    cbn [filter]. destruct (Supervisor.notAmong ids kv); [f_equal|]; exact IHm.
Qed.

Lemma get_filter_keys (p : string -> bool) (k : string)
    (m : JsMap.t Supervisor.Entry) :
  JsMap.get k (filter (fun kv => p (fst kv)) m)
  = if p k then JsMap.get k m else None.
Proof.
  induction m as [|[k0 v0] m IH]; simpl.
  - now destruct (p k).
  - destruct (p k0) eqn:P0; simpl; destruct (String.eqb k k0) eqn:E; auto.
    + apply String.eqb_eq in E. subst. now rewrite P0.
    + apply String.eqb_eq in E. subst. now rewrite IH, P0.
Qed.

Lemma In_firstn_inv {A} (x : A) (n : nat) (l : list A) :
  In x (firstn n l) -> In x l.
Proof.
  revert l. induction n as [|n IH]; intros [|y l]; simpl; try tauto.
  intros [H|H]; auto.
Qed.

(** The removal loop takes the first [delta - removed] candidates. *)
Lemma removeIdle_spec (delta : Z) (cands : list (string * Supervisor.Entry)) :
  forall (r : Z) (s : Supervisor.t),
    let out := Supervisor.removeIdle delta cands r s in
    snd out = map fst (firstn (Z.to_nat (delta - r)) cands)
    /\ snd (fst out) = r + Z.of_nat (List.length (snd out))
    /\ Supervisor.processTable (fst (fst out))
       = fold_left (fun t id => JsMap.delete id t) (snd out)
                   (Supervisor.processTable s)
    /\ Supervisor.activeCount (fst (fst out)) = Supervisor.activeCount s
    /\ Supervisor.running (fst (fst out)) = Supervisor.running s.
Proof.
  induction cands as [|[id entry] cands IH]; intros r s; simpl.
  - rewrite firstn_nil. simpl. repeat split. lia.
  - destruct (Z.geb_spec r delta) as [G|G]; simpl.
    + replace (Z.to_nat (delta - r)) with 0%nat by lia. simpl.
      repeat split. lia.
    + replace (Z.to_nat (delta - r)) with (S (Z.to_nat (delta - (r + 1))))
        by lia.
      destruct (Daemon.stop (Supervisor.daemon entry)) as [d acts].
      destruct (Supervisor.persist s); cbn [negb];
        match goal with
        | |- context [Supervisor.removeIdle delta cands (r + 1) ?s1] =>
            specialize (IH (r + 1) s1);
            destruct (Supervisor.removeIdle delta cands (r + 1) s1)
              as [[s2 n] ids]
        end;
        cbn [fst snd] in *; destruct IH as (I1 & I2 & I3 & I4 & I5);
        rewrite I3, I4, I5; subst n ids;
        (split; [reflexivity|]); (split; [|repeat split]);
        cbn [List.length]; rewrite !length_map; lia.
Qed.

(** C9 (as amended). For [scale(T)] on a running supervisor with
    [T <> 0] and [T] below the fleet size: the candidates are exactly the
    entries whose daemon is [idle], in ascending order of [stableSince];
    the first [current - T] of them (all of them if there are fewer) are
    removed and nothing else is, so the number removed is
    [min(current - T, number of idle daemons)] and the entry of every
    daemon that is not [idle] is still in the table, unchanged. *)
Theorem scale_down_removes_only_idle
    (env : Supervisor.Env) (s : Supervisor.t) (target : Z) :
  Supervisor.running s = true ->
  target <> 0 ->
  target < JsMap.size (Supervisor.processTable s) ->
  JsMap.wf (Supervisor.processTable s) ->
  let current := JsMap.size (Supervisor.processTable s) in
  let idle := filter Supervisor.isIdle (Supervisor.processTable s) in
  let chosen := firstn (Z.to_nat (current - target)) (Supervisor.candidates s) in
  exists s' res,
    Supervisor.scale env target s = Returned (s', Some res)
    /\ Permutation (Supervisor.candidates s) idle
    /\ StronglySorted Supervisor.olderFirst (Supervisor.candidates s)
    /\ Supervisor.processTable s'
       = filter (Supervisor.notAmong (map fst chosen)) (Supervisor.processTable s)
    /\ Forall (fun kv =>
                 Daemon.state (Supervisor.daemon (snd kv)) = Daemon.IDLE
                 /\ In kv (Supervisor.processTable s)) chosen
    /\ Supervisor.removed res = Z.of_nat (List.length chosen)
    /\ Supervisor.removed res
       = Z.min (current - target) (Z.of_nat (List.length idle))
    /\ Supervisor.from res = current
    /\ Supervisor.to res = current - Supervisor.removed res
    /\ Supervisor.activeCount s' = Supervisor.activeCount s
    /\ (forall agentId e,
          JsMap.get agentId (Supervisor.processTable s) = Some e ->
          Daemon.state (Supervisor.daemon e) <> Daemon.IDLE ->
          JsMap.get agentId (Supervisor.processTable s') = Some e).
Proof.
  intros R T0 TL W current idle chosen.
  assert (Permutation (Supervisor.candidates s) idle) as PC
    by apply sortCandidates_perm.
  assert (forall kv, In kv chosen ->
            Daemon.state (Supervisor.daemon (snd kv)) = Daemon.IDLE
            /\ In kv (Supervisor.processTable s)) as CH.
  { intros kv H. apply In_firstn_inv in H.
    apply (Permutation_in _ PC) in H. apply filter_In in H as [H1 H2].
    split; [|exact H1]. now apply state_eqb_eq. }
  unfold Supervisor.scale. rewrite R. cbn [negb]. fold current.
  assert ((target =? 0) = false) as -> by now apply Z.eqb_neq.
  assert ((target >? current) = false) as ->
    by (rewrite Z.gtb_ltb; apply Z.ltb_ge; lia).
  assert ((target <? current) = true) as -> by (apply Z.ltb_lt; lia).
  pose proof (removeIdle_spec (current - target) (Supervisor.candidates s) 0 s)
    as SP.
  destruct (Supervisor.removeIdle (current - target) (Supervisor.candidates s)
                                  0 s) as [[s1 n] ids].
  cbn [fst snd] in SP. destruct SP as (S1 & S2 & S3 & S4 & S5).
  rewrite Z.sub_0_r in S1. fold chosen in S1.
  do 2 eexists. split; [reflexivity|].
  cbn [Supervisor.removed Supervisor.from Supervisor.to].
  change (Supervisor.processTable (Supervisor._log _ _ s1))
    with (Supervisor.processTable s1).
  change (Supervisor.activeCount (Supervisor._log _ _ s1))
    with (Supervisor.activeCount s1).
  assert (n = Z.of_nat (List.length chosen)) as N
    by (rewrite S2, S1, length_map; lia).
  rewrite S3, delete_all_filter, S1.
  repeat match goal with |- _ /\ _ => split end; auto.
  - apply sortCandidates_sorted.
  - now apply Forall_forall.
  - rewrite N. unfold chosen. rewrite length_firstn.
    rewrite (Permutation_length PC). lia.
  - intros agentId e G NI.
    change (Supervisor.notAmong (map fst chosen))
      with (fun kv : string * Supervisor.Entry =>
              (fun k => negb (existsb (fun id => String.eqb id k)
                                      (map fst chosen))) (fst kv)).
    rewrite get_filter_keys.
    destruct (existsb _ _) eqn:X; [|exact G].
    apply existsb_exists in X as (id & I & E).
    apply String.eqb_eq in E. subst id.
    apply in_map_iff in I as ([k e'] & K & I). simpl in K. subst k.
    destruct (CH _ I) as [C1 C2]. simpl in C1.
    rewrite (In_get _ _ _ W C2) in G. injection G as <-. contradiction.
Qed.

(** C9, counterexample. With three daemons, the first of them running a
    task, [scale(0)] has a target below the fleet size and removes every
    daemon, the active one included: it is [stop()]. *)
Lemma scale_to_zero_removes_active_daemon :
  Supervisor.running Scenario.working = true
  /\ 0 < JsMap.size (Supervisor.processTable Scenario.working)
  /\ option_map (fun e => Daemon.state (Supervisor.daemon e))
       (JsMap.get "id-swarm-builder-000"
                  (Supervisor.processTable Scenario.working))
     = Some Daemon.ACTIVE
  /\ Supervisor.processTable
       (fst (stateOf (Supervisor.scale (Scenario.world 3000) 0 Scenario.working)))
     = [].
Proof. vm_compute. repeat split. Qed.

(** ** The supervisor: the restart callback *)

Lemma stop_is_idle (d : Daemon.t) :
  Daemon.state (fst (Daemon.stop d)) = Daemon.IDLE
  /\ Daemon.name (fst (Daemon.stop d)) = Daemon.name d.
Proof.
  unfold Daemon.stop. destruct (Daemon.claudeProcess _); split; reflexivity.
Qed.

Lemma spawnDaemon_activeCount (env : Supervisor.Env) (name : string)
    (s : Supervisor.t) :
  Supervisor.activeCount (fst (stateOf (Supervisor._spawnDaemon env name s)))
  = Supervisor.activeCount s.
Proof.
  unfold Supervisor._spawnDaemon.
  destruct (Spawner.spawn _ _ _) as [sp r|m]; [|reflexivity].
  destruct (Daemon.constructor _) as [d|m d]; reflexivity.
Qed.

(** The decrement in the restart callback is never taken: [stop()] has
    already put the old daemon back to [idle] when its state is read. *)
Lemma restartCallback_keeps_activeCount (env : Supervisor.Env)
    (agentId : string) (entry : Supervisor.Entry) (s : Supervisor.t) :
  Supervisor.activeCount
    (stateOf (Supervisor.restartCallback env agentId entry s))
  = Supervisor.activeCount s.
Proof.
  unfold Supervisor.restartCallback.
  destruct (Supervisor.running s); [|reflexivity]. cbn [negb].
  pose proof (stop_is_idle (Supervisor.daemon entry)) as [I _].
  destruct (Daemon.stop (Supervisor.daemon entry)) as [d acts].
  cbn [fst] in I. rewrite I. cbn [Daemon.state_eqb].
  match goal with
  | |- context [Supervisor._spawnDaemon env ?n ?s1] =>
      pose proof (spawnDaemon_activeCount env n s1) as A;
      destruct (Supervisor._spawnDaemon env n s1) as [[s2 [nd|]]|m [s2 o]]
  end; cbn [stateOf fst] in *; try exact A.
  destruct (JsMap.get _ _); exact A.
Qed.

(** The respawn is refused whenever the workspace of the old daemon is
    still on disk, and nothing in the callback removes it. *)
Lemma restartCallback_refused (env : Supervisor.Env)
    (agentId : string) (entry : Supervisor.Entry) (s : Supervisor.t) :
  Supervisor.running s = true ->
  let name := Daemon.name (Supervisor.daemon entry) in
  name <> "" ->
  Spawner.existsSync (Supervisor.spawner s)
    (Spawner.join (Spawner.basePath (Supervisor.spawner s)) name) = true ->
  exists s',
    Supervisor.restartCallback env agentId entry s
    = Thrown ("Workspace already exists: "
              ++ Spawner.join (Spawner.basePath (Supervisor.spawner s)) name)%string
             s'
    /\ JsMap.get agentId (Supervisor.processTable s') = None.
Proof.
  intros R name N X. unfold Supervisor.restartCallback. rewrite R. cbn [negb].
  pose proof (stop_is_idle (Supervisor.daemon entry)) as [I M].
  destruct (Daemon.stop (Supervisor.daemon entry)) as [d acts].
  cbn [fst] in I, M. rewrite I, M. fold name. cbn [Daemon.state_eqb].
  unfold Supervisor._spawnDaemon, Spawner.spawn.
  assert (truthyS name = true) as ->
    by (unfold truthyS; apply negb_true_iff; now apply String.eqb_neq).
  cbn [negb].
  change (Supervisor.spawner (Supervisor.with_processTable ?t ?u))
    with (Supervisor.spawner s).
  rewrite X. eexists. split; [reflexivity|]. apply get_delete_same.
Qed.

(** C1, at the failing input.  Daemon 0 is [active] and counted
    ([activeCount = 1]) when the health monitor declares it dead; its
    restart timer fires at time 202000 with the supervisor running and
    the entry in the table.  The callback stops the daemon, unregisters
    it and removes the entry, but it leaves [activeCount] at 1 and the
    respawn under the same name throws, so no replacement entry exists. *)
Theorem restart_of_active_daemon :
  Supervisor.running Scenario.afterCrash = true
  /\ JsMap.get "id-swarm-builder-000" (Supervisor.processTable Scenario.afterCrash)
     = Some Scenario.crashedEntry
  /\ Daemon.state (Supervisor.daemon Scenario.crashedEntry) = Daemon.ACTIVE
  /\ Supervisor.restartScheduled Scenario.crashedEntry = true
  /\ Supervisor.activeCount Scenario.afterCrash = 1
  /\ exists s',
      Supervisor.restartCallback (Scenario.world 202000) "id-swarm-builder-000"
                                 Scenario.crashedEntry Scenario.afterCrash
      = Thrown "Workspace already exists: /ws/swarm-builder-000" s'
      /\ Supervisor.activeCount s' = 1
      /\ JsMap.keys (Supervisor.processTable s')
         = ["id-swarm-builder-001"; "id-swarm-builder-002"]
      /\ JsMap.get "id-swarm-builder-000"
           (HealthMonitor.agents (Supervisor.healthMonitor s')) = None.
Proof.
  do 5 (split; [vm_compute; reflexivity|]).
  eexists. split; [vm_compute; reflexivity|].
  repeat split; vm_compute; reflexivity.
Qed.

Lemma join_truthy (base name : string) : truthyS (Spawner.join base name) = true.
Proof. unfold Spawner.join. destruct base; reflexivity. Qed.

(** What the callback does when the respawn goes through (the old
    workspace is no longer on disk): the new entry, stored under the new
    agent id, carries the old counters and a fresh [stableSince]. *)
Lemma restartCallback_respawned (env : Supervisor.Env)
    (agentId : string) (entry : Supervisor.Entry) (s : Supervisor.t) :
  Supervisor.running s = true ->
  let name := Daemon.name (Supervisor.daemon entry) in
  let newId := Supervisor.generateIdentity env name in
  name <> "" ->
  newId <> "" ->
  Spawner.existsSync (Supervisor.spawner s)
    (Spawner.join (Spawner.basePath (Supervisor.spawner s)) name) = false ->
  exists s' e',
    Supervisor.restartCallback env agentId entry s = Returned s'
    /\ JsMap.get newId (Supervisor.processTable s') = Some e'
    /\ Daemon.name (Supervisor.daemon e') = name
    /\ Daemon.state (Supervisor.daemon e') = Daemon.IDLE
    /\ Supervisor.restartCount e' = Supervisor.restartCount entry
    /\ Supervisor.firstRestartAt e' = Supervisor.firstRestartAt entry
    /\ Supervisor.stableSince e' = Supervisor.now env
    /\ (newId <> agentId ->
        JsMap.get agentId (Supervisor.processTable s') = None
        /\ JsMap.get agentId
             (HealthMonitor.agents (Supervisor.healthMonitor s')) = None).
Proof.
  intros R name newId N NI X. unfold Supervisor.restartCallback.
  rewrite R. cbn [negb].
  pose proof (stop_is_idle (Supervisor.daemon entry)) as [I M].
  destruct (Daemon.stop (Supervisor.daemon entry)) as [d acts].
  cbn [fst] in I, M. rewrite I, M. fold name. cbn [Daemon.state_eqb].
  unfold Supervisor._spawnDaemon, Spawner.spawn.
  assert (forall x, x <> "" -> truthyS x = true) as TR
    by (intros x Hx; unfold truthyS; apply negb_true_iff;
        now apply String.eqb_neq).
  rewrite (TR name N). cbn [negb].
  change (Supervisor.spawner (Supervisor.with_processTable ?t ?u))
    with (Supervisor.spawner s).
  rewrite X. fold newId. unfold Daemon.constructor.
  cbn [Spawner.agentId Spawner.workspace Daemon.cfg_agentId Daemon.cfg_name
       Daemon.cfg_workspace].
  rewrite (TR newId NI), (TR name N), join_truthy. cbn [negb].
  unfold Daemon.start. sup_red. rewrite get_set_same.
  do 2 eexists. split; [reflexivity|]. sup_red.
  rewrite get_set_same. split; [reflexivity|]. sup_red.
  repeat match goal with |- _ /\ _ => split end; try reflexivity.
  intros D. split.
  - rewrite !get_set_other, get_delete_same by exact D. reflexivity.
  - unfold HealthMonitor.register, HealthMonitor.unregister.
    cbn [HealthMonitor.agents HealthMonitor.with_agents].
    rewrite get_set_other, get_delete_same by exact D. reflexivity.
Qed.

(** ** The properties on concrete runs *)

(** C3, counterexample. An [alive] record last seen at time 0 is checked
    at time 30000 with the default interval of 30000 ms and threshold 3:
    [missed = floor(30000 / 30000) = 1], which is at least 1 and below
    the threshold, yet the record stays [alive] with its miss count at 0. *)
Lemma check_after_exactly_one_interval :
  HealthMonitor.heartbeatIntervalMs Scenario.monitor = 30000
  /\ HealthMonitor.missThreshold Scenario.monitor = 3
  /\ JsMap.get "agent-001" (HealthMonitor.agents Scenario.monitor)
     = Some (HealthMonitor.mkHealth 0 HealthMonitor.alive 0 None None None 0 0)
  /\ (30000 - 0) / 30000 = 1
  /\ JsMap.get "agent-001"
       (HealthMonitor.agents
          (fst (HealthMonitor.check Scenario.monitor 30000 Scenario.noStats)))
     = Some (HealthMonitor.mkHealth 0 HealthMonitor.alive 0 None None None 30 0)
  /\ snd (HealthMonitor.check Scenario.monitor 30000 Scenario.noStats) = [].
Proof. vm_compute. repeat split. Qed.

(** A late denial reaches a daemon that is back to [idle]. *)
Lemma denyPromotion_idle_witness :
  Daemon.state Scenario.idleDaemon <> Daemon.PROMOTING
  /\ Daemon.denyPromotion Scenario.idleDaemon (Some "too late")
     = (Scenario.idleDaemon, []).
Proof.
  assert (Daemon.state Scenario.idleDaemon <> Daemon.PROMOTING) as N
    by discriminate.
  split; [exact N|].
  exact (denyPromotion_only_when_promoting Scenario.idleDaemon _ N).
Defined.

(** Scenario S4 with the default interval: last seen at 0, checked at
    95000, three intervals missed. *)
Lemma check_declares_dead_witness :
  JsMap.wf (HealthMonitor.agents Scenario.monitor)
  /\ exists r r',
      JsMap.get "agent-001" (HealthMonitor.agents Scenario.monitor) = Some r
      /\ JsMap.get "agent-001"
           (HealthMonitor.agents
              (fst (HealthMonitor.check Scenario.monitor 95000 Scenario.noStats)))
         = Some r'
      /\ HealthMonitor.status r' = HealthMonitor.dead
      /\ HealthMonitor.unresponsiveAlerts "agent-001"
           (snd (HealthMonitor.check Scenario.monitor 95000 Scenario.noStats))
         = [HealthMonitor.mkAlert "agent-001" HealthMonitor.reason_unresponsive
              (HealthMonitor.misses 3 3)].
Proof.
  assert (JsMap.wf (HealthMonitor.agents Scenario.monitor)) as W.
  { unfold JsMap.wf. simpl. constructor; [intros []|constructor]. }
  split; [exact W|].
  exists (HealthMonitor.mkHealth 0 HealthMonitor.alive 0 None None None 0 0).
  destruct (check_heartbeat_freshness Scenario.monitor 95000 Scenario.noStats
              "agent-001" _ W eq_refl) as (r' & G & F & _).
  exists r'. split; [reflexivity|]. split; [exact G|].
  destruct (F eq_refl) as (_ & D & _).
  apply D; [discriminate|discriminate].
Defined.


(** The record of the counterexample of C8 adds its explicit count. *)
Lemma explicit_count_witness :
  QuotaProbe.agentId Scenario.explicitRecord <> ""
  /\ QuotaProbe._totalTokens
       (fst (QuotaProbe.record Scenario.defaultProbe 7 Scenario.explicitRecord))
     = 100.
Proof.
  assert (QuotaProbe.agentId Scenario.explicitRecord <> "") as A by discriminate.
  split; [exact A|].
  exact (proj1 (record_tokens_explicit_first Scenario.defaultProbe 7
                  Scenario.explicitRecord A)).
Defined.

(** The first crash of daemon 0, four seconds after its start: the
    restart is scheduled 2 seconds later. *)
Lemma first_crash_witness :
  exists e,
    JsMap.get "id-swarm-builder-000" (Supervisor.processTable Scenario.working)
    = Some e
    /\ Supervisor.restartScheduled e = false
    /\ Supervisor.stableSince e <> 0
    /\ Supervisor.timers
         (Supervisor._handleCrash (Scenario.world 5000) "id-swarm-builder-000"
                                  "spawn ENOENT" Scenario.working)
       = [Supervisor.mkTimer 2000 "id-swarm-builder-000"].
Proof.
  eexists. split; [reflexivity|]. split; [reflexivity|].
  split; [discriminate|].
  destruct (handleCrash_burst_and_backoff (Scenario.world 5000)
              Scenario.working "id-swarm-builder-000" "spawn ENOENT" _
              eq_refl eq_refl ltac:(discriminate))
    as (e' & G & _ & _ & _ & Inc & _ & Sch).
  destruct (Inc ltac:(discriminate)) as [RC _].
  destruct Sch as (T & _).
  - rewrite RC. intros [H _]. discriminate H.
  - rewrite T, RC. reflexivity.
Defined.

(** Daemon 1 asks for promotion while one of three slots is in use and
    no budget is set: the request is approved. *)
Lemma admission_witness :
  exists e,
    JsMap.get (Supervisor.req_agentId Scenario.request1)
              (Supervisor.processTable Scenario.promoting1) = Some e
    /\ Daemon.state (Supervisor.daemon e) = Daemon.PROMOTING
    /\ exists s' e',
        Supervisor._handlePromoteRequest (Scenario.world 2100)
                                         Scenario.request1 Scenario.promoting1
        = Returned s'
        /\ JsMap.get "id-swarm-builder-001" (Supervisor.processTable s')
           = Some e'
        /\ Daemon.state (Supervisor.daemon e') = Daemon.ACTIVE
        /\ Supervisor.activeCount s' = 2.
Proof.
  eexists. split; [reflexivity|]. split; [reflexivity|].
  destruct (handlePromoteRequest_admission (Scenario.world 2100)
              Scenario.promoting1 Scenario.request1 _ eq_refl eq_refl)
    as (_ & _ & _ & Ap).
  destruct Ap as [_ Ap]; [reflexivity|reflexivity| |].
  - intros [H _]. discriminate H.
  - destruct (Ap Scenario.task (Daemon.mkChild (Some 4242)) eq_refl eq_refl)
      as (s' & e' & R & G & A & _ & C & _).
    exists s', e'. repeat split; assumption.
Defined.

(** Scenario S5: three daemons, daemon 0 active, [scale(1)]. *)
Lemma scale_down_witness :
  Supervisor.running Scenario.working = true
  /\ 1 <> 0
  /\ 1 < JsMap.size (Supervisor.processTable Scenario.working)
  /\ JsMap.wf (Supervisor.processTable Scenario.working)
  /\ exists s' res,
      Supervisor.scale (Scenario.world 3000) 1 Scenario.working
      = Returned (s', Some res)
      /\ Supervisor.removed res = 2
      /\ JsMap.keys (Supervisor.processTable s') = ["id-swarm-builder-000"].
Proof.
  assert (JsMap.wf (Supervisor.processTable Scenario.working)) as W.
  { unfold JsMap.wf. simpl.
    repeat (constructor; [simpl; intuition discriminate|]). constructor. }
  split; [reflexivity|]. split; [discriminate|]. split; [reflexivity|].
  split; [exact W|].
  destruct (scale_down_removes_only_idle (Scenario.world 3000) Scenario.working
              1 eq_refl ltac:(discriminate) eq_refl W)
    as (s' & res & R & _ & _ & T & _ & _ & M & _).
  exists s', res. split; [exact R|]. split; [exact M|].
  rewrite T. reflexivity.
Defined.

(** The queue of [Scenario.queued] is drained in two turns: the stale
    request of the idle daemon 2 is dropped, the request of daemon 1 is
    approved. *)
Lemma queue_drain_witness :
  Supervisor.queueOpen Scenario.queued = true
  /\ exists s',
      Supervisor._processPromotionQueue (Scenario.world 2200) Scenario.queued
      = Returned s'
      /\ Supervisor.queueOpen s' = false
      /\ Supervisor.promotionQueue s' = []
      /\ Supervisor.activeCount s' = 2
      /\ map (fun kv => Daemon.state (Supervisor.daemon (snd kv)))
             (Supervisor.processTable s')
         = [Daemon.ACTIVE; Daemon.ACTIVE; Daemon.IDLE].
Proof.
  split; [reflexivity|].
  destruct (processPromotionQueue_loop (Scenario.world 2200) Scenario.queued)
    as (_ & _ & _ & Closed).
  eexists. split; [vm_compute; reflexivity|].
  split; [apply Closed; vm_compute; reflexivity|].
  repeat split.
Defined.

(** A budget of zero or less never re-arms the warning latch. *)
Lemma setBudget_unlimited (q : QuotaProbe.t) (newBudget : Z) :
  newBudget <= 0 ->
  QuotaProbe._warningEmitted (QuotaProbe.setBudget q newBudget)
  = QuotaProbe._warningEmitted q.
Proof.
  intros N. unfold QuotaProbe.setBudget. simpl.
  assert ((newBudget >? 0) = false) as ->
    by (rewrite Z.gtb_ltb; apply Z.ltb_ge; lia).
  reflexivity.
Qed.

(** * Further properties of the code *)

(** ** The daemon state machine *)

(** X1. [handleMessage] changes the daemon in one case only: an [ASSIGN]
    addressed to it while it is [idle], which makes it [promoting] with
    the task attached and emits one [promote-request].  In every other
    case the daemon is returned as it was and the only thing it may emit
    is a [claim]. *)
Theorem handleMessage_only_assign_changes (d : Daemon.t) (msg : Daemon.Message) :
  let out := Daemon.handleMessage d msg in
  (forall task,
      Daemon.state d = Daemon.IDLE ->
      msg = Daemon.ASSIGN (Daemon.agentId d) task ->
      out = Returned
              (Daemon.with_currentTask task
                 (Daemon.with_state Daemon.PROMOTING d),
               [Daemon.Emit (Daemon.promote_request (Daemon.agentId d) task)]))
  /\ (Daemon.state d <> Daemon.IDLE
      \/ (forall task, msg <> Daemon.ASSIGN (Daemon.agentId d) task) ->
      fst (stateOf out) = d
      /\ forall a, In a (snd (stateOf out)) ->
           exists c, a = Daemon.Emit (Daemon.claim (Daemon.agentId d) c
                                                   (Daemon.role d))).
Proof.
  unfold Daemon.handleMessage. split.
  - intros task I ->. rewrite I, String.eqb_refl. reflexivity.
  - intros H. destruct (Daemon.state_eqb (Daemon.state d) Daemon.IDLE) eqn:S;
      [|simpl; split; [reflexivity|intros a []]].
    apply state_eqb_eq in S. destruct H as [H|H]; [contradiction|].
    cbn [negb]. destruct msg as [a task|task|ty].
    + destruct (String.eqb a (Daemon.agentId d)) eqn:E.
      * apply String.eqb_eq in E. subst a. now contradiction (H task).
      * simpl. split; [reflexivity|intros a0 []].
    + destruct (Daemon.matchesRole d task);
        [destruct task as [k|]|]; simpl;
        (split; [reflexivity|]); intros a Ha; simpl in Ha;
        try contradiction; destruct Ha as [<-|[]]; eauto.
    + simpl. split; [reflexivity|intros a []].
Qed.

(** X2. Role matching.  An idle daemon answers [TASK_AVAILABLE] with
    exactly one [claim] when its role is [general] or the task names its
    (non-empty) role, and with nothing otherwise; a task without a role is
    claimed by [general] daemons only. *)
Theorem claim_iff_role_matches (d : Daemon.t) (k : Daemon.Task) :
  Daemon.state d = Daemon.IDLE ->
  let acts :=
    snd (stateOf (Daemon.handleMessage d (Daemon.TASK_AVAILABLE (Some k)))) in
  let matches :=
    Daemon.role d = "general"
    \/ (Daemon.task_role k = Some (Daemon.role d) /\ Daemon.role d <> "") in
  (matches ->
   acts = [Daemon.Emit (Daemon.claim (Daemon.agentId d) (Daemon.task_component k)
                                     (Daemon.role d))])
  /\ (~ matches -> acts = []).
Proof.
  intros I acts matches. subst acts matches.
  unfold Daemon.handleMessage, Daemon.matchesRole. rewrite I. cbn [negb Daemon.state_eqb].
  destruct (String.eqb (Daemon.role d) "general") eqn:G.
  - apply String.eqb_eq in G. split; [|intros N; contradiction N; now left].
    intros _. destruct (Daemon.task_role k) as [r|]; [destruct (truthyS r)|];
      rewrite ?orb_true_r; reflexivity.
  - apply String.eqb_neq in G.
    destruct (Daemon.task_role k) as [r|] eqn:R.
    + unfold truthyS. destruct (String.eqb r "") eqn:E; cbn [negb].
      * apply String.eqb_eq in E. subst r.
        split; [intros [X|[[= X] Y]]; congruence|reflexivity].
      * apply String.eqb_neq in E. rewrite orb_false_r.
        destruct (String.eqb r (Daemon.role d)) eqn:M.
        { apply String.eqb_eq in M. subst r.
          split; [reflexivity|].
          intros N. exfalso. apply N. right. now split. }
        apply String.eqb_neq in M.
        split; [intros [X|[[= X] Y]]; congruence|reflexivity].
    + split; [intros [X|[X Y]]; congruence|reflexivity].
Qed.

(** X3. One task, start to finish.  An idle daemon (heartbeat armed, no
    task, no child) that is assigned a task, approved with an executor
    that starts, and whose executor then exits, is the daemon it was
    before; on the way it emits [promote-request], [promoted], then [done]
    for exit code 0 and [fail] otherwise, then [demoted]. *)
Theorem task_round_trip
    (d : Daemon.t) (k : Daemon.Task) (child : Daemon.ChildProcess)
    (code : option Z) (signal : option string) (stdout : string) :
  Daemon.state d = Daemon.IDLE ->
  Daemon.currentTask d = None ->
  Daemon.claudeProcess d = None ->
  Daemon._heartbeatTimer d = true ->
  exists d1 a1 d2 a2 r,
    Daemon.handleMessage d (Daemon.ASSIGN (Daemon.agentId d) (Some k))
    = Returned (d1, a1)
    /\ Daemon.approvePromotion d1 (Some k) (Daemon.Spawned child)
       = Returned (d2, a2)
    /\ Daemon.state d1 = Daemon.PROMOTING
    /\ Daemon.state d2 = Daemon.ACTIVE
    /\ fst (Daemon.onChildExit d2 code signal stdout) = d
    /\ Daemon.events (a1 ++ a2 ++ snd (Daemon.onChildExit d2 code signal stdout))
       = [Daemon.promote_request (Daemon.agentId d) (Some k);
          Daemon.promoted (Daemon.agentId d) (Daemon.pid child) (Some k);
          (if match code with Some 0 => true | _ => false end
           then Daemon.done r else Daemon.fail r);
          Daemon.demoted (Daemon.agentId d)]
    /\ Daemon.res_task r = Some k
    /\ Daemon.res_exitCode r = code.
Proof.
  destruct d as [a n w ro ch hb cmd st task proc timer]. simpl.
  intros -> -> -> ->.
  unfold Daemon.handleMessage. simpl. rewrite String.eqb_refl.
  do 5 eexists. split; [reflexivity|]. split; [reflexivity|].
  simpl. repeat split.
Qed.

(** X4. No executor without approval.  Of all the operations of a
    daemon, only [approvePromotion] ever starts a process, and only when
    the daemon is [promoting]. *)
Theorem executor_needs_approval (d : Daemon.t) (p : string) :
  ~ In (Daemon.SpawnProcess p) (snd (Daemon.start d))
  /\ ~ In (Daemon.SpawnProcess p) (snd (Daemon.stop d))
  /\ (forall msg,
        ~ In (Daemon.SpawnProcess p) (snd (stateOf (Daemon.handleMessage d msg))))
  /\ (forall reason,
        ~ In (Daemon.SpawnProcess p) (snd (Daemon.denyPromotion d reason)))
  /\ (forall code signal stdout,
        ~ In (Daemon.SpawnProcess p)
             (snd (Daemon.onChildExit d code signal stdout)))
  /\ (forall m, ~ In (Daemon.SpawnProcess p) (snd (Daemon.onChildError d m)))
  /\ ~ In (Daemon.SpawnProcess p) (Daemon.heartbeatTick d)
  /\ (forall task o,
        In (Daemon.SpawnProcess p)
           (snd (stateOf (Daemon.approvePromotion d task o))) ->
        Daemon.state d = Daemon.PROMOTING).
Proof.
  repeat match goal with |- _ /\ _ => split end.
  - simpl. intuition discriminate.
  - unfold Daemon.stop. destruct (Daemon.claudeProcess _); simpl;
      intuition discriminate.
  - intros msg. unfold Daemon.handleMessage.
    destruct (negb _); [simpl; tauto|].
    destruct msg as [a task|task|ty]; simpl; try tauto.
    + destruct (String.eqb _ _); simpl; intuition discriminate.
    + destruct (Daemon.matchesRole d task); [destruct task|]; simpl;
        intuition discriminate.
  - intros reason. unfold Daemon.denyPromotion.
    destruct (negb _); simpl; intuition discriminate.
  - intros code signal stdout. simpl.
    destruct (match code with Some 0 => true | _ => false end);
      intuition discriminate.
  - intros m. simpl. intuition discriminate.
  - unfold Daemon.heartbeatTick. destruct (Daemon._heartbeatTimer d); simpl;
      intuition discriminate.
  - intros task o. unfold Daemon.approvePromotion.
    destruct (Daemon.state_eqb (Daemon.state d) Daemon.PROMOTING) eqn:S.
    + intros _. now apply state_eqb_eq.
    + simpl. intuition discriminate.
Qed.

(** X5. What an approval does to a [promoting] daemon.  With a task at
    hand (the one given, else the one stored) the heartbeat is stopped
    and either the executor starts (the daemon is [active], owns the
    child and emits [promoted] only) or the spawn throws (the daemon is
    [crashed], owns no new child and emits [fail] then [crashed]).  With
    no task at all the call throws before anything happens. *)
Theorem approvePromotion_outcomes
    (d : Daemon.t) (task : option Daemon.Task) (o : Daemon.SpawnOutcome) :
  Daemon.state d = Daemon.PROMOTING ->
  match (match task with Some k => Some k | None => Daemon.currentTask d end) with
  | None =>
      exists m d',
        Daemon.approvePromotion d task o = Thrown m (d', [])
        /\ Daemon.state d' = Daemon.PROMOTING
        /\ Daemon.claudeProcess d' = Daemon.claudeProcess d
  | Some k =>
      exists d' acts,
        Daemon.approvePromotion d task o = Returned (d', acts)
        /\ Daemon.currentTask d' = Some k
        /\ Daemon._heartbeatTimer d' = false
        /\ match o with
           | Daemon.Spawned child =>
               Daemon.state d' = Daemon.ACTIVE
               /\ Daemon.claudeProcess d' = Some child
               /\ Daemon.events acts
                  = [Daemon.promoted (Daemon.agentId d) (Daemon.pid child)
                                     (Some k)]
           | Daemon.SpawnThrows m =>
               Daemon.state d' = Daemon.CRASHED
               /\ Daemon.claudeProcess d' = Daemon.claudeProcess d
               /\ Daemon.events acts
                  = [Daemon.fail
                       (Daemon.mkResult (Daemon.agentId d) (Some k) None None
                                        false None (Some m));
                     Daemon.crashed (Daemon.agentId d) m]
           end
  end.
Proof.
  intros P. unfold Daemon.approvePromotion. rewrite P. cbn [negb Daemon.state_eqb].
  set (given := match task with Some k => Some k | None => Daemon.currentTask d end).
  change (Daemon.currentTask (Daemon.with_currentTask given d)) with given.
  destruct given as [k|].
  - destruct o as [child|m]; simpl; do 2 eexists; repeat split.
  - do 2 eexists. repeat split. exact P.
Qed.

(** X6. [stop] always leaves the daemon [idle] without task, child or
    heartbeat timer; it sends the terminate signal exactly when there was
    a child, and stopping a stopped daemon only repeats the [stopped]
    event. *)
Theorem stop_settles (d : Daemon.t) :
  let d' := fst (Daemon.stop d) in
  Daemon.state d' = Daemon.IDLE
  /\ Daemon.currentTask d' = None
  /\ Daemon.claudeProcess d' = None
  /\ Daemon._heartbeatTimer d' = false
  /\ Daemon.agentId d' = Daemon.agentId d
  /\ Daemon.name d' = Daemon.name d
  /\ Daemon.workspace d' = Daemon.workspace d
  /\ snd (Daemon.stop d)
     = match Daemon.claudeProcess d with
       | Some p => [Daemon.Kill p; Daemon.Emit (Daemon.stopped (Daemon.agentId d))]
       | None => [Daemon.Emit (Daemon.stopped (Daemon.agentId d))]
       end
  /\ Daemon.stop d' = (d', [Daemon.Emit (Daemon.stopped (Daemon.agentId d))]).
Proof.
  destruct d as [a n w ro ch hb cmd st task [proc|] timer];
    cbv; repeat split.
Qed.

(** [s.slice(-n)] is the last [min(n, length)] characters of [s]. *)
Lemma substring_all (s : string) (n : nat) :
  (String.length s <= n)%nat -> String.substring 0 n s = s.
Proof.
  revert n. induction s as [|c s IH]; intros [|n] L; simpl in *;
    try reflexivity; try lia.
  f_equal. apply IH. lia.
Qed.

Lemma substring_split (s : string) (k : nat) :
  (k <= String.length s)%nat ->
  (String.substring 0 k s ++ String.substring k (String.length s - k) s)%string
  = s.
Proof.
  revert k. induction s as [|c s IH]; intros [|k] L; simpl in *;
    try reflexivity; try lia.
  - f_equal. apply substring_all. lia.
  - f_equal. apply IH. lia.
Qed.

Lemma length_substring (s : string) (k m : nat) :
  (k + m <= String.length s)%nat -> String.length (String.substring k m s) = m.
Proof.
  revert k m. induction s as [|c s IH]; intros [|k] [|m] L; simpl in *;
    try reflexivity; try lia.
  - f_equal. apply (IH 0%nat). lia.
  - apply IH. lia.
  - apply IH. lia.
Qed.

Lemma sliceLast_tail (n : nat) (s : string) :
  String.length (sliceLast n s) = Nat.min n (String.length s)
  /\ exists prefix, s = (prefix ++ sliceLast n s)%string.
Proof.
  unfold sliceLast.
  destruct (le_lt_dec n (String.length s)) as [L|L].
  - split.
    + rewrite length_substring by lia. lia.
    + exists (String.substring 0 (String.length s - n) s).
      pose proof (substring_split s (String.length s - n)) as H.
      replace (String.length s - (String.length s - n))%nat with n in H by lia.
      symmetry. apply H. lia.
  - replace (String.length s - n)%nat with 0%nat by lia.
    rewrite substring_all by lia. split; [lia|]. now exists "".
Qed.

(** X7. When the executor exits the daemon always ends up [idle] with
    no task and no child and its heartbeat armed again; it reports [done]
    exactly for exit code 0 and [fail] for any other code or a signal,
    then [demoted]; the report carries the task, the exit code and only
    the last [min(2000, length)] characters of the output. *)
Theorem child_exit_report
    (d : Daemon.t) (code : option Z) (signal : option string) (stdout : string) :
  let out := Daemon.onChildExit d code signal stdout in
  let d' := fst out in
  Daemon.state d' = Daemon.IDLE
  /\ Daemon.currentTask d' = None
  /\ Daemon.claudeProcess d' = None
  /\ Daemon._heartbeatTimer d' = true
  /\ exists r tail prefix,
      Daemon.events (snd out)
      = [(if match code with Some 0 => true | _ => false end
          then Daemon.done r else Daemon.fail r);
         Daemon.demoted (Daemon.agentId d)]
      /\ Daemon.res_success r = match code with Some 0 => true | _ => false end
      /\ Daemon.res_exitCode r = code
      /\ Daemon.res_signal r = signal
      /\ Daemon.res_task r = Daemon.currentTask d
      /\ Daemon.res_output r = Some tail
      /\ stdout = (prefix ++ tail)%string
      /\ String.length tail = Nat.min 2000 (String.length stdout).
Proof.
  destruct (sliceLast_tail 2000 stdout) as [L [prefix E]].
  simpl. repeat split.
  exists (Daemon.mkResult (Daemon.agentId d) (Daemon.currentTask d) code signal
            match code with Some 0 => true | _ => false end
            (Some (sliceLast 2000 stdout)) None),
         (sliceLast 2000 stdout), prefix.
  repeat split; auto.
Qed.

(** A builder daemon claims a builder task. *)
Lemma claim_builder_witness :
  Daemon.state Scenario.idleDaemon = Daemon.IDLE
  /\ snd (stateOf (Daemon.handleMessage Scenario.idleDaemon
                     (Daemon.TASK_AVAILABLE (Some Scenario.task))))
     = [Daemon.Emit (Daemon.claim "a1b2c3d4" (Some "parser") "builder")].
Proof.
  split; [reflexivity|].
  refine (proj1 (claim_iff_role_matches Scenario.idleDaemon Scenario.task
                   eq_refl) _).
  right. split; [reflexivity|discriminate].
Defined.

(** The idle daemon runs a task that exits with code 1 and is itself
    again. *)
Lemma task_round_trip_witness :
  Daemon.state Scenario.idleDaemon = Daemon.IDLE
  /\ Daemon.currentTask Scenario.idleDaemon = None
  /\ Daemon.claudeProcess Scenario.idleDaemon = None
  /\ Daemon._heartbeatTimer Scenario.idleDaemon = true
  /\ exists d2,
      Daemon.state d2 = Daemon.ACTIVE
      /\ fst (Daemon.onChildExit d2 (Some 1) None "out") = Scenario.idleDaemon.
Proof.
  do 4 (split; [reflexivity|]).
  destruct (task_round_trip Scenario.idleDaemon Scenario.task Cases.child
              (Some 1) None "out" eq_refl eq_refl eq_refl eq_refl)
    as (d1 & a1 & d2 & a2 & r & _ & _ & _ & A & B & _).
  exists d2. split; [exact A|exact B].
Defined.

(** Approval of the promoting daemon with an executor that starts. *)
Lemma approve_promoting_witness :
  Daemon.state Cases.promotingDaemon = Daemon.PROMOTING
  /\ exists d' acts,
      Daemon.approvePromotion Cases.promotingDaemon None
                              (Daemon.Spawned Cases.child)
      = Returned (d', acts)
      /\ Daemon.currentTask d' = Some Scenario.task.
Proof.
  split; [reflexivity|].
  destruct (approvePromotion_outcomes Cases.promotingDaemon None
              (Daemon.Spawned Cases.child) eq_refl)
    as (d' & acts & A & B & _).
  exists d', acts. split; [exact A|exact B].
Defined.

(** ** The health monitor: registration and sampling *)

Lemma delete_set_fresh {V} (k : string) (v : V) (m : JsMap.t V) :
  JsMap.get k m = None -> JsMap.delete k (JsMap.set k v m) = m.
Proof.
  unfold JsMap.delete.
  induction m as [|[k0 v0] m IH]; simpl.
  - now rewrite String.eqb_refl.
  - destruct (String.eqb k k0) eqn:E; [discriminate|]. intros G.
    simpl. rewrite E. simpl. now rewrite IH.
Qed.

Lemma keys_set_present {V} (k : string) (v v0 : V) (m : JsMap.t V) :
  JsMap.get k m = Some v0 -> JsMap.keys (JsMap.set k v m) = JsMap.keys m.
Proof.
  unfold JsMap.keys.
  induction m as [|[k1 v1] m IH]; simpl; [discriminate|].
  destruct (String.eqb k k1) eqn:E; simpl.
  - apply String.eqb_eq in E. now subst.
  - intros G. now rewrite IH.
Qed.

(** X8. Registration round trip.  [register] stores a fresh [alive]
    record under the agent id, replacing any record it had, and
    [unregister] removes that agent; neither touches the record of any
    other agent; and on a monitor that does not know the agent,
    [register] followed by [unregister] gives the monitor back. *)
Theorem register_unregister_round_trip
    (h : HealthMonitor.t) (now : Z) (agentId : string) (pid : option Z) :
  JsMap.get agentId (HealthMonitor.agents (HealthMonitor.register h now agentId pid))
  = Some (HealthMonitor.mkHealth now HealthMonitor.alive 0 pid None None 0 now)
  /\ JsMap.get agentId
       (HealthMonitor.agents (HealthMonitor.unregister h agentId)) = None
  /\ (forall other,
        other <> agentId ->
        JsMap.get other
          (HealthMonitor.agents (HealthMonitor.register h now agentId pid))
        = JsMap.get other (HealthMonitor.agents h)
        /\ JsMap.get other
             (HealthMonitor.agents (HealthMonitor.unregister h agentId))
           = JsMap.get other (HealthMonitor.agents h))
  /\ (JsMap.get agentId (HealthMonitor.agents h) = None ->
      HealthMonitor.unregister (HealthMonitor.register h now agentId pid) agentId
      = h).
Proof.
  repeat match goal with |- _ /\ _ => split end.
  - apply get_set_same.
  - apply get_delete_same.
  - intros other N. split.
    + apply get_set_other. congruence.
    + apply get_delete_other. congruence.
  - intros G. destruct h as [hb mt ci ml cl ag tm].
    unfold HealthMonitor.unregister, HealthMonitor.register. simpl in *.
    unfold HealthMonitor.with_agents. simpl. f_equal.
    now apply delete_set_fresh.
Qed.

Lemma checkAll_owned (h : HealthMonitor.t) (now : Z)
    (stats : Z -> option (Q * Q)) (agentId : string)
    (a : HealthMonitor.AgentHealth) (m : JsMap.t HealthMonitor.AgentHealth) :
  JsMap.wf m ->
  JsMap.get agentId m = Some a ->
  filter (fun x => String.eqb (HealthMonitor.alert_agentId x) agentId)
         (snd (HealthMonitor.checkAll h now stats m))
  = snd (HealthMonitor.checkAgent h now stats agentId a).
Proof.
  assert (forall k l,
             Forall (fun x => HealthMonitor.alert_agentId x = k) l ->
             filter (fun x => String.eqb (HealthMonitor.alert_agentId x) agentId) l
             = if String.eqb k agentId then l else []) as F.
  { intros k l. induction 1 as [|x l Hx _ IH]; simpl.
    - now destruct (String.eqb k agentId).
    - rewrite Hx, IH. now destruct (String.eqb k agentId). }
  unfold JsMap.wf, JsMap.keys.
  induction m as [|[k v] m IH]; simpl; [discriminate|].
  intros W G. inversion W as [|? ? Hn Hd]; subst.
  pose proof (checkAgent_owner h now stats k v) as O.
  destruct (HealthMonitor.checkAgent h now stats k v) as [v' al] eqn:E.
  destruct (HealthMonitor.checkAll h now stats m) as [m' al'] eqn:E'.
  simpl in *. rewrite filter_app, (F k al O).
  destruct (String.eqb agentId k) eqn:K.
  - apply String.eqb_eq in K. subst k. injection G as <-.
    rewrite String.eqb_refl, E. simpl.
    assert (filter (fun x => String.eqb (HealthMonitor.alert_agentId x) agentId) al'
            = []) as ->; [|apply app_nil_r].
    clear -Hn E' F. revert m' al' E'.
    induction m as [|[k v] m IH]; simpl; intros m' al' E'.
    + now injection E' as <- <-.
    + pose proof (checkAgent_owner h now stats k v) as O.
      destruct (HealthMonitor.checkAgent h now stats k v) as [v' al].
      destruct (HealthMonitor.checkAll h now stats m) as [m0 al0].
      injection E' as <- <-. simpl in O.
      rewrite filter_app, (F k al O), (IH (fun H => Hn (or_intror H)) m0 al0 eq_refl).
      assert (String.eqb k agentId = false) as ->; [|reflexivity].
      apply String.eqb_neq. intros ->. apply Hn. now left.
  - rewrite String.eqb_sym in K. rewrite K. simpl. now apply IH.
Qed.

Lemma alertsFor_owned (reason : HealthMonitor.Reason) (agentId : string)
    (l : list HealthMonitor.Alert) :
  HealthReport.alertsFor reason agentId l
  = filter (fun x => HealthMonitor.reason_eqb (HealthMonitor.alert_reason x) reason)
      (filter (fun x => String.eqb (HealthMonitor.alert_agentId x) agentId) l).
Proof.
  unfold HealthReport.alertsFor.
  induction l as [|x l IH]; simpl; [reflexivity|].
  destruct (String.eqb _ _); simpl; [destruct (HealthMonitor.reason_eqb _ _)|];
    now rewrite IH.
Qed.

Lemma checkAgent_static (h : HealthMonitor.t) (now : Z)
    (stats : Z -> option (Q * Q)) (agentId : string)
    (r : HealthMonitor.AgentHealth) :
  let r' := fst (HealthMonitor.checkAgent h now stats agentId r) in
  HealthMonitor.lastSeen r' = HealthMonitor.lastSeen r
  /\ HealthMonitor.pid r' = HealthMonitor.pid r
  /\ HealthMonitor.registeredAt r' = HealthMonitor.registeredAt r
  /\ HealthMonitor.uptimeSeconds r'
     = (now - HealthMonitor.registeredAt r) / 1000.
Proof.
  unfold HealthMonitor.checkAgent.
  set (r0 := HealthMonitor.mkHealth _ _ _ _ _ _ _ _).
  assert (HealthMonitor.lastSeen (fst (HealthMonitor.checkHeartbeat h now agentId r0))
          = HealthMonitor.lastSeen r0
          /\ HealthMonitor.pid (fst (HealthMonitor.checkHeartbeat h now agentId r0))
             = HealthMonitor.pid r0
          /\ HealthMonitor.registeredAt
               (fst (HealthMonitor.checkHeartbeat h now agentId r0))
             = HealthMonitor.registeredAt r0
          /\ HealthMonitor.uptimeSeconds
               (fst (HealthMonitor.checkHeartbeat h now agentId r0))
             = HealthMonitor.uptimeSeconds r0) as A.
  { unfold HealthMonitor.checkHeartbeat.
    repeat match goal with
           | |- context [if ?c then _ else _] => destruct c
           end; simpl; repeat split. }
  destruct (HealthMonitor.checkHeartbeat h now agentId r0) as [r1 l1].
  assert (HealthMonitor.lastSeen (fst (HealthMonitor.checkResources h stats agentId r1))
          = HealthMonitor.lastSeen r1
          /\ HealthMonitor.pid (fst (HealthMonitor.checkResources h stats agentId r1))
             = HealthMonitor.pid r1
          /\ HealthMonitor.registeredAt
               (fst (HealthMonitor.checkResources h stats agentId r1))
             = HealthMonitor.registeredAt r1
          /\ HealthMonitor.uptimeSeconds
               (fst (HealthMonitor.checkResources h stats agentId r1))
             = HealthMonitor.uptimeSeconds r1) as B.
  { unfold HealthMonitor.checkResources.
    destruct (HealthMonitor.pid r1) as [p|] eqn:P;
      [destruct (truthyZ p); [destruct (stats p) as [[mb cpu]|]|]|];
      simpl; repeat split; congruence. }
  destruct (HealthMonitor.checkResources h stats agentId r1) as [r2 l2].
  simpl in *. destruct A as (A1 & A2 & A3 & A4), B as (B1 & B2 & B3 & B4).
  repeat split; congruence.
Qed.

Lemma status_after_check
    (h : HealthMonitor.t) (now : Z) (stats : Z -> option (Q * Q))
    (agentId : string) (r : HealthMonitor.AgentHealth) :
  HealthMonitor.status_eqb
    (HealthMonitor.status (fst (HealthMonitor.checkAgent h now stats agentId r)))
    HealthMonitor.alive
  = HealthMonitor.status_eqb (HealthMonitor.status r) HealthMonitor.alive
    && (now - HealthMonitor.lastSeen r <=? HealthMonitor.heartbeatIntervalMs h).
Proof.
  destruct (checkAgent_freshness h now stats agentId r) as [Late Fresh].
  destruct (Z.leb_spec (now - HealthMonitor.lastSeen r)
                       (HealthMonitor.heartbeatIntervalMs h)) as [L|L].
  - destruct (Fresh L) as (-> & _). now rewrite andb_true_r.
  - rewrite andb_false_r. destruct (Late L) as (_ & D & U & K).
    destruct (HealthMonitor.status r) eqn:S.
    + destruct (Z.le_gt_cases (HealthMonitor.missThreshold h)
                  ((now - HealthMonitor.lastSeen r)
                   / HealthMonitor.heartbeatIntervalMs h)) as [T|T].
      * destruct (D T ltac:(discriminate)) as [-> _]. reflexivity.
      * destruct (U T ltac:(discriminate)) as [-> _]. reflexivity.
    + destruct (Z.le_gt_cases (HealthMonitor.missThreshold h)
                  ((now - HealthMonitor.lastSeen r)
                   / HealthMonitor.heartbeatIntervalMs h)) as [T|T].
      * destruct (D T ltac:(discriminate)) as [-> _]. reflexivity.
      * destruct (U T ltac:(discriminate)) as [-> _]. reflexivity.
    + destruct (K eq_refl) as [-> _]. reflexivity.
Qed.

(** X9. What the reports say after a check.  [check] neither adds nor
    drops an agent: [healthSummary] lists the agents that were
    registered, in their order.  For a registered agent, [healthStatus]
    shows the [lastSeen] it had (only [heartbeat] moves it) and reports
    it alive exactly when it was alive before and its last heartbeat is
    at most one interval old; its record keeps [pid] and
    [registeredAt], and its summary row at the same instant carries the
    uptime that the check stored, [floor((now - registeredAt) / 1000)].
    An agent that is not registered still has no health status. *)
Theorem check_then_report
    (h : HealthMonitor.t) (now : Z) (stats : Z -> option (Q * Q))
    (agentId : string) (r : HealthMonitor.AgentHealth) :
  JsMap.wf (HealthMonitor.agents h) ->
  JsMap.get agentId (HealthMonitor.agents h) = Some r ->
  let h' := fst (HealthMonitor.check h now stats) in
  map HealthReport.row_agentId (HealthReport.healthSummary h' now)
  = JsMap.keys (HealthMonitor.agents h)
  /\ (exists hs,
         HealthReport.healthStatus h' agentId = Some hs
         /\ HealthReport.hs_lastSeen hs = HealthMonitor.lastSeen r
         /\ HealthReport.hs_alive hs
            = HealthMonitor.status_eqb (HealthMonitor.status r)
                                       HealthMonitor.alive
              && (now - HealthMonitor.lastSeen r
                  <=? HealthMonitor.heartbeatIntervalMs h))
  /\ (exists r',
         JsMap.get agentId (HealthMonitor.agents h') = Some r'
         /\ HealthMonitor.pid r' = HealthMonitor.pid r
         /\ HealthMonitor.registeredAt r' = HealthMonitor.registeredAt r
         /\ HealthMonitor.uptimeSeconds r'
            = (now - HealthMonitor.registeredAt r) / 1000
         /\ In (HealthReport.mkRow agentId
                  (HealthMonitor.status_eqb (HealthMonitor.status r')
                                            HealthMonitor.alive)
                  (HealthMonitor.status r') (HealthMonitor.lastSeen r)
                  (HealthMonitor.consecutiveMisses r')
                  (HealthMonitor.memoryMb r') (HealthMonitor.cpuPct r')
                  (HealthMonitor.uptimeSeconds r'))
               (HealthReport.healthSummary h' now))
  /\ forall other,
      JsMap.get other (HealthMonitor.agents h) = None ->
      HealthReport.healthStatus h' other = None.
Proof.
  intros W G h'. subst h'. unfold HealthMonitor.check.
  pose proof (checkAll_keys h now stats (HealthMonitor.agents h)) as K.
  pose proof (checkAll_lookup h now stats agentId r _ W G) as L.
  pose proof (fun other => checkAll_unknown h now stats other
                             (HealthMonitor.agents h)) as U.
  destruct (HealthMonitor.checkAll h now stats (HealthMonitor.agents h))
    as [m al]. simpl in K, L, U. destruct L as [L _].
  cbn [fst HealthMonitor.agents HealthMonitor.with_agents].
  destruct (checkAgent_static h now stats agentId r) as (S1 & S2 & S3 & S4).
  unfold HealthReport.healthStatus, HealthReport.healthSummary.
  cbn [HealthMonitor.agents HealthMonitor.with_agents].
  split.
  { rewrite map_map. exact K. }
  split.
  { rewrite L. eexists. split; [reflexivity|].
    cbn [HealthReport.hs_lastSeen HealthReport.hs_alive].
    split; [exact S1|apply status_after_check]. }
  split.
  { eexists. split; [exact L|]. split; [exact S2|]. split; [exact S3|].
    split; [exact S4|].
    apply in_map_iff.
    exists (agentId, fst (HealthMonitor.checkAgent h now stats agentId r)).
    split; [|now apply get_In].
    cbn [fst snd]. rewrite S1, S3, S4. reflexivity. }
  intros other N. destruct (U other N) as [-> _]. reflexivity.
Qed.

Lemma checkHeartbeat_resources (h : HealthMonitor.t) (now : Z)
    (agentId : string) (r : HealthMonitor.AgentHealth) :
  let out := HealthMonitor.checkHeartbeat h now agentId r in
  HealthMonitor.pid (fst out) = HealthMonitor.pid r
  /\ HealthMonitor.memoryMb (fst out) = HealthMonitor.memoryMb r
  /\ HealthMonitor.cpuPct (fst out) = HealthMonitor.cpuPct r
  /\ Forall (fun x => HealthMonitor.alert_reason x
                      = HealthMonitor.reason_unresponsive) (snd out).
Proof.
  unfold HealthMonitor.checkHeartbeat.
  repeat match goal with
         | |- context [if ?c then _ else _] => destruct c
         end; simpl; repeat split; repeat constructor.
Qed.

(** X10. Resource sampling.  For a registered agent whose pid is known
    (and not 0) and for which [ps] answers, [check] stores the sampled
    memory and CPU and raises a [memory_limit] alert exactly when a
    memory limit is configured and exceeded, and likewise a [cpu_limit]
    alert; there is no latch, so this holds at every pass.  Without a
    pid or an answer nothing is sampled and no such alert is raised. *)
Theorem resource_alerts_iff_over_limit
    (h : HealthMonitor.t) (now : Z) (stats : Z -> option (Q * Q))
    (agentId : string) (r : HealthMonitor.AgentHealth) :
  JsMap.wf (HealthMonitor.agents h) ->
  JsMap.get agentId (HealthMonitor.agents h) = Some r ->
  let alerts := snd (HealthMonitor.check h now stats) in
  let memory := HealthReport.alertsFor HealthMonitor.reason_memory_limit agentId alerts in
  let cpu := HealthReport.alertsFor HealthMonitor.reason_cpu_limit agentId alerts in
  let sample :=
    match HealthMonitor.pid r with
    | Some p => if truthyZ p then stats p else None
    | None => None
    end in
  exists r',
    JsMap.get agentId (HealthMonitor.agents (fst (HealthMonitor.check h now stats)))
    = Some r'
    /\ match sample with
       | Some (mb, pct) =>
           HealthMonitor.memoryMb r' = Some mb
           /\ HealthMonitor.cpuPct r' = Some pct
           /\ memory
              = (if Qltb 0 (HealthMonitor.memoryLimitMb h)
                    && Qltb (HealthMonitor.memoryLimitMb h) mb
                 then [HealthMonitor.mkAlert agentId
                         HealthMonitor.reason_memory_limit
                         (HealthMonitor.exceeds mb (HealthMonitor.memoryLimitMb h))]
                 else [])
           /\ cpu
              = (if Qltb 0 (HealthMonitor.cpuLimitPct h)
                    && Qltb (HealthMonitor.cpuLimitPct h) pct
                 then [HealthMonitor.mkAlert agentId
                         HealthMonitor.reason_cpu_limit
                         (HealthMonitor.exceeds pct (HealthMonitor.cpuLimitPct h))]
                 else [])
       | None =>
           HealthMonitor.memoryMb r' = HealthMonitor.memoryMb r
           /\ HealthMonitor.cpuPct r' = HealthMonitor.cpuPct r
           /\ memory = [] /\ cpu = []
       end.
Proof.
  intros W G alerts memory cpu sample. subst alerts memory cpu sample.
  pose proof (checkAll_lookup h now stats agentId r _ W G) as L.
  pose proof (checkAll_owned h now stats agentId r _ W G) as O.
  rewrite !alertsFor_owned. unfold HealthMonitor.check.
  destruct (HealthMonitor.checkAll h now stats (HealthMonitor.agents h))
    as [m al]. simpl in *. destruct L as [L _]. rewrite O. clear O.
  eexists. split; [exact L|]. clear L.
  unfold HealthMonitor.checkAgent.
  set (r0 := HealthMonitor.mkHealth _ _ _ _ _ _ _ _).
  pose proof (checkHeartbeat_resources h now agentId r0) as (P1 & P2 & P3 & P4).
  destruct (HealthMonitor.checkHeartbeat h now agentId r0) as [r1 l1].
  simpl in P1, P2, P3, P4.
  assert (forall reason,
             reason <> HealthMonitor.reason_unresponsive ->
             filter (fun x => HealthMonitor.reason_eqb
                                (HealthMonitor.alert_reason x) reason) l1 = [])
    as F.
  { intros reason N. induction P4 as [|x l Hx _ IH]; simpl; [reflexivity|].
    rewrite Hx, IH. destruct reason; simpl; congruence. }
  unfold HealthMonitor.checkResources. rewrite P1.
  destruct (HealthMonitor.pid r) as [p|];
    [destruct (truthyZ p); [destruct (stats p) as [[mb pct]|]|]|];
    simpl; rewrite ?filter_app, ?F by discriminate; simpl;
    repeat split; auto;
    repeat match goal with
           | |- context [if ?c then _ else _] => destruct c
           end; reflexivity.
Qed.

(** X11. A heartbeat re-arms the alert.  Whatever the status of a
    registered agent was, also [dead], after [heartbeat] at time [t0] a
    [check] that finds at least [missThreshold] whole intervals (and more
    than one interval) gone since [t0] declares it [dead] and raises
    exactly one [unresponsive] alert. *)
Theorem heartbeat_rearms_alert
    (h : HealthMonitor.t) (t0 now : Z) (stats : Z -> option (Q * Q))
    (agentId : string) (r : HealthMonitor.AgentHealth) :
  JsMap.wf (HealthMonitor.agents h) ->
  JsMap.get agentId (HealthMonitor.agents h) = Some r ->
  HealthMonitor.heartbeatIntervalMs h < now - t0 ->
  HealthMonitor.missThreshold h
  <= (now - t0) / HealthMonitor.heartbeatIntervalMs h ->
  let out := HealthMonitor.check (HealthMonitor.heartbeat h t0 agentId) now stats in
  HealthMonitor.unresponsiveAlerts agentId (snd out)
  = [HealthMonitor.mkAlert agentId HealthMonitor.reason_unresponsive
       (HealthMonitor.misses ((now - t0) / HealthMonitor.heartbeatIntervalMs h)
                             (HealthMonitor.missThreshold h))]
  /\ option_map HealthMonitor.status
       (JsMap.get agentId (HealthMonitor.agents (fst out)))
     = Some HealthMonitor.dead.
Proof.
  intros W G T M out. subst out.
  set (r1 := HealthMonitor.mkHealth t0 HealthMonitor.alive 0
               (HealthMonitor.pid r) (HealthMonitor.memoryMb r)
               (HealthMonitor.cpuPct r) (HealthMonitor.uptimeSeconds r)
               (HealthMonitor.registeredAt r)).
  assert (HealthMonitor.heartbeat h t0 agentId
          = HealthMonitor.with_agents
              (JsMap.set agentId r1 (HealthMonitor.agents h)) h) as E
    by (unfold HealthMonitor.heartbeat; now rewrite G).
  rewrite E. clear E.
  set (h1 := HealthMonitor.with_agents _ h).
  assert (JsMap.wf (HealthMonitor.agents h1)) as W1.
  { unfold JsMap.wf. simpl. now rewrite (keys_set_present _ _ _ _ G). }
  assert (JsMap.get agentId (HealthMonitor.agents h1) = Some r1) as G1
    by apply get_set_same.
  pose proof (checkAll_lookup h1 now stats agentId r1 _ W1 G1) as L.
  pose proof (checkAgent_freshness h1 now stats agentId r1) as [F _].
  unfold HealthMonitor.check.
  destruct (HealthMonitor.checkAll h1 now stats (HealthMonitor.agents h1))
    as [m al]. simpl in L |- *. destruct L as [L1 L2]. rewrite L1, L2.
  destruct (F T) as (_ & D & _).
  destruct (D M ltac:(discriminate)) as [D1 D2].
  split; [exact D2|]. simpl. now rewrite D1.
Qed.

(** ** The quota probe: totals *)

Lemma binary_round_aux_nonneg (m e : Z) (l : location) :
  Double.nonneg (binary_round_aux Double.prec Double.emax false m e l).
Proof.
  unfold binary_round_aux.
  destruct (shr_fexp _ _ m e l) as [mrs' e'].
  destruct (shr_fexp _ _ _ e' loc_Exact) as [mrs'' e''].
  destruct (shr_m mrs''); try exact I.
  destruct (_ <=? _); [reflexivity|exact I].
Qed.

Lemma ofZ_nonneg (z : Z) : 0 <= z -> Double.nonneg (Double.ofZ z).
Proof.
  intros P. unfold Double.ofZ, binary_normalize.
  destruct z as [|m|m]; [exact I| |lia].
  unfold binary_round. destruct (shl_align _ _ _) as [mz ez].
  apply binary_round_aux_nonneg.
Qed.

Lemma mul_nonneg (x y : spec_float) :
  Double.nonneg x -> Double.nonneg y -> Double.nonneg (Double.mul x y).
Proof.
  unfold Double.mul, SFmul.
  destruct x as [sx|sx| |sx mx ex], y as [sy|sy| |sy my ey];
    try (intros; exact I).
  intros X Y. simpl in X, Y. subst sx sy. apply binary_round_aux_nonneg.
Qed.

Lemma div_nonneg (x y : spec_float) :
  Double.nonneg x -> Double.nonneg y -> Double.nonneg (Double.div x y).
Proof.
  unfold Double.div, SFdiv.
  destruct x as [sx|sx| |sx mx ex], y as [sy|sy| |sy my ey];
    try (intros; exact I).
  intros X Y. simpl in X, Y. subst sx sy.
  destruct (SFdiv_core_binary _ _ _ _ _ _) as [[mz ez] lz].
  apply binary_round_aux_nonneg.
Qed.

Lemma ofQ_nonneg (q : Q) : (0 <= q)%Q -> Double.nonneg (Double.ofQ q).
Proof.
  intros P. unfold Double.ofQ.
  apply div_nonneg; apply ofZ_nonneg; [|lia].
  unfold Qle in P. simpl in P. lia.
Qed.

Lemma ceil_nonneg (x : spec_float) : Double.nonneg x -> 0 <= Double.ceil x.
Proof.
  destruct x as [sx|sx| |sx m e]; simpl; try lia.
  intros ->. unfold Double.signed.
  destruct (Z.leb_spec 0 e) as [E|E].
  - pose proof (Z.pow_nonneg 2 e). lia.
  - assert (0 < 2 ^ (- e)) as L by (apply Z.pow_pos_nonneg; lia).
    assert (Z.neg m / 2 ^ (- e) <= 0)
      by (apply Z.div_le_upper_bound; lia).
    change (- Z.pos m) with (Z.neg m). lia.
Qed.

Lemma estimates_nonneg (q : QuotaProbe.t) (r : QuotaProbe.Result) :
  (0 < QuotaProbe.charsPerToken q)%Q ->
  (0 <= QuotaProbe.tokensPerSecond q)%Q ->
  (forall ms, QuotaProbe.durationMs r = Some ms -> 0 <= ms) ->
  0 <= QuotaProbe.tokensFor q r.
Proof.
  intros C T D.
  assert (forall out, 0 <= QuotaProbe.outputEstimate q out) as O.
  { intros out. unfold QuotaProbe.outputEstimate.
    apply ceil_nonneg, div_nonneg; [apply ofZ_nonneg; lia|].
    apply ofQ_nonneg. now apply Qlt_le_weak. }
  assert (0 <= QuotaProbe.estimate q r) as E.
  { unfold QuotaProbe.estimate.
    destruct (_ && _); [apply O|].
    destruct (String.eqb _ "duration" && _) eqn:X; [|destruct (truthyOS _); [apply O|lia]].
    apply andb_true_iff in X as [_ X].
    destruct (QuotaProbe.durationMs r) as [ms|] eqn:M; [|discriminate].
    cbn [truthyOZ] in X. unfold HealthMonitor.orZ. rewrite X.
    unfold QuotaProbe.durationEstimate.
    apply ceil_nonneg, mul_nonneg; [|now apply ofQ_nonneg].
    apply div_nonneg; apply ofZ_nonneg; [now apply D|lia]. }
  unfold QuotaProbe.tokensFor.
  destruct (QuotaProbe.tokens r) as [n|]; [|exact E].
  destruct (Z.gtb_spec n 0); [lia|exact E].
Qed.

Lemma record_config (q : QuotaProbe.t) (now : Z) (r : QuotaProbe.Result) :
  let q' := fst (QuotaProbe.record q now r) in
  QuotaProbe.charsPerToken q' = QuotaProbe.charsPerToken q
  /\ QuotaProbe.tokensPerSecond q' = QuotaProbe.tokensPerSecond q
  /\ QuotaProbe.estimationMethod q' = QuotaProbe.estimationMethod q
  /\ QuotaProbe.warningThreshold q' = QuotaProbe.warningThreshold q.
Proof.
  unfold QuotaProbe.record.
  repeat match goal with
         | |- context [if ?c then _ else _] => destruct c
         end; repeat split.
Qed.

Lemma record_total (q : QuotaProbe.t) (now : Z) (r : QuotaProbe.Result) :
  QuotaProbe._totalTokens (fst (QuotaProbe.record q now r))
  = QuotaProbe._totalTokens q
    + (if truthyS (QuotaProbe.agentId r) then QuotaProbe.tokensFor q r else 0).
Proof.
  unfold QuotaProbe.record.
  destruct (truthyS (QuotaProbe.agentId r)); simpl; [|lia].
  repeat match goal with
         | |- context [if ?c then _ else _] => destruct c
         end; reflexivity.
Qed.

(** X12. Budget monotonicity.  With a positive [charsPerToken], a
    non-negative [tokensPerSecond] and no negative duration among the
    records, a run of [record] calls never lowers [totalTokens]; [reset]
    is what brings it back to 0. *)
Theorem totalTokens_never_decreases
    (rs : list (Z * QuotaProbe.Result)) (q : QuotaProbe.t) :
  (0 < QuotaProbe.charsPerToken q)%Q ->
  (0 <= QuotaProbe.tokensPerSecond q)%Q ->
  Forall (fun x => forall ms, QuotaProbe.durationMs (snd x) = Some ms -> 0 <= ms)
         rs ->
  QuotaProbe._totalTokens q
  <= QuotaProbe._totalTokens (fst (QuotaProbe.recordAll q rs))
  /\ QuotaProbe._totalTokens (QuotaProbe.reset (fst (QuotaProbe.recordAll q rs)))
     = 0.
Proof.
  intros C T D. split; [|reflexivity].
  revert q C T. induction D as [|[now r] rs Hr _ IH]; intros q C T; simpl.
  - lia.
  - pose proof (record_total q now r) as RT.
    pose proof (record_config q now r) as (C1 & C2 & _).
    pose proof (estimates_nonneg q r C T Hr) as N.
    destruct (QuotaProbe.record q now r) as [q1 ev1]. simpl in *.
    specialize (IH q1). rewrite C1, C2 in IH. specialize (IH C T).
    destruct (QuotaProbe.recordAll q1 rs) as [q2 ev2]. simpl in *.
    destruct (truthyS (QuotaProbe.agentId r)); lia.
Qed.

Lemma agentsTotal_set (k : string) (v : QuotaProbe.AgentUsage)
    (m : JsMap.t QuotaProbe.AgentUsage) :
  QuotaReport.agentsTotal (JsMap.set k v m)
  = QuotaReport.agentsTotal m
    - match JsMap.get k m with
      | Some a => QuotaProbe.usage_totalTokens a
      | None => 0
      end
    + QuotaProbe.usage_totalTokens v
  /\ QuotaReport.agentsTasks (JsMap.set k v m)
     = QuotaReport.agentsTasks m
       - match JsMap.get k m with
         | Some a => QuotaProbe.usage_tasks a
         | None => 0
         end
       + QuotaProbe.usage_tasks v.
Proof.
  induction m as [|[k0 v0] m [IH1 IH2]]; simpl.
  - split; lia.
  - destruct (String.eqb k k0); simpl; split; lia.
Qed.

Lemma record_agents (q : QuotaProbe.t) (now : Z) (r : QuotaProbe.Result) :
  let q' := fst (QuotaProbe.record q now r) in
  let counts := truthyS (QuotaProbe.agentId r) in
  QuotaReport.agentsTotal (QuotaProbe._agents q')
  = QuotaReport.agentsTotal (QuotaProbe._agents q)
    + (if counts then QuotaProbe.tokensFor q r else 0)
  /\ QuotaReport.agentsTasks (QuotaProbe._agents q')
     = QuotaReport.agentsTasks (QuotaProbe._agents q)
       + (if counts then 1 else 0).
Proof.
  unfold QuotaProbe.record.
  destruct (truthyS (QuotaProbe.agentId r)); simpl; [|split; lia].
  match goal with
  | |- context [JsMap.set ?k ?v (QuotaProbe._agents q)] =>
      pose proof (agentsTotal_set k v (QuotaProbe._agents q)) as [A B]
  end.
  simpl in A, B.
  assert (forall b (x y : QuotaProbe.t * list QuotaProbe.Event),
             QuotaProbe._agents (fst x) = QuotaProbe._agents (fst y) ->
             QuotaProbe._agents (fst (if b : bool then x else y))
             = QuotaProbe._agents (fst x)) as I
    by (intros [] x y E; congruence).
  repeat match goal with
         | |- context [if ?c then _ else _] => destruct c
         end; simpl; rewrite A, B;
    destruct (JsMap.get _ _); simpl; split; lia.
Qed.

(** X13. The books balance.  Starting from a probe whose aggregate
    equals the sum of its per-agent totals (a new or reset probe does),
    after any run of [record] calls the aggregate is still that sum, and
    the per-agent task counts have grown by the number of records that
    carried an agent id. *)
Theorem aggregate_is_sum_of_agents
    (rs : list (Z * QuotaProbe.Result)) (q : QuotaProbe.t)
    (c : QuotaProbe.Config) :
  QuotaReport.agentsTotal (QuotaProbe._agents q) = QuotaProbe._totalTokens q ->
  let q' := fst (QuotaProbe.recordAll q rs) in
  QuotaReport.agentsTotal (QuotaProbe._agents q') = QuotaProbe._totalTokens q'
  /\ QuotaReport.agentsTasks (QuotaProbe._agents q')
     = QuotaReport.agentsTasks (QuotaProbe._agents q)
       + Z.of_nat (List.length (QuotaReport.counted rs))
  /\ QuotaReport.agentsTotal (QuotaProbe._agents (QuotaProbe.constructor c))
     = QuotaProbe._totalTokens (QuotaProbe.constructor c)
  /\ QuotaReport.agentsTotal (QuotaProbe._agents (QuotaProbe.reset q'))
     = QuotaProbe._totalTokens (QuotaProbe.reset q').
Proof.
  intros I q'. subst q'.
  repeat match goal with |- _ /\ _ => split end; try reflexivity.
  - revert q I. induction rs as [|[now r] rs IH]; intros q I; simpl; [exact I|].
    pose proof (record_total q now r) as RT.
    pose proof (record_agents q now r) as [RA _].
    destruct (QuotaProbe.record q now r) as [q1 ev1]. simpl in *.
    specialize (IH q1 ltac:(lia)).
    now destruct (QuotaProbe.recordAll q1 rs).
  - clear I. revert q. induction rs as [|[now r] rs IH]; intros q; simpl; [lia|].
    pose proof (record_agents q now r) as [_ RB].
    destruct (QuotaProbe.record q now r) as [q1 ev1]. simpl in *.
    specialize (IH q1).
    destruct (QuotaProbe.recordAll q1 rs) as [q2 ev2]. simpl in *.
    destruct (truthyS (QuotaProbe.agentId r)); simpl; lia.
Qed.

(** X14. [isExhausted] and the [budget_exhausted] event agree: a record
    that carries an agent id emits [budget_exhausted] exactly when
    [isExhausted()] is true afterwards, and with a budget of 0 or less
    neither ever happens. *)
Theorem exhausted_event_iff_isExhausted
    (q : QuotaProbe.t) (now : Z) (r : QuotaProbe.Result) :
  QuotaProbe.agentId r <> "" ->
  let q' := fst (QuotaProbe.record q now r) in
  filter QuotaProbe.isExhaustedEvent (snd (QuotaProbe.record q now r))
  = (if QuotaProbe.isExhausted q'
     then [QuotaProbe.budget_exhausted (QuotaProbe._totalTokens q')
                                       (QuotaProbe.budget q')]
     else [])
  /\ (QuotaProbe.budget q <= 0 -> QuotaProbe.isExhausted q' = false)
  /\ (QuotaProbe.isExhausted q' = true
      <-> 0 < QuotaProbe.budget q
          /\ QuotaProbe.budget q
             <= QuotaProbe._totalTokens q + QuotaProbe.tokensFor q r).
Proof.
  intros A q'. subst q'.
  assert (truthyS (QuotaProbe.agentId r) = true) as TA.
  { unfold truthyS. apply negb_true_iff. now apply String.eqb_neq. }
  pose proof (record_total q now r) as RT. rewrite TA in RT.
  pose proof (record_budget q now r) as RB.
  unfold QuotaProbe.isExhausted. rewrite RB, RT.
  set (total := QuotaProbe._totalTokens q + QuotaProbe.tokensFor q r) in *.
  unfold QuotaProbe.record. rewrite TA. cbn [negb]. cbv zeta. fold total.
  destruct (Z.gtb_spec (QuotaProbe.budget q) 0) as [B|B].
  - rewrite (utilization_ge_1 total _ B).
    assert ((QuotaProbe.budget q <=? 0) = false) as -> by (apply Z.leb_gt; lia).
    rewrite Z.geb_leb.
    destruct (Z.leb_spec (QuotaProbe.budget q) total) as [L|L].
    + simpl. repeat split; auto; lia.
    + destruct (_ && _); simpl; repeat split; auto; try lia;
        intros; try discriminate; lia.
  - assert ((QuotaProbe.budget q <=? 0) = true) as -> by (apply Z.leb_le; lia).
    simpl. repeat split; auto; intros; try discriminate; lia.
Qed.

Lemma insertRow_perm (x : QuotaReport.Row) (l : list QuotaReport.Row) :
  Permutation (x :: l) (QuotaReport.insertRow x l).
Proof.
  induction l as [|y l IH]; simpl; [reflexivity|].
  destruct (_ <=? _); [reflexivity|].
  rewrite perm_swap. now constructor.
Qed.

Lemma sortRows_perm (l : list QuotaReport.Row) :
  Permutation l (QuotaReport.sortRows l).
Proof.
  induction l as [|x l IH]; simpl; [constructor|].
  rewrite <- insertRow_perm. now constructor.
Qed.

Lemma insertRow_sorted (x : QuotaReport.Row) (l : list QuotaReport.Row) :
  StronglySorted QuotaReport.moreFirst l ->
  StronglySorted QuotaReport.moreFirst (QuotaReport.insertRow x l).
Proof.
  induction 1 as [|y l S IH F]; simpl.
  - repeat constructor.
  - destruct (Z.leb_spec (QuotaReport.row_totalTokens y)
                         (QuotaReport.row_totalTokens x)) as [L|L].
    + constructor; [now constructor|].
      constructor; [exact L|].
      eapply Forall_impl; [|exact F].
      unfold QuotaReport.moreFirst. intros; lia.
    + constructor; [exact IH|].
      eapply Permutation_Forall; [apply insertRow_perm|].
      constructor; [unfold QuotaReport.moreFirst; lia|exact F].
Qed.

(** X15. [summary()]: the agent rows are the per-agent records, each
    exactly once, in descending order of [totalTokens]; [remaining] is
    never negative, it is 0 exactly when [isExhausted()] holds, and with
    a budget of 0 or less it is infinite, [pct] is 0 and the probe is
    never exhausted. *)
Theorem summary_rows_and_remaining (q : QuotaProbe.t) :
  let s := QuotaReport.summary q in
  Permutation (QuotaReport.rows q) (QuotaReport.sum_agents s)
  /\ StronglySorted QuotaReport.moreFirst (QuotaReport.sum_agents s)
  /\ match QuotaReport.sum_remaining s with
     | Some x =>
         0 < QuotaProbe.budget q
         /\ 0 <= x
         /\ QuotaProbe.budget q - QuotaProbe._totalTokens q <= x
         /\ (x = 0 <-> QuotaProbe.isExhausted q = true)
     | None =>
         QuotaProbe.budget q <= 0
         /\ QuotaReport.sum_pct s = 0
         /\ QuotaProbe.isExhausted q = false
     end.
Proof.
  simpl. split; [apply sortRows_perm|]. split.
  - induction (QuotaReport.rows q) as [|x l IH]; simpl;
      [constructor|now apply insertRow_sorted].
  - unfold QuotaProbe.isExhausted.
    destruct (Z.gtb_spec (QuotaProbe.budget q) 0) as [B|B].
    + assert ((QuotaProbe.budget q <=? 0) = false) as -> by (apply Z.leb_gt; lia).
      rewrite Z.geb_leb.
      repeat match goal with |- _ /\ _ => split end; try lia.
    + assert ((QuotaProbe.budget q <=? 0) = true) as -> by (apply Z.leb_le; lia).
      repeat split; lia.
Qed.

(** ** Concrete runs of the monitor and of the probe *)

Lemma monitor_wf : JsMap.wf (HealthMonitor.agents Scenario.monitor).
Proof. unfold JsMap.wf. simpl. constructor; [intros []|constructor]. Qed.

Lemma limitedMonitor_wf : JsMap.wf (HealthMonitor.agents Cases.limitedMonitor).
Proof. unfold JsMap.wf. simpl. constructor; [intros []|constructor]. Qed.

(** A pass at 95 s over the monitor of [Scenario]: the agent is still
    listed, last seen at 0, and no longer reported alive. *)
Lemma check_then_report_witness :
  JsMap.wf (HealthMonitor.agents Scenario.monitor)
  /\ exists hs,
      HealthReport.healthStatus
        (fst (HealthMonitor.check Scenario.monitor 95000 Scenario.noStats))
        "agent-001" = Some hs
      /\ HealthReport.hs_lastSeen hs = 0
      /\ HealthReport.hs_alive hs = false.
Proof.
  split; [exact monitor_wf|].
  destruct (check_then_report Scenario.monitor 95000 Scenario.noStats
              "agent-001" _ monitor_wf eq_refl)
    as (_ & (hs & S & L & A) & _).
  exists hs. split; [exact S|]. split; [exact L|exact A].
Defined.

(** 600 MB against a limit of 512 MB: one [memory_limit] alert, and no
    [cpu_limit] alert since no CPU limit is set. *)
Lemma resource_alert_witness :
  JsMap.wf (HealthMonitor.agents Cases.limitedMonitor)
  /\ HealthReport.alertsFor HealthMonitor.reason_memory_limit "agent-001"
       (snd (HealthMonitor.check Cases.limitedMonitor 1000 Cases.psStats))
     = [HealthMonitor.mkAlert "agent-001" HealthMonitor.reason_memory_limit
          (HealthMonitor.exceeds 600 512)]
  /\ HealthReport.alertsFor HealthMonitor.reason_cpu_limit "agent-001"
       (snd (HealthMonitor.check Cases.limitedMonitor 1000 Cases.psStats))
     = [].
Proof.
  split; [exact limitedMonitor_wf|].
  destruct (resource_alerts_iff_over_limit Cases.limitedMonitor 1000
              Cases.psStats "agent-001" _ limitedMonitor_wf eq_refl)
    as (r' & _ & S).
  simpl in S. destruct S as (_ & _ & M & C).
  split; [exact M|exact C].
Defined.

(** A heartbeat at 10 s and a pass at 100 s: three intervals missed. *)
Lemma heartbeat_rearms_witness :
  JsMap.wf (HealthMonitor.agents Scenario.monitor)
  /\ HealthMonitor.unresponsiveAlerts "agent-001"
       (snd (HealthMonitor.check
               (HealthMonitor.heartbeat Scenario.monitor 10000 "agent-001")
               100000 Scenario.noStats))
     = [HealthMonitor.mkAlert "agent-001" HealthMonitor.reason_unresponsive
          (HealthMonitor.misses 3 3)].
Proof.
  split; [exact monitor_wf|].
  destruct (heartbeat_rearms_alert Scenario.monitor 10000 100000
              Scenario.noStats "agent-001" _ monitor_wf eq_refl
              ltac:(vm_compute; reflexivity)
              ltac:(vm_compute; discriminate)) as [A _].
  exact A.
Defined.

(** Two records of 85 and 15 tokens into the probe of scenario S2. *)
Lemma totalTokens_witness :
  (0 < QuotaProbe.charsPerToken Scenario.budgetProbe)%Q
  /\ QuotaProbe._totalTokens Scenario.budgetProbe
     <= QuotaProbe._totalTokens
          (fst (QuotaProbe.recordAll Scenario.budgetProbe
                  [(1, Scenario.record85); (2, Scenario.record15)])).
Proof.
  split; [reflexivity|].
  refine (proj1 (totalTokens_never_decreases
                   [(1, Scenario.record85); (2, Scenario.record15)]
                   Scenario.budgetProbe eq_refl _ _)).
  - vm_compute. discriminate.
  - repeat constructor; simpl; discriminate.
Defined.

Lemma aggregate_witness :
  QuotaReport.agentsTotal (QuotaProbe._agents Scenario.budgetProbe)
  = QuotaProbe._totalTokens Scenario.budgetProbe
  /\ QuotaReport.agentsTasks
       (QuotaProbe._agents
          (fst (QuotaProbe.recordAll Scenario.budgetProbe
                  [(1, Scenario.record85); (2, Scenario.record15)])))
     = 2.
Proof.
  split; [reflexivity|].
  exact (proj1 (proj2 (aggregate_is_sum_of_agents
                         [(1, Scenario.record85); (2, Scenario.record15)]
                         Scenario.budgetProbe
                         (QuotaProbe.mkConfig None None None None None)
                         eq_refl))).
Defined.

Lemma exhausted_event_witness :
  QuotaProbe.agentId Scenario.record85 <> ""
  /\ QuotaProbe.isExhausted
       (fst (QuotaProbe.record Scenario.budgetProbe 1 Scenario.record85))
     = false.
Proof.
  split; [discriminate|].
  destruct (exhausted_event_iff_isExhausted Scenario.budgetProbe 1
              Scenario.record85 ltac:(discriminate)) as (_ & _ & I).
  destruct (QuotaProbe.isExhausted _) eqn:E; [|reflexivity].
  destruct (proj1 I eq_refl) as [_ L]. vm_compute in L. now elim L.
Defined.

(** ** The spawner *)

Lemma existsb_remove (ws p : string) (l : list string) :
  existsb (String.eqb p) (filter (fun x => negb (String.eqb ws x)) l)
  = existsb (String.eqb p) l && negb (String.eqb ws p).
Proof.
  induction l as [|x l IH]; simpl; [reflexivity|].
  destruct (String.eqb ws x) eqn:E; simpl; rewrite IH.
  - apply String.eqb_eq in E. subst x.
    destruct (String.eqb p ws) eqn:F; simpl.
    + rewrite String.eqb_sym, F. simpl. now rewrite andb_false_r.
    + reflexivity.
  - destruct (String.eqb p x) eqn:F; simpl; [|reflexivity].
    apply String.eqb_eq in F. subst x. now rewrite E.
Qed.

(** X16. A successful [spawn] makes the workspace directory
    [basePath/name], which did not exist before, and tracks it under the
    agent id, so that [list] shows it as existing; it removes nothing;
    and from then on every [spawn] under the same name is refused with
    "Workspace already exists", whatever the identity. *)
Theorem spawn_tracks_and_refuses_duplicates
    (sp sp' : Spawner.t) (name identity : string) (r : Spawner.SpawnResult) :
  Spawner.spawn sp name identity = Spawner.SpawnOk sp' r ->
  let ws := Spawner.join (Spawner.basePath sp) name in
  name <> ""
  /\ Spawner.existsSync sp ws = false
  /\ r = Spawner.mkSpawn ws identity
  /\ JsMap.get identity (Spawner.workspaces sp') = Some ws
  /\ In (Workspaces.mkListed identity ws true) (Workspaces.list sp')
  /\ (forall p, Spawner.existsSync sp p = true ->
                Spawner.existsSync sp' p = true)
  /\ forall identity',
      Spawner.spawn sp' name identity'
      = Spawner.SpawnError ("Workspace already exists: " ++ ws)%string.
Proof.
  intros H ws. unfold Spawner.spawn in H. fold ws in H.
  destruct (truthyS name) eqn:N; [|discriminate].
  destruct (Spawner.existsSync sp ws) eqn:E; [discriminate|].
  simpl in H. injection H as <- <-.
  assert (Spawner.existsSync
            (Spawner.mk (Spawner.basePath sp)
               (JsMap.set identity ws (Spawner.workspaces sp))
               (Spawner.disk sp ++ [ws])) ws = true) as X.
  { unfold Spawner.existsSync. simpl. rewrite existsb_app. simpl.
    rewrite String.eqb_refl. now rewrite orb_true_r. }
  repeat match goal with |- _ /\ _ => split end; auto.
  - intros ->. discriminate.
  - simpl. apply get_set_same.
  - unfold Workspaces.list.
    apply in_map_iff. exists (identity, ws). simpl. rewrite X.
    split; [reflexivity|]. apply get_In. apply get_set_same.
  - intros p P. unfold Spawner.existsSync in *. simpl.
    rewrite existsb_app, P. reflexivity.
  - intros identity'. unfold Spawner.spawn. rewrite N.
    cbn [negb Spawner.basePath]. fold ws. now rewrite X.
Qed.

Lemma spawn_first_slot :
  Spawner.spawn (Spawner.mk "/ws" [] []) "swarm-builder-000" "a1b2c3d4"
  = Spawner.SpawnOk
      (Spawner.mk "/ws" [("a1b2c3d4", "/ws/swarm-builder-000")]
                  ["/ws/swarm-builder-000"])
      (Spawner.mkSpawn "/ws/swarm-builder-000" "a1b2c3d4").
Proof. reflexivity. Qed.

Lemma spawn_duplicate_witness :
  Spawner.spawn (Spawner.mk "/ws" [] []) "swarm-builder-000" "a1b2c3d4"
  = Spawner.SpawnOk
      (Spawner.mk "/ws" [("a1b2c3d4", "/ws/swarm-builder-000")]
                  ["/ws/swarm-builder-000"])
      (Spawner.mkSpawn "/ws/swarm-builder-000" "a1b2c3d4")
  /\ Spawner.spawn
       (Spawner.mk "/ws" [("a1b2c3d4", "/ws/swarm-builder-000")]
                   ["/ws/swarm-builder-000"])
       "swarm-builder-000" "ffff0000"
     = Spawner.SpawnError "Workspace already exists: /ws/swarm-builder-000".
Proof.
  split; [reflexivity|].
  exact (proj2 (proj2 (proj2 (proj2 (proj2 (proj2
           (spawn_tracks_and_refuses_duplicates _ _ _ _ _ spawn_first_slot))))))
           "ffff0000").
Defined.

(** X17. Teardown.  Without [confirm] nothing happens.  With it, the
    workspace that [spawn] made is removed from disk and from the
    tracked set, every other directory stays, the name can be spawned
    again, and a second teardown of the same agent reports failure and
    changes nothing. *)
Theorem spawn_teardown_round_trip
    (sp sp' : Spawner.t) (name identity : string) (r : Spawner.SpawnResult) :
  Spawner.spawn sp name identity = Spawner.SpawnOk sp' r ->
  let ws := Spawner.join (Spawner.basePath sp) name in
  let sp'' := fst (Spawner.teardown sp' identity true) in
  Spawner.teardown sp' identity false = (sp', false)
  /\ snd (Spawner.teardown sp' identity true) = true
  /\ JsMap.get identity (Spawner.workspaces sp'') = None
  /\ Spawner.existsSync sp'' ws = false
  /\ (forall p, p <> ws -> Spawner.existsSync sp'' p = Spawner.existsSync sp p)
  /\ (forall id',
        id' <> identity ->
        JsMap.get id' (Spawner.workspaces sp'')
        = JsMap.get id' (Spawner.workspaces sp))
  /\ Spawner.teardown sp'' identity true = (sp'', false)
  /\ exists sp3,
      Spawner.spawn sp'' name identity
      = Spawner.SpawnOk sp3 (Spawner.mkSpawn ws identity).
Proof.
  intros H ws sp''. unfold Spawner.spawn in H. fold ws in H.
  destruct (truthyS name) eqn:N; [|discriminate].
  destruct (Spawner.existsSync sp ws) eqn:E; [discriminate|].
  simpl in H. injection H as <- <-.
  assert (Spawner.existsSync
            (Spawner.mk (Spawner.basePath sp)
               (JsMap.set identity ws (Spawner.workspaces sp))
               (Spawner.disk sp ++ [ws])) ws = true) as X.
  { unfold Spawner.existsSync. simpl. rewrite existsb_app. simpl.
    rewrite String.eqb_refl. now rewrite orb_true_r. }
  assert (sp'' = Spawner.mk (Spawner.basePath sp)
                   (JsMap.delete identity
                      (JsMap.set identity ws (Spawner.workspaces sp)))
                   (filter (fun p => negb (String.eqb ws p))
                           (Spawner.disk sp ++ [ws]))
          /\ snd (Spawner.teardown
                    (Spawner.mk (Spawner.basePath sp)
                       (JsMap.set identity ws (Spawner.workspaces sp))
                       (Spawner.disk sp ++ [ws])) identity true) = true)
    as [S2 OK].
  { subst sp''. unfold Spawner.teardown. cbn [negb Spawner.workspaces].
    pose proof (join_truthy (Spawner.basePath sp) name) as J. fold ws in J.
    rewrite get_set_same, J. cbn [negb]. rewrite X. split; reflexivity. }
  clearbody sp''. subst sp''.
  assert (forall p,
             Spawner.existsSync
               (Spawner.mk (Spawner.basePath sp)
                  (JsMap.delete identity
                     (JsMap.set identity ws (Spawner.workspaces sp)))
                  (filter (fun p => negb (String.eqb ws p))
                          (Spawner.disk sp ++ [ws]))) p
             = Spawner.existsSync sp p && negb (String.eqb ws p)) as D.
  { intros p. unfold Spawner.existsSync. simpl.
    rewrite existsb_remove, existsb_app. simpl.
    destruct (String.eqb ws p) eqn:F; simpl.
    - now rewrite !andb_false_r.
    - rewrite String.eqb_sym, F. simpl. now rewrite orb_false_r, andb_true_r. }
  repeat match goal with |- _ /\ _ => split end; try reflexivity.
  - exact OK.
  - apply get_delete_same.
  - rewrite D, String.eqb_refl. simpl. now rewrite andb_false_r.
  - intros p P. rewrite D.
    assert (String.eqb ws p = false) as -> by (apply String.eqb_neq; congruence).
    simpl. now rewrite andb_true_r.
  - intros id' P. cbn [Spawner.workspaces].
    rewrite get_delete_other by congruence.
    apply get_set_other. congruence.
  - unfold Spawner.teardown. cbn [negb Spawner.workspaces].
    now rewrite get_delete_same.
  - eexists. unfold Spawner.spawn. rewrite N. cbn [negb Spawner.basePath].
    fold ws. rewrite D, String.eqb_refl. simpl. rewrite andb_false_r.
    reflexivity.
Qed.

Lemma teardown_round_trip_witness :
  Spawner.spawn (Spawner.mk "/ws" [] []) "swarm-builder-000" "a1b2c3d4"
  = Spawner.SpawnOk
      (Spawner.mk "/ws" [("a1b2c3d4", "/ws/swarm-builder-000")]
                  ["/ws/swarm-builder-000"])
      (Spawner.mkSpawn "/ws/swarm-builder-000" "a1b2c3d4")
  /\ snd (Spawner.teardown
            (Spawner.mk "/ws" [("a1b2c3d4", "/ws/swarm-builder-000")]
                        ["/ws/swarm-builder-000"])
            "a1b2c3d4" true) = true.
Proof.
  split; [reflexivity|].
  exact (proj1 (proj2
           (spawn_teardown_round_trip _ _ _ _ _ spawn_first_slot))).
Defined.

(** ** The supervisor: crash reports *)

(** X18. However often the crash of an agent is reported (its [crashed]
    event, a heartbeat timeout, under whatever clock), one restart is
    scheduled: the first report that is not a degradation arms one timer
    with the backoff delay, and every later report leaves the supervisor
    exactly as it is.  A report about an agent that is not in the
    process table does nothing either. *)
Theorem crash_reports_schedule_one_restart
    (env : Supervisor.Env) (agentId m : string) (s : Supervisor.t)
    (entry : Supervisor.Entry) (reports : list (Supervisor.Env * string)) :
  JsMap.get agentId (Supervisor.processTable s) = Some entry ->
  Supervisor.restartScheduled entry = false ->
  Supervisor.isDegraded env (fst (Supervisor.bumpRestart env entry))
                        (snd (Supervisor.bumpRestart env entry)) = false ->
  let s1 := Supervisor._handleCrash env agentId m s in
  Supervisor.timers s1
  = Supervisor.timers s
    ++ [Supervisor.mkTimer
          (Supervisor.backoffSeconds
             (fst (Supervisor.bumpRestart env entry)) * 1000) agentId]
  /\ fold_left (fun s r => Supervisor._handleCrash (fst r) agentId (snd r) s)
               reports s1 = s1
  /\ forall other,
      JsMap.get other (Supervisor.processTable s) = None ->
      Supervisor._handleCrash env other m s = s.
Proof.
  intros G R D s1.
  assert (exists e1,
             JsMap.get agentId (Supervisor.processTable s1) = Some e1
             /\ Supervisor.restartScheduled e1 = true
             /\ Supervisor.timers s1
                = Supervisor.timers s
                  ++ [Supervisor.mkTimer
                        (Supervisor.backoffSeconds
                           (fst (Supervisor.bumpRestart env entry)) * 1000)
                        agentId]) as (e1 & G1 & R1 & T1).
  { subst s1. unfold Supervisor._handleCrash. rewrite G, R.
    destruct (Supervisor.bumpRestart env entry) as [rc fr]. simpl in D.
    rewrite D. sup_red. rewrite get_set_same. eexists.
    split; [reflexivity|]. split; reflexivity. }
  split; [exact T1|]. split.
  - clearbody s1. induction reports as [|[e' m'] reports IH]; simpl; [reflexivity|].
    unfold Supervisor._handleCrash at 2. rewrite G1, R1. exact IH.
  - intros other N. unfold Supervisor._handleCrash. now rewrite N.
Qed.

(** The first crash of daemon 0 of the fleet, reported three times. *)
Lemma crash_reports_witness :
  Supervisor.timers
    (fold_left
       (fun s r => Supervisor._handleCrash (fst r) "id-swarm-builder-000" (snd r) s)
       [(Scenario.world 200001, "heartbeat timeout");
        (Scenario.world 200002, "exit")]
       (Supervisor._handleCrash (Scenario.world 200000)
          "id-swarm-builder-000" "heartbeat timeout" Scenario.fleet))
  = [Supervisor.mkTimer 2000 "id-swarm-builder-000"].
Proof.
  destruct (crash_reports_schedule_one_restart (Scenario.world 200000)
              "id-swarm-builder-000" "heartbeat timeout" Scenario.fleet _
              [(Scenario.world 200001, "heartbeat timeout");
               (Scenario.world 200002, "exit")]
              eq_refl eq_refl eq_refl) as (T & F & _).
  rewrite F. exact T.
Defined.

(** ** The supervisor: the cap on active agents *)

Lemma onLifecycle_count (env : Supervisor.Env) (e : Daemon.Event)
    (s : Supervisor.t) :
  Supervisor.activeCount (stateOf (Supervisor.onLifecycle env e s))
  = Supervisor.activeCount s
    + (if SupervisorOps.isPromoted (Daemon.Emit e) then 1 else 0).
Proof.
  destruct e as [a|a|a st|a c r|a k|a m|a r|a p k|r|r|a|a m]; simpl;
    try (unfold Supervisor._busSend; split_cases; simpl; lia).
  pose proof (handleCrash_frame env a m s) as H. simpl in H.
  destruct H as (_ & _ & _ & ->). lia.
Qed.

Lemma promotions_cons (x : Daemon.Action) (acts : list Daemon.Action) :
  SupervisorOps.promotions (x :: acts)
  = (if SupervisorOps.isPromoted x then 1 else 0)
    + SupervisorOps.promotions acts.
Proof.
  unfold SupervisorOps.promotions. simpl.
  destruct (SupervisorOps.isPromoted x); simpl List.length; lia.
Qed.

Lemma promotions_nonneg (acts : list Daemon.Action) :
  0 <= SupervisorOps.promotions acts.
Proof. unfold SupervisorOps.promotions. lia. Qed.

Lemma perform_count (env : Supervisor.Env) (a : string)
    (acts : list Daemon.Action) (s : Supervisor.t) :
  let s' := stateOf (Supervisor.perform (Supervisor.onLifecycle env) a acts s) in
  Supervisor.activeCount s <= Supervisor.activeCount s'
  /\ Supervisor.activeCount s'
     <= Supervisor.activeCount s + SupervisorOps.promotions acts.
Proof.
  revert s. induction acts as [|x acts IH]; intros s.
  - unfold SupervisorOps.promotions. simpl. lia.
  - rewrite promotions_cons. pose proof (promotions_nonneg acts) as P.
    cbn [Supervisor.perform].
    destruct x as [ev| | |];
      try (match goal with
           | |- context [Supervisor.say ?o s] =>
               specialize (IH (Supervisor.say o s));
               change (Supervisor.activeCount (Supervisor.say o s))
                 with (Supervisor.activeCount s) in IH
           end;
           cbv zeta in IH; cbn [SupervisorOps.isPromoted]; lia).
    pose proof (onLifecycle_count env ev
                  (Supervisor.say (Supervisor.ByDaemon a (Daemon.Emit ev)) s))
      as C.
    set (b := SupervisorOps.isPromoted (Daemon.Emit ev)) in *. clearbody b.
    destruct (Supervisor.onLifecycle env ev _) as [s1|m s1];
      cbn [bindO stateOf] in *.
    + specialize (IH s1). cbv zeta in IH.
      change (Supervisor.activeCount
                (Supervisor.say (Supervisor.ByDaemon a (Daemon.Emit ev)) s))
        with (Supervisor.activeCount s) in C.
      destruct b; lia.
    + change (Supervisor.activeCount
                (Supervisor.say (Supervisor.ByDaemon a (Daemon.Emit ev)) s))
        with (Supervisor.activeCount s) in C.
      destruct b; lia.
Qed.

Lemma approvePromotion_promotes_once (d : Daemon.t) (task : option Daemon.Task)
    (o : Daemon.SpawnOutcome) :
  SupervisorOps.promotions (snd (stateOf (Daemon.approvePromotion d task o))) <= 1.
Proof.
  unfold Daemon.approvePromotion.
  destruct (Daemon.state_eqb (Daemon.state d) Daemon.PROMOTING); simpl;
    [|unfold SupervisorOps.promotions; simpl; lia].
  destruct task as [k|]; [|destruct (Daemon.currentTask d) as [k|]];
    try (unfold SupervisorOps.promotions; simpl; lia);
    destruct o; unfold SupervisorOps.promotions; simpl; lia.
Qed.

Lemma approve_count (env : Supervisor.Env) (a : string) (e : Supervisor.Entry)
    (task : option Daemon.Task) (s : Supervisor.t) :
  let s' := stateOf (Supervisor.approve env a e task s) in
  Supervisor.activeCount s <= Supervisor.activeCount s'
  /\ Supervisor.activeCount s' <= Supervisor.activeCount s + 1.
Proof.
  unfold Supervisor.approve.
  pose proof (approvePromotion_promotes_once (Supervisor.daemon e) task
                (Supervisor.spawnProcess env
                   (Daemon.agentId (Supervisor.daemon e)))) as P.
  destruct (Daemon.approvePromotion _ _ _) as [[d acts]|m [d acts]].
  - pose proof (perform_count env a acts (Supervisor.putDaemon a e d s)) as C.
    simpl in *. lia.
  - simpl. lia.
Qed.

Lemma deny_frame (a : string) (e : Supervisor.Entry) (reason : string)
    (s : Supervisor.t) :
  let s' := Supervisor.deny a e reason s in
  Supervisor.activeCount s' = Supervisor.activeCount s
  /\ Supervisor.maxActive s' = Supervisor.maxActive s
  /\ Supervisor.promotionQueue s' = Supervisor.promotionQueue s
  /\ Supervisor.promotionsPaused s' = Supervisor.promotionsPaused s.
Proof.
  unfold Supervisor.deny.
  destruct (Daemon.denyPromotion _ _) as [d acts]. repeat split.
Qed.

Lemma handlePromoteRequest_count (env : Supervisor.Env)
    (req : Supervisor.PromoteRequest) (s : Supervisor.t) :
  Supervisor.activeCount s <= Supervisor.maxActive s ->
  let s' := stateOf (Supervisor._handlePromoteRequest env req s) in
  Supervisor.maxActive s' = Supervisor.maxActive s
  /\ Supervisor.activeCount s <= Supervisor.activeCount s'
  /\ Supervisor.activeCount s' <= Supervisor.maxActive s.
Proof.
  intros I. unfold Supervisor._handlePromoteRequest.
  destruct (Supervisor.promotionsPaused s).
  { destruct (JsMap.get _ _) as [entry|]; simpl; [|lia].
    destruct (deny_frame (Supervisor.req_agentId req) entry
                "promotions paused (budget/quota)" s) as (-> & -> & _).
    lia. }
  destruct (Z.geb_spec (Supervisor.activeCount s) (Supervisor.maxActive s))
    as [G|G]; [simpl; lia|].
  destruct (_ && _).
  { simpl. destruct (JsMap.get _ _) as [entry|]; simpl; [|lia].
    destruct (deny_frame (Supervisor.req_agentId req) entry
                "token budget exhausted"
                (Supervisor.with_promotionsPaused true s)) as (-> & -> & _).
    simpl. lia. }
  destruct (JsMap.get _ _) as [entry|]; simpl; [|lia].
  pose proof (approve_count env (Supervisor.req_agentId req) entry
                (Supervisor.req_task req) s) as C.
  destruct (approve_frame env (Supervisor.req_agentId req) entry
              (Supervisor.req_task req) s) as (_ & _ & ->).
  simpl in C. lia.
Qed.

Ltac conj_lia :=
  repeat match goal with |- _ /\ _ => split end; try reflexivity; try lia.

Lemma queueTurn_count (env : Supervisor.Env) (s : Supervisor.t) :
  let s' := stateOf (Supervisor.queueTurn env s) in
  Supervisor.maxActive s' = Supervisor.maxActive s
  /\ Supervisor.promotionsPaused s' = Supervisor.promotionsPaused s
  /\ Supervisor.activeCount s <= Supervisor.activeCount s'
  /\ Supervisor.activeCount s' <= Supervisor.activeCount s + 1.
Proof.
  unfold Supervisor.queueTurn.
  destruct (Supervisor.promotionQueue s) as [|req rest]; simpl; [conj_lia|].
  destruct (JsMap.get _ _) as [entry|]; simpl; [|conj_lia].
  destruct (Daemon.state_eqb _ _); simpl; [|conj_lia].
  pose proof (approve_count env (Supervisor.req_agentId req) entry
                (Supervisor.req_task req)
                (Supervisor.with_promotionQueue rest s)) as C.
  destruct (approve_frame env (Supervisor.req_agentId req) entry
              (Supervisor.req_task req)
              (Supervisor.with_promotionQueue rest s)) as (_ & -> & ->).
  simpl in C. simpl. conj_lia.
Qed.

Lemma queueLoop_count (env : Supervisor.Env) (n : nat) :
  forall s,
    Supervisor.activeCount s <= Supervisor.maxActive s ->
    let s' := stateOf (Supervisor.queueLoop env n s) in
    Supervisor.maxActive s' = Supervisor.maxActive s
    /\ Supervisor.promotionsPaused s' = Supervisor.promotionsPaused s
    /\ Supervisor.activeCount s <= Supervisor.activeCount s'
    /\ Supervisor.activeCount s' <= Supervisor.maxActive s.
Proof.
  induction n as [|n IH]; intros s I; simpl; [conj_lia|].
  destruct (Supervisor.queueOpen s) eqn:O; simpl; [|conj_lia].
  unfold Supervisor.queueOpen in O.
  apply andb_true_iff in O as [O _]. apply andb_true_iff in O as [_ O].
  apply Z.ltb_lt in O.
  pose proof (queueTurn_count env s) as T.
  destruct (Supervisor.queueTurn env s) as [s1|m s1]; simpl in *.
  - specialize (IH s1 ltac:(lia)). simpl in IH.
    destruct T as (T1 & T2 & T3 & T4), IH as (I1 & I2 & I3 & I4).
    rewrite I1, I2, T1, T2. conj_lia.
  - destruct T as (T1 & T2 & T3 & T4). rewrite T1, T2. conj_lia.
Qed.

(** X19. The cap holds.  If [activeCount <= maxActive], it is still so
    after a promotion request has been handled, after the promotion
    queue has been processed and after any message has been delivered
    to a daemon of the process table, whether the executor starts or
    not; none of them changes [maxActive] or lowers [activeCount]. *)
Theorem admission_never_exceeds_cap (env : Supervisor.Env) (s : Supervisor.t) :
  Supervisor.activeCount s <= Supervisor.maxActive s ->
  (forall req,
      let s' := stateOf (Supervisor._handlePromoteRequest env req s) in
      Supervisor.maxActive s' = Supervisor.maxActive s
      /\ Supervisor.activeCount s <= Supervisor.activeCount s'
      /\ Supervisor.activeCount s' <= Supervisor.maxActive s')
  /\ (let s' := stateOf (Supervisor._processPromotionQueue env s) in
      Supervisor.maxActive s' = Supervisor.maxActive s
      /\ Supervisor.activeCount s <= Supervisor.activeCount s'
      /\ Supervisor.activeCount s' <= Supervisor.maxActive s')
  /\ (forall agentId msg,
         let s' := stateOf (Supervisor.deliver env agentId msg s) in
         Supervisor.maxActive s' = Supervisor.maxActive s
         /\ Supervisor.activeCount s <= Supervisor.activeCount s'
         /\ Supervisor.activeCount s' <= Supervisor.maxActive s').
Proof.
  intros I. split; [|split].
  - intros req.
    destruct (handlePromoteRequest_count env req s I) as (A & B & C).
    simpl. rewrite A. auto.
  - destruct (queueLoop_count env (List.length (Supervisor.promotionQueue s))
                s I) as (A & _ & B & C).
    unfold Supervisor._processPromotionQueue. simpl. rewrite A. auto.
  - intros agentId msg. unfold Supervisor.deliver.
    destruct (JsMap.get agentId (Supervisor.processTable s)) as [entry|];
      [|simpl; lia].
    unfold Daemon.handleMessage.
    destruct (Daemon.state_eqb _ _); cbn [negb]; [|simpl; lia].
    destruct msg as [a task|task|ty]; try (simpl; lia).
    + destruct (String.eqb a _); [|simpl; lia].
      unfold Daemon._requestPromotion. cbn [Supervisor.perform].
      match goal with
      | |- context [Supervisor.onDaemonEvent env (Daemon.promote_request ?x ?y) ?z] =>
          pose proof (handlePromoteRequest_count env (Supervisor.mkReq x y) z I)
            as (A & B & C);
          change (Supervisor.onDaemonEvent env (Daemon.promote_request x y) z)
            with (Supervisor._handlePromoteRequest env (Supervisor.mkReq x y) z);
          destruct (Supervisor._handlePromoteRequest env (Supervisor.mkReq x y) z)
            as [s1|m1 s1]
      end; simpl in *; rewrite A; auto.
    + destruct (Daemon.matchesRole _ _); [|simpl; lia].
      destruct task as [k|]; [|simpl; lia].
      simpl. unfold Supervisor._busSend. split_cases; simpl; lia.
Qed.

(** The fleet with daemon 0 at work: one of three slots is taken. *)
Lemma cap_witness :
  Supervisor.activeCount Scenario.working <= Supervisor.maxActive Scenario.working
  /\ Supervisor.activeCount
       (stateOf (Supervisor.deliver (Scenario.world 3000) "id-swarm-builder-001"
                   (Daemon.ASSIGN "id-swarm-builder-001" (Some Scenario.task))
                   Scenario.working))
     <= 3.
Proof.
  assert (Supervisor.activeCount Scenario.working
          <= Supervisor.maxActive Scenario.working) as I
    by (vm_compute; discriminate).
  split; [exact I|].
  destruct (admission_never_exceeds_cap (Scenario.world 3000) Scenario.working I)
    as (_ & _ & D).
  destruct (D "id-swarm-builder-001"
              (Daemon.ASSIGN "id-swarm-builder-001" (Some Scenario.task)))
    as (M & _ & C).
  rewrite M in C. exact C.
Defined.

(** ** The supervisor: configuration reload *)

Lemma sameSettings_refl (s : Supervisor.t) : SupervisorOps.sameSettings s s.
Proof. repeat split. Qed.

Lemma sameSettings_trans (a b c : Supervisor.t) :
  SupervisorOps.sameSettings a b -> SupervisorOps.sameSettings b c -> SupervisorOps.sameSettings a c.
Proof. unfold SupervisorOps.sameSettings. intuition congruence. Qed.

Lemma handleCrash_settings (env : Supervisor.Env) (a m : string)
    (s : Supervisor.t) :
  SupervisorOps.sameSettings s (Supervisor._handleCrash env a m s).
Proof.
  unfold Supervisor._handleCrash. split_cases; repeat split.
Qed.

Lemma onLifecycle_settings (env : Supervisor.Env) (e : Daemon.Event)
    (s : Supervisor.t) :
  SupervisorOps.sameSettings s (stateOf (Supervisor.onLifecycle env e s)).
Proof.
  destruct e as [a|a|a st|a c r|a k|a m|a r|a p k|r|r|a|a m]; simpl;
    try (unfold Supervisor._busSend; split_cases; repeat split; fail).
  - unfold SupervisorOps.sameSettings. simpl. unfold HealthMonitor.heartbeat.
    destruct (JsMap.get _ _); repeat split.
  - unfold SupervisorOps.sameSettings. destruct (truthyOZ p); simpl; repeat split.
    unfold HealthMonitor.updatePid. destruct (JsMap.get _ _); reflexivity.
  - apply handleCrash_settings.
Qed.

Lemma perform_settings (env : Supervisor.Env) (a : string)
    (acts : list Daemon.Action) (s : Supervisor.t) :
  SupervisorOps.sameSettings s
    (stateOf (Supervisor.perform (Supervisor.onLifecycle env) a acts s)).
Proof.
  revert s. induction acts as [|x acts IH]; intros s;
    [apply sameSettings_refl|].
  cbn [Supervisor.perform].
  destruct x as [ev| | |];
    try (match goal with
         | |- context [Supervisor.say ?o s] =>
             apply (sameSettings_trans s (Supervisor.say o s));
             [repeat split|apply IH]
         end).
  pose proof (onLifecycle_settings env ev
                (Supervisor.say (Supervisor.ByDaemon a (Daemon.Emit ev)) s))
    as F.
  destruct (Supervisor.onLifecycle env ev _) as [s1|m s1];
    cbn [bindO stateOf] in *.
  - eapply sameSettings_trans; [|apply IH].
    eapply sameSettings_trans; [|exact F]. repeat split.
  - eapply sameSettings_trans; [|exact F]. repeat split.
Qed.

Lemma approve_settings (env : Supervisor.Env) (a : string)
    (e : Supervisor.Entry) (task : option Daemon.Task) (s : Supervisor.t) :
  SupervisorOps.sameSettings s (stateOf (Supervisor.approve env a e task s)).
Proof.
  unfold Supervisor.approve.
  destruct (Daemon.approvePromotion _ _ _) as [[d acts]|m [d acts]].
  - eapply sameSettings_trans;
      [|apply (perform_settings env a acts (Supervisor.putDaemon a e d s))].
    repeat split.
  - repeat split.
Qed.

Lemma queueTurn_settings (env : Supervisor.Env) (s : Supervisor.t) :
  SupervisorOps.sameSettings s (stateOf (Supervisor.queueTurn env s)).
Proof.
  unfold Supervisor.queueTurn.
  destruct (Supervisor.promotionQueue s) as [|req rest];
    [apply sameSettings_refl|].
  cbv zeta.
  destruct (JsMap.get _ _) as [entry|]; [|repeat split].
  destruct (Daemon.state_eqb _ _); [|repeat split].
  eapply sameSettings_trans; [|apply approve_settings]. repeat split.
Qed.

Lemma queueLoop_settings (env : Supervisor.Env) (n : nat) (s : Supervisor.t) :
  SupervisorOps.sameSettings s (stateOf (Supervisor.queueLoop env n s)).
Proof.
  revert s. induction n as [|n IH]; intros s; [apply sameSettings_refl|].
  cbn [Supervisor.queueLoop].
  destruct (Supervisor.queueOpen s); [|apply sameSettings_refl].
  pose proof (queueTurn_settings env s) as T.
  destruct (Supervisor.queueTurn env s) as [s1|m s1]; cbn [bindO stateOf] in *.
  - eapply sameSettings_trans; [exact T|apply IH].
  - exact T.
Qed.

Lemma queueLoop_frame (env : Supervisor.Env) (n : nat) (s : Supervisor.t) :
  let s' := stateOf (Supervisor.queueLoop env n s) in
  Supervisor.maxActive s' = Supervisor.maxActive s
  /\ Supervisor.promotionsPaused s' = Supervisor.promotionsPaused s.
Proof.
  revert s. induction n as [|n IH]; intros s; [split; reflexivity|].
  cbn [Supervisor.queueLoop].
  destruct (Supervisor.queueOpen s); [|split; reflexivity].
  pose proof (queueTurn_count env s) as (T1 & T2 & _).
  destruct (Supervisor.queueTurn env s) as [s1|m s1]; cbn [bindO stateOf] in *.
  - destruct (IH s1) as [I1 I2]. cbv zeta. split; congruence.
  - split; assumption.
Qed.

Lemma queueLoop_paused (env : Supervisor.Env) (n : nat) (s : Supervisor.t) :
  Supervisor.promotionsPaused s = true ->
  Supervisor.queueLoop env n s = Returned s.
Proof.
  intros P. destruct n as [|n]; [reflexivity|].
  cbn [Supervisor.queueLoop]. unfold Supervisor.queueOpen. rewrite P.
  now rewrite andb_false_r.
Qed.

(** X20. [reloadConfig].  The fields given replace the old ones and the
    others stay.  A new token budget lifts a pause exactly when
    [tokensUsed] is below it, so a new budget of 0 ("unlimited") or one
    not above the usage leaves promotions paused, and nothing is ever
    paused by a reload.  A new heartbeat interval does not reach the
    health monitor.  The promotion queue is then processed under the
    new limits: on return its guard is false, and while promotions stay
    paused the queue and the process table are untouched. *)
Theorem reloadConfig_applies_and_unpauses
    (env : Supervisor.Env) (c : SupervisorOps.NewConfig) (s : Supervisor.t) :
  let s' := stateOf (SupervisorOps.reloadConfig env c s) in
  Supervisor.maxActive s'
  = match SupervisorOps.new_maxActive c with
    | Some m => m
    | None => Supervisor.maxActive s
    end
  /\ Supervisor.tokenBudget s'
     = match SupervisorOps.new_tokenBudget c with
       | Some b => b
       | None => Supervisor.tokenBudget s
       end
  /\ Supervisor.heartbeatIntervalMs s'
     = match SupervisorOps.new_heartbeatIntervalMs c with
       | Some h => h
       | None => Supervisor.heartbeatIntervalMs s
       end
  /\ Supervisor.promotionsPaused s'
     = match SupervisorOps.new_tokenBudget c with
       | Some b => Supervisor.promotionsPaused s
                   && (b <=? Supervisor.tokensUsed s)
       | None => Supervisor.promotionsPaused s
       end
  /\ HealthMonitor.heartbeatIntervalMs (Supervisor.healthMonitor s')
     = HealthMonitor.heartbeatIntervalMs (Supervisor.healthMonitor s)
  /\ (forall s'',
         SupervisorOps.reloadConfig env c s = Returned s'' ->
         Supervisor.queueOpen s'' = false)
  /\ (Supervisor.promotionsPaused s' = true ->
      Supervisor.processTable s' = Supervisor.processTable s
      /\ Supervisor.promotionQueue s' = Supervisor.promotionQueue s
      /\ Supervisor.activeCount s' = Supervisor.activeCount s).
Proof.
  unfold SupervisorOps.reloadConfig.
  match goal with
  | |- context [Supervisor._processPromotionQueue env ?x] => set (s0 := x)
  end.
  assert (Supervisor.maxActive s0
          = match SupervisorOps.new_maxActive c with
            | Some m => m
            | None => Supervisor.maxActive s
            end
          /\ Supervisor.tokenBudget s0
             = match SupervisorOps.new_tokenBudget c with
               | Some b => b
               | None => Supervisor.tokenBudget s
               end
          /\ Supervisor.heartbeatIntervalMs s0
             = match SupervisorOps.new_heartbeatIntervalMs c with
               | Some h => h
               | None => Supervisor.heartbeatIntervalMs s
               end
          /\ Supervisor.promotionsPaused s0
             = match SupervisorOps.new_tokenBudget c with
               | Some b => Supervisor.promotionsPaused s
                           && (b <=? Supervisor.tokensUsed s)
               | None => Supervisor.promotionsPaused s
               end
          /\ Supervisor.healthMonitor s0 = Supervisor.healthMonitor s
          /\ Supervisor.processTable s0 = Supervisor.processTable s
          /\ Supervisor.promotionQueue s0 = Supervisor.promotionQueue s
          /\ Supervisor.activeCount s0 = Supervisor.activeCount s)
    as (A1 & A2 & A3 & A4 & A5 & A6 & A7 & A8).
  { subst s0.
    destruct c as [[m|] [b|] [h|]]; simpl;
      destruct (Supervisor.promotionsPaused s) eqn:P; simpl;
      rewrite ?Z.leb_antisym;
      try destruct (Supervisor.tokensUsed s <? b); repeat split;
      simpl; congruence. }
  clearbody s0. cbv zeta.
  unfold Supervisor._processPromotionQueue.
  pose proof (queueLoop_settings env (List.length (Supervisor.promotionQueue s0))
                s0) as (S1 & S2 & S3 & S4 & S5).
  pose proof (queueLoop_frame env (List.length (Supervisor.promotionQueue s0))
                s0) as (F1 & F2).
  cbv zeta in F1, F2.
  repeat match goal with |- _ /\ _ => split end; try congruence.
  - intros s'' R. eapply queueLoop_closed; [|exact R]. lia.
  - intros P. rewrite F2 in P.
    rewrite (queueLoop_paused env _ s0 P). simpl. auto.
Qed.

(** ** The supervisor: broadcast *)

Lemma set_same {V} (k : string) (v : V) (m : JsMap.t V) :
  JsMap.get k m = Some v -> JsMap.set k v m = m.
Proof.
  induction m as [|[k0 v0] m IH]; simpl; [discriminate|].
  destruct (String.eqb k k0) eqn:E.
  - apply String.eqb_eq in E. intros [= ->]. now subst.
  - intros G. now rewrite IH.
Qed.

Lemma putDaemon_same (a : string) (e : Supervisor.Entry) (s : Supervisor.t) :
  JsMap.get a (Supervisor.processTable s) = Some e ->
  Supervisor.putDaemon a e (Supervisor.daemon e) s = s.
Proof.
  intros G. unfold Supervisor.putDaemon.
  assert (Supervisor.with_daemon (Supervisor.daemon e) e = e) as ->
    by (now destruct e).
  rewrite (set_same _ _ _ G). now destruct s.
Qed.

Lemma deliver_available (env : Supervisor.Env) (a : string)
    (e : Supervisor.Entry) (k : Daemon.Task) (s : Supervisor.t) :
  JsMap.get a (Supervisor.processTable s) = Some e ->
  Supervisor.deliver env a (Daemon.TASK_AVAILABLE (Some k)) s
  = Returned (Supervisor.with_trace
                (Supervisor.trace s ++ SupervisorOps.claims s k (a, e)) s).
Proof.
  intros G. unfold Supervisor.deliver, SupervisorOps.claims. rewrite G.
  unfold Daemon.handleMessage. cbn [fst snd].
  destruct (Daemon.state_eqb _ _); cbn [negb andb].
  - destruct (Daemon.matchesRole _ _).
    + rewrite (putDaemon_same _ _ _ G).
      cbn [Supervisor.perform Supervisor.onDaemonEvent Supervisor.onLifecycle
           bindO].
      unfold Supervisor._busSend, Supervisor.say.
      destruct s as [? ? ? ? ? ? ? ? ? [|] ? ? ? ? ? ? ? ?]; simpl;
        rewrite <- ?app_assoc; reflexivity.
    + rewrite (putDaemon_same _ _ _ G). simpl.
      rewrite app_nil_r. now destruct s.
  - rewrite (putDaemon_same _ _ _ G). simpl.
    rewrite app_nil_r. now destruct s.
Qed.

Lemma broadcast_fold (env : Supervisor.Env) (k : Daemon.Task)
    (tbl : JsMap.t Supervisor.Entry) :
  JsMap.wf tbl ->
  forall (l : list (string * Supervisor.Entry)) (s : Supervisor.t),
    (forall kv, In kv l -> In kv tbl) ->
    Supervisor.processTable s = tbl ->
    fold_left
      (fun acc agentId =>
         bindO acc (Supervisor.deliver env agentId
                      (Daemon.TASK_AVAILABLE (Some k))))
      (map fst l) (Returned s)
    = Returned (Supervisor.with_trace
                  (Supervisor.trace s ++ flat_map (SupervisorOps.claims s k) l)
                  s).
Proof.
  intros W l. induction l as [|[a e] l IH]; intros s I T.
  - simpl. rewrite app_nil_r. now destruct s.
  - cbn [map fst fold_left bindO].
    assert (JsMap.get a (Supervisor.processTable s) = Some e) as G.
    { rewrite T. apply In_get; [exact W|]. apply I. now left. }
    rewrite (deliver_available env a e k s G).
    rewrite IH; [|intros kv H; apply I; now right|exact T].
    cbn [flat_map]. f_equal.
    destruct s; simpl. now rewrite <- app_assoc.
Qed.

(** X21. A broadcast promotes nobody.  [broadcastTask] of a task
    returns, and all it does is record the send (on a connected bus)
    and, for each daemon of the process table in order that is idle and
    whose role matches, the daemon's [claim] with the [CLAIM] sent on
    for it; the process table, the counters and the queue are as
    before. *)
Theorem broadcast_only_collects_claims
    (env : Supervisor.Env) (k : Daemon.Task) (s : Supervisor.t) :
  JsMap.wf (Supervisor.processTable s) ->
  let s0 := Supervisor._busSend "TASK_AVAILABLE" "" s in
  SupervisorOps.broadcastTask env (Some k) s
  = Returned
      (Supervisor.with_trace
         (Supervisor.trace s0
          ++ flat_map (SupervisorOps.claims s k) (Supervisor.processTable s))
         s).
Proof.
  intros W s0. unfold SupervisorOps.broadcastTask. fold s0.
  assert (Supervisor.processTable s0 = Supervisor.processTable s) as T.
  { subst s0. unfold Supervisor._busSend.
    destruct (Supervisor.busConnected s); reflexivity. }
  unfold JsMap.keys. rewrite T.
  rewrite (broadcast_fold env k (Supervisor.processTable s) W
             (Supervisor.processTable s) s0 (fun kv H => H) T).
  f_equal. subst s0. unfold Supervisor._busSend.
  destruct s as [? ? ? ? ? ? ? ? ? [|] ? ? ? ? ? ? ? ?]; reflexivity.
Qed.

(** The fleet with daemon 0 at work: daemons 1 and 2 claim a builder
    task, daemon 0 does not, and nothing is sent on a bus that is not
    connected. *)
Lemma broadcast_witness :
  JsMap.wf (Supervisor.processTable Scenario.working)
  /\ Supervisor.trace
       (stateOf (SupervisorOps.broadcastTask (Scenario.world 3000)
                   (Some Scenario.task) Scenario.working))
     = Supervisor.trace Scenario.working
       ++ [Supervisor.ByDaemon "id-swarm-builder-001"
             (Daemon.Emit (Daemon.claim "id-swarm-builder-001"
                             (Some "parser") "builder"));
           Supervisor.ByDaemon "id-swarm-builder-002"
             (Daemon.Emit (Daemon.claim "id-swarm-builder-002"
                             (Some "parser") "builder"))].
Proof.
  assert (JsMap.wf (Supervisor.processTable Scenario.working)) as W.
  { unfold JsMap.wf. simpl.
    repeat (constructor; [simpl; intuition discriminate|]). constructor. }
  split; [exact W|].
  rewrite (broadcast_only_collects_claims (Scenario.world 3000) Scenario.task
             Scenario.working W).
  vm_compute. reflexivity.
Defined.

(** ** The supervisor: the end of a task *)

Lemma approve_spawned_others (env : Supervisor.Env) (s : Supervisor.t)
    (agentId : string) (e : Supervisor.Entry) (k : Daemon.Task)
    (child : Daemon.ChildProcess) (other : string) :
  Daemon.state (Supervisor.daemon e) = Daemon.PROMOTING ->
  Supervisor.spawnProcess env (Daemon.agentId (Supervisor.daemon e))
  = Daemon.Spawned child ->
  agentId <> other ->
  JsMap.get other
    (Supervisor.processTable
       (stateOf (Supervisor.approve env agentId e (Some k) s)))
  = JsMap.get other (Supervisor.processTable s)
  /\ Supervisor.maxActive (stateOf (Supervisor.approve env agentId e (Some k) s))
     = Supervisor.maxActive s.
Proof.
  intros P S N. unfold Supervisor.approve, Daemon.approvePromotion.
  rewrite S, P. sup_red.
  destruct (truthyOZ (Daemon.pid child)); sup_red;
    (split; [now apply get_set_other|reflexivity]).
Qed.

(** X22. The freed slot goes to the head of the queue.  When the
    executor of a daemon exits while the swarm is at its cap, promotions
    are not paused, and the request at the head of the queue is that of
    another daemon which is still [promoting] and whose executor
    starts: the first daemon is back to [idle] with no task and its
    heartbeat re-armed, the queued daemon is [active] on its task, the
    request has left the queue and [activeCount] is what it was. *)
Theorem task_end_promotes_head_of_queue
    (env : Supervisor.Env) (s : Supervisor.t) (a b : string)
    (entry eb : Supervisor.Entry) (code : option Z) (signal : option string)
    (stdout : string) (k : Daemon.Task) (rest : list Supervisor.PromoteRequest)
    (child : Daemon.ChildProcess) :
  JsMap.get a (Supervisor.processTable s) = Some entry ->
  JsMap.get b (Supervisor.processTable s) = Some eb ->
  a <> b ->
  0 < Supervisor.maxActive s ->
  Supervisor.activeCount s = Supervisor.maxActive s ->
  Supervisor.promotionsPaused s = false ->
  Supervisor.promotionQueue s = Supervisor.mkReq b (Some k) :: rest ->
  Daemon.state (Supervisor.daemon eb) = Daemon.PROMOTING ->
  Supervisor.spawnProcess env (Daemon.agentId (Supervisor.daemon eb))
  = Daemon.Spawned child ->
  exists s' ea' eb',
    SupervisorOps.childExit env a entry code signal stdout s = Returned s'
    /\ JsMap.get a (Supervisor.processTable s') = Some ea'
    /\ Daemon.state (Supervisor.daemon ea') = Daemon.IDLE
    /\ Daemon.currentTask (Supervisor.daemon ea') = None
    /\ Daemon.claudeProcess (Supervisor.daemon ea') = None
    /\ Daemon._heartbeatTimer (Supervisor.daemon ea') = true
    /\ JsMap.get b (Supervisor.processTable s') = Some eb'
    /\ Daemon.state (Supervisor.daemon eb') = Daemon.ACTIVE
    /\ Daemon.currentTask (Supervisor.daemon eb') = Some k
    /\ Daemon.claudeProcess (Supervisor.daemon eb') = Some child
    /\ Supervisor.promotionQueue s' = rest
    /\ Supervisor.activeCount s' = Supervisor.activeCount s.
Proof.
  intros Ga Gb N M C P Q Pb Sb.
  unfold SupervisorOps.childExit, Daemon.onChildExit, Daemon._handleClaudeExit.
  cbv zeta. cbn [Supervisor.perform].
  set (d1 := Daemon._startHeartbeat _).
  set (s1 := Supervisor.say _ (Supervisor.putDaemon a entry d1 s)).
  set (ev := if match code with Some 0 => true | _ => false end
             then Daemon.done _ else Daemon.fail _).
  set (s2 := Supervisor.say (Supervisor.ByDaemon a (Daemon.Emit ev)) s1).
  assert (exists s3,
             Supervisor.onDaemonEvent env ev s2 = Returned s3
             /\ Supervisor.processTable s3 = Supervisor.processTable s2
             /\ Supervisor.promotionQueue s3 = Supervisor.promotionQueue s2
             /\ Supervisor.activeCount s3 = Supervisor.activeCount s2
             /\ Supervisor.maxActive s3 = Supervisor.maxActive s2
             /\ Supervisor.promotionsPaused s3 = Supervisor.promotionsPaused s2)
    as (s3 & E3 & T3 & Q3 & A3 & M3 & P3).
  { subst ev. destruct (match code with Some 0 => true | _ => false end);
      cbn [Supervisor.onDaemonEvent Supervisor.onLifecycle];
      eexists; (split; [reflexivity|]);
      unfold Supervisor._busSend, Supervisor._log, Supervisor.say;
      destruct (Supervisor.busConnected _); repeat split. }
  rewrite E3. cbn [bindO Supervisor.onDaemonEvent].
  set (s4 := Supervisor._log "agent_demoted" _ _).
  assert (Supervisor.processTable s4
          = JsMap.set a (Supervisor.with_daemon d1 entry)
                      (Supervisor.processTable s)
          /\ Supervisor.promotionQueue s4 = Supervisor.mkReq b (Some k) :: rest
          /\ Supervisor.activeCount s4 = Supervisor.activeCount s - 1
          /\ Supervisor.maxActive s4 = Supervisor.maxActive s
          /\ Supervisor.promotionsPaused s4 = false)
    as (T4 & Q4 & A4 & M4 & P4).
  { subst s4. cbn [Supervisor._log Supervisor.say Supervisor.with_trace
                   Supervisor.with_activeCount Supervisor.processTable
                   Supervisor.promotionQueue Supervisor.activeCount
                   Supervisor.maxActive Supervisor.promotionsPaused
                   Supervisor.trace].
    rewrite T3, Q3, A3, M3, P3. subst s2 s1.
    cbn [Supervisor.say Supervisor.with_trace Supervisor.putDaemon
         Supervisor.with_processTable Supervisor.processTable
         Supervisor.promotionQueue Supervisor.activeCount
         Supervisor.maxActive Supervisor.promotionsPaused].
    rewrite Q, P. repeat split. lia. }
  clearbody s4. clear E3 T3 Q3 A3 M3 P3 s3 s2 s1 ev.
  unfold Supervisor._processPromotionQueue. rewrite Q4.
  cbn [List.length Supervisor.queueLoop].
  assert (Supervisor.queueOpen s4 = true) as O4.
  { unfold Supervisor.queueOpen. rewrite Q4, A4, M4, P4. simpl.
    rewrite andb_true_r. apply Z.ltb_lt. lia. }
  rewrite O4. unfold Supervisor.queueTurn. rewrite Q4.
  cbv zeta. cbn [Supervisor.req_agentId Supervisor.req_task].
  set (s5 := Supervisor.with_promotionQueue rest s4).
  assert (JsMap.get b (Supervisor.processTable s5) = Some eb) as G5.
  { subst s5. cbn [Supervisor.with_promotionQueue Supervisor.processTable].
    rewrite T4, get_set_other by exact N. exact Gb. }
  rewrite G5, Pb. cbn [Daemon.state_eqb].
  destruct (approve_spawned env s5 b eb k child Pb Sb)
    as (s6 & eb' & E6 & G6 & St6 & Ta6 & Ch6 & A6 & Q6 & P6 & _).
  destruct (approve_spawned_others env s5 b eb k child a Pb Sb
              ltac:(congruence)) as [O6 M6].
  rewrite E6 in O6, M6. cbn [stateOf] in O6, M6.
  rewrite E6. cbn [bindO].
  assert (Supervisor.queueLoop env (List.length rest) s6 = Returned s6) as L6.
  { destruct (List.length rest); [reflexivity|].
    cbn [Supervisor.queueLoop]. unfold Supervisor.queueOpen.
    rewrite A6, M6. subst s5.
    cbn [Supervisor.with_promotionQueue Supervisor.activeCount
         Supervisor.maxActive].
    rewrite A4, M4.
    assert ((Supervisor.activeCount s - 1 + 1 <? Supervisor.maxActive s) = false)
      as -> by (apply Z.ltb_ge; lia).
    now rewrite andb_false_r. }
  rewrite L6. cbn [bindO Supervisor.perform].
  exists s6, (Supervisor.with_daemon d1 entry), eb'.
  split; [reflexivity|].
  split.
  { rewrite O6. subst s5.
    cbn [Supervisor.with_promotionQueue Supervisor.processTable].
    rewrite T4. apply get_set_same. }
  repeat match goal with |- _ /\ _ => split end; try reflexivity; auto.
  - rewrite A6. subst s5.
    cbn [Supervisor.with_promotionQueue Supervisor.activeCount]. lia.
Qed.

(** Daemon 0 finishes while daemon 1 waits in the queue of a swarm
    capped at one active agent. *)
Lemma task_end_witness :
  Supervisor.activeCount Cases.waiting = Supervisor.maxActive Cases.waiting
  /\ Supervisor.promotionQueue Cases.waiting
     = [Supervisor.mkReq "id-swarm-builder-001" (Some Scenario.task)]
  /\ exists s' e1,
      SupervisorOps.childExit (Scenario.world 2700) "id-swarm-builder-000"
        Cases.worker0 (Some 0) None "ok" Cases.waiting = Returned s'
      /\ JsMap.get "id-swarm-builder-001" (Supervisor.processTable s') = Some e1
      /\ Daemon.state (Supervisor.daemon e1) = Daemon.ACTIVE
      /\ Supervisor.promotionQueue s' = []
      /\ Supervisor.activeCount s' = 1.
Proof.
  split; [reflexivity|]. split; [reflexivity|].
  destruct (task_end_promotes_head_of_queue (Scenario.world 2700)
              Cases.waiting "id-swarm-builder-000" "id-swarm-builder-001"
              Cases.worker0 Cases.waiter1 (Some 0) None "ok" Scenario.task []
              Cases.child eq_refl eq_refl ltac:(discriminate) eq_refl eq_refl
              eq_refl eq_refl eq_refl eq_refl)
    as (s' & e0 & e1 & R & _ & _ & _ & _ & _ & G1 & A1 & _ & _ & Q & C).
  exists s', e1. repeat split; assumption.
Defined.

(** ** The supervisor: shutdown *)

Lemma stop_daemons_fold (l : list (string * Supervisor.Entry)) :
  forall s : Supervisor.t,
  exists m' t',
    fold_left
      (fun s kv =>
         let '(d, acts) := Daemon.stop (Supervisor.daemon (snd kv)) in
         Supervisor.with_healthMonitor
           (HealthMonitor.unregister (Supervisor.healthMonitor s) (fst kv))
           (Supervisor.noteActions (fst kv) acts s))
      l s
    = Supervisor.with_trace t'
        (Supervisor.with_healthMonitor
           (HealthMonitor.with_agents m' (Supervisor.healthMonitor s)) s)
    /\ forall a,
        In a (map fst l)
        \/ JsMap.get a (HealthMonitor.agents (Supervisor.healthMonitor s)) = None ->
        JsMap.get a m' = None.
Proof.
  induction l as [|[k e] l IH]; intros s.
  - exists (HealthMonitor.agents (Supervisor.healthMonitor s)), (Supervisor.trace s).
    split; [|intros a [[]|H]; exact H].
    simpl. destruct s as [? ? ? ? ? ? ? ? h ? ? ? ? ? ? ? ? ?].
    now destruct h.
  - cbn [fold_left]. cbn [fst snd].
    destruct (Daemon.stop (Supervisor.daemon e)) as [d acts].
    destruct (IH (Supervisor.with_healthMonitor
                    (HealthMonitor.unregister (Supervisor.healthMonitor s) k)
                    (Supervisor.noteActions k acts s))) as (m' & t' & E & H).
    exists m', t'. split.
    + rewrite E. reflexivity.
    + intros a A. apply H. simpl.
      destruct (String.eqb k a) eqn:K.
      * apply String.eqb_eq in K. subst a. right. apply get_delete_same.
      * apply String.eqb_neq in K. destruct A as [[A|A]|A].
        -- contradiction.
        -- now left.
        -- right. now rewrite get_delete_other.
Qed.

Lemma teardown_keeps_gone (sp : Spawner.t) (k a ws : string) :
  JsMap.get a (Spawner.workspaces sp) = None ->
  Spawner.existsSync sp ws = false ->
  let sp' := fst (Spawner.teardown sp k true) in
  JsMap.get a (Spawner.workspaces sp') = None
  /\ Spawner.existsSync sp' ws = false.
Proof.
  intros G X. unfold Spawner.teardown. cbn [negb].
  destruct (JsMap.get k (Spawner.workspaces sp)) as [w|] eqn:W; [|now split].
  destruct (truthyS w); cbn [negb]; [|now split].
  assert (JsMap.get a (JsMap.delete k (Spawner.workspaces sp)) = None) as D.
  { destruct (String.eqb k a) eqn:K.
    - apply String.eqb_eq in K. subst a. apply get_delete_same.
    - apply String.eqb_neq in K. now rewrite get_delete_other. }
  destruct (Spawner.existsSync sp w); cbn [negb fst Spawner.workspaces];
    (split; [exact D|]).
  - unfold Spawner.existsSync in *. cbn [Spawner.disk].
    rewrite existsb_remove, X. reflexivity.
  - exact X.
Qed.

Lemma teardown_removes (sp : Spawner.t) (a ws : string) :
  JsMap.get a (Spawner.workspaces sp) = Some ws ->
  ws <> "" ->
  let sp' := fst (Spawner.teardown sp a true) in
  JsMap.get a (Spawner.workspaces sp') = None
  /\ Spawner.existsSync sp' ws = false.
Proof.
  intros G N. unfold Spawner.teardown. cbn [negb]. rewrite G.
  assert (truthyS ws = true) as ->
    by (unfold truthyS; apply negb_true_iff; now apply String.eqb_neq).
  cbn [negb].
  destruct (Spawner.existsSync sp ws) eqn:X; cbn [negb fst Spawner.workspaces];
    (split; [apply get_delete_same|]).
  - unfold Spawner.existsSync. cbn [Spawner.disk].
    rewrite existsb_remove, String.eqb_refl. simpl. apply andb_false_r.
  - exact X.
Qed.

Lemma teardown_other (sp : Spawner.t) (k a : string) :
  k <> a ->
  JsMap.get a (Spawner.workspaces (fst (Spawner.teardown sp k true)))
  = JsMap.get a (Spawner.workspaces sp).
Proof.
  intros N. unfold Spawner.teardown. cbn [negb].
  destruct (JsMap.get k (Spawner.workspaces sp)) as [w|]; [|reflexivity].
  destruct (truthyS w); cbn [negb]; [|reflexivity].
  destruct (Spawner.existsSync sp w); cbn [negb fst Spawner.workspaces];
    now apply get_delete_other.
Qed.

Lemma teardown_all_fold (l : list (string * Supervisor.Entry)) :
  forall s : Supervisor.t,
  exists sp' t',
    fold_left
      (fun s kv =>
         Supervisor.say (Supervisor.Teardown (fst kv))
           (Supervisor.with_spawner
              (fst (Spawner.teardown (Supervisor.spawner s) (fst kv) true)) s))
      l s
    = Supervisor.with_trace t' (Supervisor.with_spawner sp' s)
    /\ forall a ws,
        ws <> "" ->
        (JsMap.get a (Spawner.workspaces (Supervisor.spawner s)) = None
         /\ Spawner.existsSync (Supervisor.spawner s) ws = false ->
         JsMap.get a (Spawner.workspaces sp') = None
         /\ Spawner.existsSync sp' ws = false)
        /\ (JsMap.get a (Spawner.workspaces (Supervisor.spawner s)) = Some ws ->
            In a (map fst l) ->
            JsMap.get a (Spawner.workspaces sp') = None
            /\ Spawner.existsSync sp' ws = false).
Proof.
  induction l as [|[k e] l IH]; intros s.
  - exists (Supervisor.spawner s), (Supervisor.trace s).
    split; [simpl; now destruct s|]. intros a ws N. split; [auto|intros _ []].
  - cbn [fold_left fst].
    destruct (IH (Supervisor.say (Supervisor.Teardown k)
                    (Supervisor.with_spawner
                       (fst (Spawner.teardown (Supervisor.spawner s) k true)) s)))
      as (sp' & t' & E & H).
    cbn [Supervisor.say Supervisor.with_trace Supervisor.with_spawner
         Supervisor.spawner] in H.
    exists sp', t'. split; [rewrite E; reflexivity|].
    intros a ws N. destruct (H a ws N) as [Gone Here]. split.
    + intros [G X]. apply Gone.
      now apply teardown_keeps_gone.
    + intros G I. destruct (String.eqb k a) eqn:K.
      * apply String.eqb_eq in K. subst k. apply Gone.
        now apply teardown_removes.
      * apply String.eqb_neq in K. apply Here.
        -- now rewrite teardown_other.
        -- destruct I as [I|I]; [contradiction|exact I].
Qed.

Lemma stop_when_stopped (s : Supervisor.t) :
  Supervisor.running s = false -> Supervisor.stop s = s.
Proof. intros R. unfold Supervisor.stop. now rewrite R. Qed.

Lemma restartCallback_when_stopped (env : Supervisor.Env) (a : string)
    (e : Supervisor.Entry) (s : Supervisor.t) :
  Supervisor.running s = false ->
  Supervisor.restartCallback env a e s = Returned s.
Proof. intros R. unfold Supervisor.restartCallback. now rewrite R. Qed.

Lemma stop_shape (s : Supervisor.t) :
  Supervisor.running s = true ->
  exists m' sp' t',
    Supervisor.stop s
    = Supervisor.mk (Supervisor.maxActive s) (Supervisor.role s)
        (Supervisor.channels s) (Supervisor.tokenBudget s)
        (Supervisor.tokensUsed s) (Supervisor.heartbeatIntervalMs s)
        (Supervisor.persist s) sp'
        (HealthMonitor.with_agents m'
           (HealthMonitor.stop (Supervisor.healthMonitor s)))
        false [] [] 0 (Supervisor.promotionsPaused s) false
        (Supervisor.startedAt s) (Supervisor.timers s) t'
    /\ (forall a,
           In a (JsMap.keys (Supervisor.processTable s)) ->
           JsMap.get a m' = None)
    /\ (Supervisor.persist s = true -> sp' = Supervisor.spawner s)
    /\ (Supervisor.persist s = false ->
        forall a ws,
          In a (JsMap.keys (Supervisor.processTable s)) ->
          JsMap.get a (Spawner.workspaces (Supervisor.spawner s)) = Some ws ->
          ws <> "" ->
          JsMap.get a (Spawner.workspaces sp') = None
          /\ Spawner.existsSync sp' ws = false).
Proof.
  intros R. cbv beta delta [Supervisor.stop]. rewrite R. cbn [negb]. cbv zeta.
  set (s1 := Supervisor.with_healthMonitor _ _).
  set (s2 := if Supervisor.busConnected s1 then _ else s1).
  assert (s2 = Supervisor.with_trace (Supervisor.trace s2)
                 (Supervisor.with_busConnected false s1)) as E2.
  { subst s2. destruct s1 as [? ? ? ? ? ? ? ? ? [|] ? ? ? ? ? ? ? ?];
      reflexivity. }
  destruct (stop_daemons_fold (Supervisor.processTable s2) s2)
    as (m' & t' & E & H).
  rewrite E. clear E.
  set (s3 := Supervisor.with_trace t' _).
  assert (Supervisor.persist s3 = Supervisor.persist s) as P3
    by (subst s3; rewrite E2; reflexivity).
  assert (Supervisor.processTable s3 = Supervisor.processTable s) as T3
    by (subst s3; rewrite E2; reflexivity).
  assert (Supervisor.processTable s2 = Supervisor.processTable s) as T2
    by (rewrite E2; reflexivity).
  rewrite T2 in H.
  assert (Supervisor.spawner s3 = Supervisor.spawner s) as S3
    by (subst s3; rewrite E2; reflexivity).
  rewrite P3, T3.
  destruct (Supervisor.persist s) eqn:P; cbn [negb].
  - exists m', (Supervisor.spawner s).
    eexists. split.
    + subst s3. rewrite E2. subst s1. clearbody s2.
      pose proof P as P'. cbv beta delta [Supervisor.persist] in P'.
      sup_red. rewrite ?P'. reflexivity.
    + split; [intros a A; apply H; now left|].
      split; [reflexivity|discriminate].
  - destruct (teardown_all_fold (Supervisor.processTable s) s3)
      as (sp' & t2 & E & Hsp).
    rewrite E. clear E.
    exists m', sp'. eexists. split.
    + subst s3. rewrite E2. subst s1. clearbody s2.
      pose proof P as P'. cbv beta delta [Supervisor.persist] in P'.
      sup_red. rewrite ?P'. reflexivity.
    + split; [intros a A; apply H; now left|].
      split; [discriminate|].
      intros _ a ws A G N. destruct (Hsp a ws N) as [_ Here].
      apply Here; [rewrite S3; exact G|exact A].
Qed.

(** X23. Shutdown.  [stop] on a running supervisor leaves it not
    running, off the bus, with an empty process table and queue and
    [activeCount] 0; the health monitor knows none of the agents any
    more.  With [persist] the spawner is untouched; without it, every
    agent's tracked workspace is gone from disk and from the tracked
    set.  A second [stop] does nothing, and a restart timer that fires
    afterwards does nothing either. *)
Theorem stop_shuts_everything_down (s : Supervisor.t) :
  Supervisor.running s = true ->
  let s' := Supervisor.stop s in
  Supervisor.running s' = false
  /\ Supervisor.busConnected s' = false
  /\ Supervisor.processTable s' = []
  /\ Supervisor.promotionQueue s' = []
  /\ Supervisor.activeCount s' = 0
  /\ (forall a,
         In a (JsMap.keys (Supervisor.processTable s)) ->
         JsMap.get a (HealthMonitor.agents (Supervisor.healthMonitor s')) = None)
  /\ (Supervisor.persist s = true -> Supervisor.spawner s' = Supervisor.spawner s)
  /\ (Supervisor.persist s = false ->
      forall a ws,
        In a (JsMap.keys (Supervisor.processTable s)) ->
        JsMap.get a (Spawner.workspaces (Supervisor.spawner s)) = Some ws ->
        ws <> "" ->
        JsMap.get a (Spawner.workspaces (Supervisor.spawner s')) = None
        /\ Spawner.existsSync (Supervisor.spawner s') ws = false)
  /\ Supervisor.stop s' = s'
  /\ forall env a e, Supervisor.restartCallback env a e s' = Returned s'.
Proof.
  intros R s'.
  destruct (stop_shape s R) as (m' & sp' & t' & E & Hm & Hp & Hn).
  assert (Supervisor.running s' = false) as R'
    by (subst s'; rewrite E; reflexivity).
  subst s'.
  repeat match goal with |- _ /\ _ => split end;
    try (now apply stop_when_stopped);
    try (intros; now apply restartCallback_when_stopped);
    rewrite E; try reflexivity.
  - exact Hm.
  - exact Hp.
  - exact Hn.
Qed.

(** The fleet with daemon 0 at work is stopped. *)
Lemma stop_witness :
  Supervisor.running Scenario.working = true
  /\ Supervisor.processTable (Supervisor.stop Scenario.working) = []
  /\ Supervisor.activeCount (Supervisor.stop Scenario.working) = 0
  /\ Spawner.existsSync (Supervisor.spawner (Supervisor.stop Scenario.working))
       "/ws/swarm-builder-000" = false.
Proof.
  split; [reflexivity|].
  destruct (stop_shuts_everything_down Scenario.working eq_refl)
    as (_ & _ & T & _ & A & _ & _ & W & _).
  split; [exact T|]. split; [exact A|].
  exact (proj2 (W eq_refl "id-swarm-builder-000" "/ws/swarm-builder-000"
                  ltac:(vm_compute; tauto) eq_refl ltac:(discriminate))).
Defined.

(** ** The supervisor: scaling up *)

(** X24. Scaling up names the new slots from the current size of the
    process table.  If the workspace of the first such name is already
    on disk, which is the case after a scale-down has removed a
    lower-numbered slot, [scale] throws "Workspace already exists" and
    adds nothing. *)
Theorem scale_up_refused_on_name_collision
    (env : Supervisor.Env) (s : Supervisor.t) (target : Z) :
  Supervisor.running s = true ->
  JsMap.size (Supervisor.processTable s) < target ->
  let name := Supervisor.slotName s (JsMap.size (Supervisor.processTable s)) in
  let ws := Spawner.join (Spawner.basePath (Supervisor.spawner s)) name in
  Spawner.existsSync (Supervisor.spawner s) ws = true ->
  Supervisor.scale env target s
  = Thrown ("Workspace already exists: " ++ ws)%string (s, None).
Proof.
  intros R L name ws X. unfold Supervisor.scale. rewrite R. cbn [negb].
  assert (0 <= JsMap.size (Supervisor.processTable s)) as Z0
    by (unfold JsMap.size; lia).
  assert ((target =? 0) = false) as -> by (apply Z.eqb_neq; lia).
  assert ((target >? JsMap.size (Supervisor.processTable s)) = true) as ->
    by (apply Z.gtb_lt; lia).
  cbv zeta.
  destruct (Z.to_nat (target - JsMap.size (Supervisor.processTable s)))
    as [|n] eqn:N; [lia|].
  cbn [Supervisor.scaleUp]. unfold Supervisor._spawnDaemon, Spawner.spawn.
  fold name.
  assert (truthyS name = true) as -> by reflexivity.
  cbn [negb]. fold ws. rewrite X. reflexivity.
Qed.

(** The fleet of three scaled down to two and then up to three again:
    the new slot would be "swarm-builder-002", which is still there. *)
Lemma scale_up_collision_witness :
  Supervisor.running Cases.shrunk = true
  /\ JsMap.keys (Supervisor.processTable Cases.shrunk)
     = ["id-swarm-builder-001"; "id-swarm-builder-002"]
  /\ Supervisor.scale (Scenario.world 4000) 3 Cases.shrunk
     = Thrown "Workspace already exists: /ws/swarm-builder-002"
              (Cases.shrunk, None).
Proof.
  split; [reflexivity|]. split; [reflexivity|].
  exact (scale_up_refused_on_name_collision (Scenario.world 4000) Cases.shrunk 3
           eq_refl eq_refl eq_refl).
Defined.

(** ** The in-process message bus *)

Lemma accepts_received (b : MessageBus.Bus) (m : MessageBus.Msg)
    (r : list MessageBus.Msg) :
  MessageBus.accepts
    (MessageBus.mkBus (MessageBus.agentId b) (MessageBus.connected b)
                      (MessageBus.channels b) (MessageBus._hubListener b) r) m
  = MessageBus.accepts b m.
Proof. reflexivity. Qed.

Lemma emit_fold (m : MessageBus.Msg) (ls : list (string * nat)) :
  forall (w : MessageBus.Hub),
    let w' := fold_left (fun w l => MessageBus.hubListener (fst l) m w) ls w in
    MessageBus.listeners w' = MessageBus.listeners w
    /\ MessageBus.nextListener w' = MessageBus.nextListener w
    /\ forall h b,
        JsMap.get h (MessageBus.buses w) = Some b ->
        JsMap.get h (MessageBus.buses w')
        = Some (MessageBus.mkBus (MessageBus.agentId b) (MessageBus.connected b)
                  (MessageBus.channels b) (MessageBus._hubListener b)
                  (MessageBus.received b
                   ++ (if MessageBus.accepts b m
                       then repeat m
                              (List.length
                                 (filter (fun l => String.eqb (fst l) h) ls))
                       else []))).
Proof.
  induction ls as [|[hl n] ls IH]; intros w.
  - simpl. split; [reflexivity|]. split; [reflexivity|].
    intros h b G. rewrite G. f_equal. destruct b; simpl.
    destruct (MessageBus.accepts _ _); now rewrite app_nil_r.
  - cbn [fold_left fst].
    destruct (IH (MessageBus.hubListener hl m w)) as (L & X & D).
    assert (MessageBus.listeners (MessageBus.hubListener hl m w)
            = MessageBus.listeners w
            /\ MessageBus.nextListener (MessageBus.hubListener hl m w)
               = MessageBus.nextListener w) as [L0 X0].
    { unfold MessageBus.hubListener.
      destruct (JsMap.get hl _) as [bl|]; [|now split].
      destruct (MessageBus.accepts bl m); now split. }
    cbv zeta. split; [congruence|]. split; [congruence|].
    intros h b G. cbn [filter fst].
    destruct (String.eqb hl h) eqn:E.
    + apply String.eqb_eq in E. subst hl.
      destruct (MessageBus.accepts b m) eqn:A.
      * assert (MessageBus.hubListener h m w
                = MessageBus.with_bus h
                    (MessageBus.mkBus (MessageBus.agentId b)
                       (MessageBus.connected b) (MessageBus.channels b)
                       (MessageBus._hubListener b)
                       (MessageBus.received b ++ [m])) w) as Hh
          by (unfold MessageBus.hubListener; now rewrite G, A).
        rewrite Hh in D |- *.
        rewrite (D h _ (get_set_same _ _ _)). cbn.
        rewrite accepts_received, A. rewrite <- app_assoc. reflexivity.
      * assert (MessageBus.hubListener h m w = w) as Hh
          by (unfold MessageBus.hubListener; now rewrite G, A).
        rewrite Hh in D |- *. rewrite (D h b G), A. reflexivity.
    + apply String.eqb_neq in E. apply D.
      unfold MessageBus.hubListener.
      destruct (JsMap.get hl _) as [bl|]; [|exact G].
      destruct (MessageBus.accepts bl m); [|exact G].
      cbn. now rewrite get_set_other.
Qed.

(** X25. Who gets a message.  [send] on a connected bus returns, and
    every bus on the hub emits the message once per hub listener it
    holds if it accepts it, and not at all otherwise: a channel message
    (target starting with "#") is accepted by the buses that joined the
    channel and whose agent id differs from the sender's, a direct
    message by the bus whose id follows the "@".  Nothing else about a
    bus changes, and the sender's own bus accepts only a message
    addressed to its own "@id". *)
Theorem send_reaches_the_addressees
    (now : Z) (handle target content : string) (w : MessageBus.Hub)
    (b : MessageBus.Bus) :
  JsMap.get handle (MessageBus.buses w) = Some b ->
  MessageBus.connected b = true ->
  let m := MessageBus.mkMsg (MessageBus.agentId b) target content now in
  exists w',
    MessageBus.send now handle target content w = Returned w'
    /\ MessageBus.listeners w' = MessageBus.listeners w
    /\ (forall h x,
           JsMap.get h (MessageBus.buses w) = Some x ->
           JsMap.get h (MessageBus.buses w')
           = Some (MessageBus.mkBus (MessageBus.agentId x)
                     (MessageBus.connected x) (MessageBus.channels x)
                     (MessageBus._hubListener x)
                     (MessageBus.received x
                      ++ (if MessageBus.accepts x m
                          then repeat m (MessageBus.listening h w)
                          else []))))
    /\ MessageBus.accepts b m
       = String.eqb target ("@" ++ MessageBus.agentId b).
Proof.
  intros G C m. unfold MessageBus.send. rewrite G, C. cbn [negb].
  eexists. split; [reflexivity|].
  destruct (emit_fold m (MessageBus.listeners w) w) as (L & _ & D).
  split; [exact L|]. split; [exact D|].
  unfold MessageBus.accepts. subst m. cbn [MessageBus.msg_to MessageBus.msg_from].
  rewrite String.eqb_refl. cbn [negb].
  destruct (MessageBus.startsWithHash target) eqn:H; cbn [andb].
  - destruct (existsb _ _); [|reflexivity].
    symmetry. apply String.eqb_neq. intros ->. discriminate.
  - reflexivity.
Qed.

Lemma removeListener_last (handle : string) (n : nat)
    (l : list (string * nat)) :
  MessageBus.removeListener handle n (l ++ [(handle, n)]) = l.
Proof.
  unfold MessageBus.removeListener. rewrite rev_app_distr. simpl.
  unfold MessageBus.isListener. simpl.
  rewrite String.eqb_refl, Nat.eqb_refl. simpl. apply rev_involutive.
Qed.

(** X26. The life of a connection.  [send] on a bus that is not
    connected throws "Not connected" and delivers nothing.  [connect]
    followed by [disconnect] leaves the hub's listeners as they were
    and the bus not connected, with no channel: it has to join again
    after a reconnect.  But [disconnect] removes only the listener of
    the last [connect]: after two [connect]s and one [disconnect] the
    bus, though no longer connected, still holds a hub listener. *)
Theorem connection_life_cycle
    (handle : string) (w : MessageBus.Hub) (b : MessageBus.Bus) :
  JsMap.get handle (MessageBus.buses w) = Some b ->
  let gone := MessageBus.mkBus (MessageBus.agentId b) false [] None
                               (MessageBus.received b) in
  let once := MessageBus.disconnect handle (MessageBus.connect handle w) in
  let twice :=
    MessageBus.disconnect handle
      (MessageBus.connect handle (MessageBus.connect handle w)) in
  (MessageBus.connected b = false ->
   forall now target content,
     MessageBus.send now handle target content w = Thrown "Not connected" w)
  /\ MessageBus.listeners once = MessageBus.listeners w
  /\ JsMap.get handle (MessageBus.buses once) = Some gone
  /\ JsMap.get handle (MessageBus.buses twice) = Some gone
  /\ MessageBus.listening handle twice = S (MessageBus.listening handle w)
  /\ forall now target content,
      MessageBus.send now handle target content twice
      = Thrown "Not connected" twice.
Proof.
  intros G gone once twice.
  assert (forall w0 b0,
             JsMap.get handle (MessageBus.buses w0) = Some b0 ->
             MessageBus.disconnect handle (MessageBus.connect handle w0)
             = MessageBus.mkHub
                 (JsMap.set handle
                    (MessageBus.mkBus (MessageBus.agentId b0) false [] None
                                      (MessageBus.received b0))
                    (JsMap.set handle
                       (MessageBus.mkBus (MessageBus.agentId b0) true
                          (MessageBus.channels b0)
                          (Some (MessageBus.nextListener w0))
                          (MessageBus.received b0))
                       (MessageBus.buses w0)))
                 (MessageBus.listeners w0) (S (MessageBus.nextListener w0)))
    as DC.
  { intros w0 b0 G0. unfold MessageBus.connect. rewrite G0.
    unfold MessageBus.disconnect. cbn [MessageBus.buses].
    rewrite get_set_same.
    cbn [MessageBus._hubListener MessageBus.listeners MessageBus.agentId
         MessageBus.received MessageBus.nextListener].
    now rewrite removeListener_last. }
  assert (exists b1,
             JsMap.get handle (MessageBus.buses (MessageBus.connect handle w))
             = Some b1
             /\ MessageBus.agentId b1 = MessageBus.agentId b
             /\ MessageBus.received b1 = MessageBus.received b
             /\ MessageBus.listeners (MessageBus.connect handle w)
                = MessageBus.listeners w ++ [(handle, MessageBus.nextListener w)])
    as (b1 & G1 & A1 & R1 & L1).
  { unfold MessageBus.connect. rewrite G. cbn [MessageBus.buses].
    rewrite get_set_same. eexists. split; [reflexivity|]. repeat split. }
  split.
  { intros C now target content. unfold MessageBus.send. now rewrite G, C. }
  subst once twice. rewrite (DC w b G), (DC _ b1 G1).
  cbn [MessageBus.listeners MessageBus.buses].
  rewrite !get_set_same, A1, R1.
  split; [reflexivity|]. split; [reflexivity|]. split; [reflexivity|]. split.
  - rewrite L1. unfold MessageBus.listening. cbn [MessageBus.listeners].
    rewrite filter_app, length_app. simpl. rewrite String.eqb_refl. simpl. lia.
  - intros now target content. unfold MessageBus.send.
    cbn [MessageBus.buses]. now rewrite get_set_same.
Qed.

(** "alpha" writes to "#agents": "beta" gets the message once, "alpha"
    gets nothing back. *)
Lemma send_witness :
  JsMap.get "a" (MessageBus.buses Cases.hub) = Some Cases.busA
  /\ exists w',
      MessageBus.send 10 "a" "#agents" "hello" Cases.hub = Returned w'
      /\ option_map MessageBus.received (JsMap.get "b" (MessageBus.buses w'))
         = Some [MessageBus.mkMsg "alpha" "#agents" "hello" 10]
      /\ option_map MessageBus.received (JsMap.get "a" (MessageBus.buses w'))
         = Some [].
Proof.
  split; [reflexivity|].
  destruct (send_reaches_the_addressees 10 "a" "#agents" "hello" Cases.hub
              Cases.busA eq_refl eq_refl) as (w' & S & _ & D & _).
  exists w'. split; [exact S|].
  rewrite (D "b" Cases.busB eq_refl), (D "a" Cases.busA eq_refl).
  split; reflexivity.
Defined.

(** "alpha" connects a second time and disconnects once. *)
Lemma connection_witness :
  JsMap.get "a" (MessageBus.buses Cases.hub) = Some Cases.busA
  /\ MessageBus.listening "a"
       (MessageBus.disconnect "a"
          (MessageBus.connect "a" (MessageBus.connect "a" Cases.hub)))
     = 2%nat.
Proof.
  split; [reflexivity|].
  exact (proj1 (proj2 (proj2 (proj2 (proj2
           (connection_life_cycle "a" Cases.hub Cases.busA eq_refl)))))).
Defined.

(** ** Command-line arguments *)

Lemma parseLoop_plain (rest : list string) :
  Forall (fun a => Agentctl.isFlag a = false) rest ->
  forall f pos, Agentctl.parseLoop rest f pos = (f, pos ++ rest).
Proof.
  induction 1 as [|a rest A _ IH]; intros f pos; cbn [Agentctl.parseLoop].
  - now rewrite app_nil_r.
  - unfold Agentctl.isFlag in A. apply orb_false_iff in A as [A1 A2].
    rewrite A1, A2, IH, <- app_assoc. reflexivity.
Qed.

Lemma slice2_long (k : string) : Agentctl.slice2 ("--" ++ k) = k.
Proof.
  unfold Agentctl.slice2. simpl. rewrite Nat.sub_0_r. now apply substring_all.
Qed.

Lemma parseLoop_spell (l : list (string * string)) (rest : list string) :
  Forall (fun kv => fst kv <> "__proto__"
                    /\ Agentctl.isValue (snd kv) = true) l ->
  Forall (fun a => Agentctl.isFlag a = false) rest ->
  forall f pos,
    Agentctl.parseLoop (Agentctl.spell l ++ rest) f pos
    = (Agentctl.stored l f, pos ++ rest).
Proof.
  intros L R. induction L as [|[k v] l [K V] _ IH]; intros f pos.
  - simpl. now apply parseLoop_plain.
  - cbn [Agentctl.spell flat_map fst snd app Agentctl.stored fold_left] in *.
    cbn [Agentctl.parseLoop].
    assert (Agentctl.startsWith "--" ("--" ++ k) = true) as -> by reflexivity.
    rewrite slice2_long. unfold Agentctl.isValue in V. rewrite V.
    unfold Agentctl.setFlag.
    assert (String.eqb k "__proto__" = false) as ->
      by (now apply String.eqb_neq).
    apply IH.
Qed.

(** X27. Arguments round trip.  The first argument after the program
    is the command, whatever it looks like ("help" when it is missing
    or empty).  Spelling out a list of flags as "--key value" pairs,
    where no key is "__proto__" and each value is non-empty and does
    not start with "--", and following them with arguments that are not
    flags (neither "--..." nor a dash with one character), gives back
    exactly these flags, a later pair overriding an earlier one with
    the same key, and these positional arguments, all of them, in
    their order. *)
Theorem long_flags_round_trip
    (node script cmd : string) (l : list (string * string))
    (rest : list string) :
  Forall (fun kv => fst kv <> "__proto__"
                    /\ Agentctl.isValue (snd kv) = true) l ->
  Forall (fun a => Agentctl.isFlag a = false) rest ->
  Agentctl.parseArgs (node :: script :: cmd :: Agentctl.spell l ++ rest)
  = Agentctl.mkParsed (if truthyS cmd then cmd else "help")
                      (Agentctl.stored l []) rest
  /\ Agentctl.parseArgs [node; script] = Agentctl.mkParsed "help" [] [].
Proof.
  intros L R. split; [|reflexivity].
  unfold Agentctl.parseArgs. cbn [skipn tl].
  now rewrite (parseLoop_spell l rest L R).
Qed.

Lemma long_flags_witness :
  Agentctl.parseArgs
    ["node"; "agentctl"; "--json"; "--count"; "5"; "--role"; "tester";
     "--count"; "-7"; "extra"; "-"; "-xyz"]
  = Agentctl.mkParsed "--json"
      [("count", Agentctl.FStr "-7"); ("role", Agentctl.FStr "tester")]
      ["extra"; "-"; "-xyz"].
Proof.
  assert (Forall (fun kv => fst kv <> "__proto__"
                            /\ Agentctl.isValue (snd kv) = true)
                 [("count", "5"); ("role", "tester"); ("count", "-7")]) as L
    by (repeat constructor; discriminate).
  assert (Forall (fun a => Agentctl.isFlag a = false) ["extra"; "-"; "-xyz"])
    as R by (repeat constructor).
  exact (proj1 (long_flags_round_trip "node" "agentctl" "--json"
                  [("count", "5"); ("role", "tester"); ("count", "-7")]
                  ["extra"; "-"; "-xyz"] L R)).
Defined.

(** X28. A short flag is its long name, except before a dash.  For a
    letter of the short-flag table, "-n" and "--count" (and so on) parse
    alike whenever the next argument is missing, starts with "--" or
    does not start with "-".  Before a value that starts with a single
    dash they differ: the long flag takes it as its value, the
    short flag is set to [true] and the value is parsed as an argument
    of its own. *)
Theorem short_flag_is_its_long_name
    (c long : string) (rest : list string) (f : JsMap.t Agentctl.FlagValue)
    (pos : list string) :
  Agentctl.shortMap c = Some long ->
  (match rest with
   | next :: _ =>
       Agentctl.startsWith "-" next = Agentctl.startsWith "--" next
   | [] => True
   end ->
   Agentctl.parseLoop (("-" ++ c)%string :: rest) f pos
   = Agentctl.parseLoop (("--" ++ long)%string :: rest) f pos)
  /\ forall next rest',
      next <> "" ->
      Agentctl.startsWith "-" next = true ->
      Agentctl.startsWith "--" next = false ->
      Agentctl.parseLoop (("--" ++ long)%string :: next :: rest') f pos
      = Agentctl.parseLoop rest' (Agentctl.setFlag long (Agentctl.FStr next) f) pos
      /\ Agentctl.parseLoop (("-" ++ c)%string :: next :: rest') f pos
         = Agentctl.parseLoop (next :: rest')
             (Agentctl.setFlag long Agentctl.FTrue f) pos.
Proof.
  intros M.
  assert (Agentctl.startsWith "--" ("-" ++ c) = false
          /\ Agentctl.startsWith "-" ("-" ++ c) = true
          /\ (String.length ("-" ++ c) =? 2)%nat = true
          /\ Agentctl.shortMap (Agentctl.charAt1 ("-" ++ c)) = Some long) as S.
  { unfold Agentctl.shortMap in M.
    repeat match type of M with
           | (if String.eqb c ?x then _ else _) = _ =>
               let E := fresh "E" in
               destruct (String.eqb c x) eqn:E;
               [apply String.eqb_eq in E; subst c; injection M as <-;
                repeat split
               |]
           end.
    discriminate. }
  destruct S as (S1 & S2 & S3 & S4).
  assert (Agentctl.startsWith "--" ("--" ++ long) = true) as L1 by reflexivity.
  split.
  - intros N. cbn [Agentctl.parseLoop].
    rewrite S1, S2, S3, S4, L1, slice2_long. cbn [andb].
    destruct rest as [|next rest']; [reflexivity|].
    now rewrite N.
  - intros next rest' T D1 D2. cbn [Agentctl.parseLoop].
    rewrite S1, S2, S3, S4, L1, slice2_long, D1, D2. cbn [andb negb].
    assert (truthyS next = true) as ->
      by (unfold truthyS; apply negb_true_iff; now apply String.eqb_neq).
    cbn [andb]. split; reflexivity.
Qed.

Lemma short_flag_witness :
  Agentctl.shortMap "n" = Some "count"
  /\ Agentctl.parseLoop ["-n"; "5"; "--json"] [] []
     = Agentctl.parseLoop ["--count"; "5"; "--json"] [] []
  /\ Agentctl.parseLoop ["-n"; "-5"] [] []
     = ([("count", Agentctl.FTrue); ("5", Agentctl.FTrue)], []).
Proof.
  split; [reflexivity|].
  destruct (short_flag_is_its_long_name "n" "count" ["5"; "--json"] [] []
              eq_refl) as [A _].
  destruct (short_flag_is_its_long_name "n" "count" [] [] [] eq_refl)
    as [_ B].
  split; [exact (A eq_refl)|].
  destruct (B "-5" [] ltac:(discriminate) eq_refl eq_refl) as [_ B2].
  change (("-" ++ "n")%string) with "-n" in B2. rewrite B2. reflexivity.
Defined.

(** ** A supervisor with a quota probe attached *)

Lemma record_exhausting (q : QuotaProbe.t) (now : Z) (r : QuotaProbe.Result) :
  QuotaProbe.agentId r <> "" ->
  0 < QuotaProbe.budget q ->
  QuotaProbe.budget q <= QuotaProbe._totalTokens q + QuotaProbe.tokensFor q r ->
  let total := QuotaProbe._totalTokens q + QuotaProbe.tokensFor q r in
  snd (QuotaProbe.record q now r)
  = [QuotaProbe.usage (QuotaProbe.agentId r) (QuotaProbe.tokensFor q r) total
                      (QuotaProbe.budget q);
     QuotaProbe.budget_exhausted total (QuotaProbe.budget q)]
  /\ QuotaProbe._totalTokens (fst (QuotaProbe.record q now r)) = total
  /\ QuotaProbe.isExhausted (fst (QuotaProbe.record q now r)) = true.
Proof.
  intros A B E total.
  assert (truthyS (QuotaProbe.agentId r) = true) as TA
    by (unfold truthyS; apply negb_true_iff; now apply String.eqb_neq).
  pose proof (record_total q now r) as RT. rewrite TA in RT. fold total in RT.
  pose proof (record_budget q now r) as RB.
  split; [|split; [exact RT|]].
  - unfold QuotaProbe.record. rewrite TA. cbn [negb]. cbv zeta. fold total.
    assert ((QuotaProbe.budget q >? 0) = true) as -> by (apply Z.gtb_lt; lia).
    rewrite (utilization_ge_1 total _ B).
    assert ((QuotaProbe.budget q <=? total) = true) as ->
      by (apply Z.leb_le; exact E).
    reflexivity.
  - unfold QuotaProbe.isExhausted. rewrite RB, RT.
    assert ((QuotaProbe.budget q <=? 0) = false) as -> by (apply Z.leb_gt; lia).
    rewrite Z.geb_leb. apply Z.leb_le. exact E.
Qed.

Lemma attached_queueLoop_paused (env : Supervisor.Env) (n : nat)
    (w : Attached.World) :
  Supervisor.promotionsPaused (Attached.sup w) = true ->
  Attached.queueLoop env n w = Returned w.
Proof.
  intros P. destruct n as [|n]; [reflexivity|].
  cbn [Attached.queueLoop]. unfold Supervisor.queueOpen. rewrite P.
  now rewrite andb_false_r.
Qed.

(** X29. The task that exhausts the budget frees no slot for the
    queue.  With a probe attached, when the executor of a daemon exits
    and the tokens recorded for its output bring the probe's total to
    the (positive) budget or beyond, the supervisor is paused by the
    probe's [budget_exhausted] before the daemon's [demoted] is
    handled: [promotionsPaused] is set, [tokensUsed] is the probe's
    total, [activeCount] goes down by one, and the promotion queue and
    every other daemon are left as they were. *)
Theorem exhausting_task_pauses_before_the_queue
    (env : Supervisor.Env) (w : Attached.World) (a : string)
    (entry : Supervisor.Entry) (code : option Z) (signal : option string)
    (stdout : string) :
  let d := Supervisor.daemon entry in
  let q := Attached.probe w in
  let result :=
    Attached.resultOf env
      (Daemon.mkResult (Daemon.agentId d) (Daemon.currentTask d) code signal
                       (match code with Some 0 => true | _ => false end)
                       (Some (sliceLast 2000 stdout)) None) w in
  JsMap.get a (Supervisor.processTable (Attached.sup w)) = Some entry ->
  Daemon.agentId d <> "" ->
  0 < QuotaProbe.budget q ->
  QuotaProbe.budget q
  <= QuotaProbe._totalTokens q + QuotaProbe.tokensFor q result ->
  exists w',
    Attached.childExit env a entry code signal stdout w = Returned w'
    /\ Attached.probe w' = fst (QuotaProbe.record q (Supervisor.now env) result)
    /\ QuotaProbe.isExhausted (Attached.probe w') = true
    /\ Supervisor.promotionsPaused (Attached.sup w') = true
    /\ Supervisor.tokensUsed (Attached.sup w')
       = QuotaProbe._totalTokens q + QuotaProbe.tokensFor q result
    /\ Supervisor.activeCount (Attached.sup w')
       = Z.max 0 (Supervisor.activeCount (Attached.sup w) - 1)
    /\ Supervisor.promotionQueue (Attached.sup w')
       = Supervisor.promotionQueue (Attached.sup w)
    /\ Supervisor.processTable (Attached.sup w')
       = JsMap.set a
           (Supervisor.with_daemon
              (fst (Daemon.onChildExit d code signal stdout)) entry)
           (Supervisor.processTable (Attached.sup w))
    /\ Attached.taskStartTimes w'
       = JsMap.delete (Daemon.agentId d) (Attached.taskStartTimes w).
Proof.
  intros d q result G A B E.
  destruct (record_exhausting q (Supervisor.now env) result A B E)
    as (EV & TOT & EX).
  unfold Attached.childExit, Daemon.onChildExit, Daemon._handleClaudeExit.
  cbv zeta. cbn [Attached.perform].
  set (d1 := Daemon._startHeartbeat _).
  set (res := Daemon.mkResult _ _ _ _ _ _ _).
  set (ev := if match code with Some 0 => true | _ => false end
             then Daemon.done res else Daemon.fail res).
  set (w1 := Attached.with_sup
               (Supervisor.say
                  (Supervisor.ByDaemon a (Daemon.WriteContext _)) _) _).
  set (w2 := Attached.with_sup
               (Supervisor.say (Supervisor.ByDaemon a (Daemon.Emit ev)) _) w1).
  assert (exists s3,
             Attached.onDaemonEvent env ev w2
             = Returned (Attached.onResult env res (Attached.with_sup s3 w2))
             /\ Supervisor.processTable s3
                = Supervisor.processTable (Attached.sup w2)
             /\ Supervisor.promotionQueue s3
                = Supervisor.promotionQueue (Attached.sup w2)
             /\ Supervisor.activeCount s3
                = Supervisor.activeCount (Attached.sup w2))
    as (s3 & E3 & T3 & Q3 & A3).
  { subst ev. destruct (match code with Some 0 => true | _ => false end);
      cbn [Attached.onDaemonEvent Attached.onLifecycle Supervisor.onLifecycle
           Attached.withSup bindO];
      eexists; (split; [reflexivity|]);
      unfold Supervisor._busSend, Supervisor._log, Supervisor.say;
      destruct (Supervisor.busConnected _); repeat split. }
  rewrite E3. cbn [bindO]. clear E3.
  set (w3 := Attached.with_sup s3 w2).
  assert (Attached.resultOf env res w3 = result) as RES by reflexivity.
  assert (exists s5,
             Attached.onResult env res w3
             = Attached.mkWorld s5
                 (fst (QuotaProbe.record q (Supervisor.now env) result))
                 (JsMap.delete (Daemon.agentId d) (Attached.taskStartTimes w))
             /\ Supervisor.promotionsPaused s5 = true
             /\ Supervisor.tokensUsed s5
                = QuotaProbe._totalTokens q + QuotaProbe.tokensFor q result
             /\ Supervisor.processTable s5 = Supervisor.processTable s3
             /\ Supervisor.promotionQueue s5 = Supervisor.promotionQueue s3
             /\ Supervisor.activeCount s5 = Supervisor.activeCount s3)
    as (s5 & E5 & P5 & U5 & T5 & Q5 & A5).
  { unfold Attached.onResult. rewrite RES.
    change (Attached.probe w3) with q.
    destruct (QuotaProbe.record q (Supervisor.now env) result) as [q' evs].
    cbn [fst snd] in *. subst evs. cbn [fold_left Attached.onProbeEvent].
    eexists. split; [reflexivity|]. rewrite TOT. repeat split. }
  rewrite E5. clear E5.
  cbn [Attached.perform Attached.with_sup Attached.sup Attached.probe
       Attached.taskStartTimes bindO Attached.onDaemonEvent].
  set (w6 := Attached.with_sup (Supervisor._log "agent_demoted" _ _) _).
  assert (Supervisor.promotionsPaused (Attached.sup w6) = true) as P6
    by exact P5.
  unfold Attached._processPromotionQueue.
  rewrite (attached_queueLoop_paused env _ w6 P6). cbn [bindO].
  exists w6. split; [reflexivity|].
  split; [reflexivity|]. split; [exact EX|]. split; [exact P6|].
  split; [exact U5|].
  split.
  { subst w6. cbn [Attached.sup Attached.with_sup Supervisor._log
                   Supervisor.say Supervisor.with_trace
                   Supervisor.with_activeCount Supervisor.activeCount].
    rewrite A5, A3. reflexivity. }
  split.
  { subst w6. cbn [Attached.sup Attached.with_sup Supervisor._log
                   Supervisor.say Supervisor.with_trace
                   Supervisor.with_activeCount Supervisor.promotionQueue].
    rewrite Q5, Q3. reflexivity. }
  split; [|reflexivity].
  subst w6. cbn [Attached.sup Attached.with_sup Supervisor._log
                 Supervisor.say Supervisor.with_trace
                 Supervisor.with_activeCount Supervisor.processTable].
  rewrite T5, T3. reflexivity.
Qed.

(** Daemon 0 finishes with two characters of output under a budget of
    one token: daemon 1 stays in the queue. *)
Lemma exhausting_task_witness :
  JsMap.get "id-swarm-builder-000"
    (Supervisor.processTable (Attached.sup Cases.metered))
  = Some Cases.worker0
  /\ exists w',
      Attached.childExit (Scenario.world 2700) "id-swarm-builder-000"
        Cases.worker0 (Some 0) None "ok" Cases.metered = Returned w'
      /\ Supervisor.promotionsPaused (Attached.sup w') = true
      /\ Supervisor.tokensUsed (Attached.sup w') = 1
      /\ Supervisor.promotionQueue (Attached.sup w')
         = [Supervisor.mkReq "id-swarm-builder-001" (Some Scenario.task)].
Proof.
  split; [reflexivity|].
  destruct (exhausting_task_pauses_before_the_queue (Scenario.world 2700)
              Cases.metered "id-swarm-builder-000" Cases.worker0 (Some 0) None
              "ok" eq_refl ltac:(discriminate) eq_refl
              ltac:(vm_compute; discriminate))
    as (w' & R & _ & _ & P & U & _ & Q & _).
  exists w'. split; [exact R|]. split; [exact P|].
  split; [exact U|exact Q].
Defined.

Lemma onResult_sync (env : Supervisor.Env) (r : Daemon.TaskResult)
    (w : Attached.World) :
  Supervisor.tokensUsed (Attached.sup (Attached.onResult env r w))
  = QuotaProbe._totalTokens (Attached.probe (Attached.onResult env r w)).
Proof.
  unfold Attached.onResult.
  destruct (QuotaProbe.record _ _ _) as [q evs]. reflexivity.
Qed.

Lemma attached_onLifecycle_sync (env : Supervisor.Env) (e : Daemon.Event)
    (w : Attached.World) :
  Supervisor.tokensUsed (Attached.sup w)
  = QuotaProbe._totalTokens (Attached.probe w) ->
  let w' := stateOf (Attached.onLifecycle env e w) in
  Supervisor.tokensUsed (Attached.sup w')
  = QuotaProbe._totalTokens (Attached.probe w').
Proof.
  intros I. unfold Attached.onLifecycle.
  pose proof (onLifecycle_settings env e (Attached.sup w)) as (_ & U & _).
  destruct (Supervisor.onLifecycle env e (Attached.sup w)) as [s1|m s1];
    cbn [Attached.withSup bindO stateOf] in *.
  - destruct e; cbn [stateOf]; try apply onResult_sync;
      cbn [Attached.sup Attached.probe Attached.with_sup]; congruence.
  - cbn [Attached.sup Attached.probe Attached.with_sup]. congruence.
Qed.

Lemma attached_perform_sync (env : Supervisor.Env) (a : string)
    (acts : list Daemon.Action) :
  forall w,
    Supervisor.tokensUsed (Attached.sup w)
    = QuotaProbe._totalTokens (Attached.probe w) ->
    let w' := stateOf (Attached.perform (Attached.onLifecycle env) a acts w) in
    Supervisor.tokensUsed (Attached.sup w')
    = QuotaProbe._totalTokens (Attached.probe w').
Proof.
  induction acts as [|x acts IH]; intros w I; [exact I|].
  cbn [Attached.perform].
  set (w1 := Attached.with_sup _ w).
  assert (Supervisor.tokensUsed (Attached.sup w1)
          = QuotaProbe._totalTokens (Attached.probe w1)) as I1 by exact I.
  clearbody w1.
  destruct x as [ev| | |]; try (apply IH; exact I1).
  pose proof (attached_onLifecycle_sync env ev w1 I1) as S.
  destruct (Attached.onLifecycle env ev w1) as [w2|m w2];
    cbn [bindO stateOf] in *.
  - apply IH. exact S.
  - exact S.
Qed.

Lemma attached_approve_sync (env : Supervisor.Env) (a : string)
    (e : Supervisor.Entry) (task : option Daemon.Task) (w : Attached.World) :
  Supervisor.tokensUsed (Attached.sup w)
  = QuotaProbe._totalTokens (Attached.probe w) ->
  let w' := stateOf (Attached.approve env a e task w) in
  Supervisor.tokensUsed (Attached.sup w')
  = QuotaProbe._totalTokens (Attached.probe w').
Proof.
  intros I. unfold Attached.approve.
  destruct (Daemon.approvePromotion _ _ _) as [[d acts]|m [d acts]].
  - apply attached_perform_sync. exact I.
  - exact I.
Qed.

Lemma attached_queueLoop_sync (env : Supervisor.Env) (n : nat) :
  forall w,
    Supervisor.tokensUsed (Attached.sup w)
    = QuotaProbe._totalTokens (Attached.probe w) ->
    let w' := stateOf (Attached.queueLoop env n w) in
    Supervisor.tokensUsed (Attached.sup w')
    = QuotaProbe._totalTokens (Attached.probe w').
Proof.
  induction n as [|n IH]; intros w I; [exact I|].
  cbn [Attached.queueLoop].
  destruct (Supervisor.queueOpen (Attached.sup w)); [|exact I].
  assert (let w1 := stateOf (Attached.queueTurn env w) in
          Supervisor.tokensUsed (Attached.sup w1)
          = QuotaProbe._totalTokens (Attached.probe w1)) as T.
  { unfold Attached.queueTurn.
    destruct (Supervisor.promotionQueue (Attached.sup w)) as [|req rest];
      [exact I|].
    cbv zeta.
    destruct (JsMap.get _ _) as [entry|]; [|exact I].
    destruct (Daemon.state_eqb _ _); [|exact I].
    apply attached_approve_sync. exact I. }
  cbv zeta in T.
  destruct (Attached.queueTurn env w) as [w1|m w1]; cbn [bindO stateOf] in *.
  - apply IH. exact T.
  - exact T.
Qed.

(** X30. The supervisor's count follows the probe.  With a probe
    attached, once the exit of an executor has been handled (the
    result recorded, the daemon demoted, the promotion queue processed
    and whatever executors that starts or fails to start), the
    supervisor's [tokensUsed] equals the probe's [totalTokens], whatever
    the two were before; and every promotion request handled from a
    state where they agree leaves them in agreement. *)
Theorem tokensUsed_follows_the_probe
    (env : Supervisor.Env) (w : Attached.World) (a : string)
    (entry : Supervisor.Entry) (code : option Z) (signal : option string)
    (stdout : string) :
  (let w' := stateOf (Attached.childExit env a entry code signal stdout w) in
   Supervisor.tokensUsed (Attached.sup w')
   = QuotaProbe._totalTokens (Attached.probe w'))
  /\ forall req w0,
      Supervisor.tokensUsed (Attached.sup w0)
      = QuotaProbe._totalTokens (Attached.probe w0) ->
      let w' := stateOf (Attached._handlePromoteRequest env req w0) in
      Supervisor.tokensUsed (Attached.sup w')
      = QuotaProbe._totalTokens (Attached.probe w').
Proof.
  split.
  - unfold Attached.childExit, Daemon.onChildExit, Daemon._handleClaudeExit.
    cbv zeta. cbn [Attached.perform].
    set (res := Daemon.mkResult _ _ _ _ _ _ _).
    set (ev := if match code with Some 0 => true | _ => false end
               then Daemon.done res else Daemon.fail res).
    match goal with
    | |- context [Attached.onDaemonEvent env ev ?x] => set (w2 := x)
    end.
    assert (exists w3,
               Attached.onDaemonEvent env ev w2 = Returned w3
               /\ Supervisor.tokensUsed (Attached.sup w3)
                  = QuotaProbe._totalTokens (Attached.probe w3))
      as (w3 & E3 & I3).
    { subst ev. destruct (match code with Some 0 => true | _ => false end);
        cbn [Attached.onDaemonEvent Attached.onLifecycle Supervisor.onLifecycle
             Attached.withSup bindO];
        eexists; (split; [reflexivity|]); apply onResult_sync. }
    rewrite E3. cbn [bindO Attached.onDaemonEvent].
    match goal with
    | |- context [Attached._processPromotionQueue env ?x] => set (w4 := x)
    end.
    assert (Supervisor.tokensUsed (Attached.sup w4)
            = QuotaProbe._totalTokens (Attached.probe w4)) as I4 by exact I3.
    clearbody w4. unfold Attached._processPromotionQueue.
    pose proof (attached_queueLoop_sync env
                  (List.length (Supervisor.promotionQueue (Attached.sup w4)))
                  w4 I4) as L.
    destruct (Attached.queueLoop env _ w4) as [w5|m w5];
      cbn [bindO stateOf Attached.perform] in *; exact L.
  - intros req w0 I. unfold Attached._handlePromoteRequest. cbv zeta.
    destruct (Supervisor.promotionsPaused _).
    { destruct (JsMap.get _ _) as [entry0|]; [|exact I].
      cbn [stateOf Attached.sup Attached.probe Attached.with_sup].
      unfold Supervisor.deny.
      destruct (Daemon.denyPromotion _ _) as [d acts]. exact I. }
    destruct (_ >=? _); [exact I|].
    destruct (_ && _).
    { cbn [stateOf Attached.sup Attached.probe Attached.with_sup].
      destruct (JsMap.get _ _) as [entry0|]; [|exact I].
      unfold Supervisor.deny.
      destruct (Daemon.denyPromotion _ _) as [d acts]. exact I. }
    destruct (JsMap.get _ _) as [entry0|]; [|exact I].
    apply attached_approve_sync. exact I.
Qed.
